(** * Nexus MCP Hub core: a shallow embedding of the router, the access
    control list, the server supervisor, the hub's broadcast handlers, the
    JSON-RPC dispatcher, the password token store and the client-role
    capability query, with the properties checked against them. *)

From Stdlib Require Import ZArith Lia Ascii String List DecimalString.
From stdpp Require Import base gmap strings list.
From Stdlib Require Import DecimalPos.

(** * Part I: the model *)

(** ** Python built-ins the source relies on *)

Module Py.

(** [s.startswith(p)] *)
Fixpoint startswith (s p : string) {struct p} : bool :=
  match p with
  | EmptyString => true
  | String a p' =>
      match s with
      | EmptyString => false
      | String b s' => if decide (a = b) then startswith s' p' else false
      end
  end.

(** [s.endswith(p)] *)
Definition endswith (s p : string) : bool :=
  startswith (String.rev s) (String.rev p).

(** [s[:n]] and [s[n:]] for [n] not negative *)
Fixpoint str_take (n : nat) (s : string) : string :=
  match n, s with
  | S n', String c s' => String c (str_take n' s')
  | _, _ => EmptyString
  end.

Fixpoint str_drop (n : nat) (s : string) : string :=
  match n, s with
  | S n', String _ s' => str_drop n' s'
  | _, _ => s
  end.

(** [s[:-n]] for a positive literal [n] *)
Definition drop_last (n : nat) (s : string) : string :=
  str_take (String.length s - n) s.

(** [c in s] for a one-character string [c] *)
Fixpoint contains (c : ascii) (s : string) : bool :=
  match s with
  | EmptyString => false
  | String a s' => if decide (a = c) then true else contains c s'
  end.

(** [s.split(c)] for a one-character separator: never the empty list. *)
Fixpoint split_go (c : ascii) (cur : string) (s : string) : list string :=
  match s with
  | EmptyString => [String.rev cur]
  | String a s' =>
      if decide (a = c) then String.rev cur :: split_go c EmptyString s'
      else split_go c (String a cur) s'
  end.

Definition split (s : string) (c : ascii) : list string :=
  split_go c EmptyString s.

(** Truthiness of an [Optional[str]]: [None] and [""] are falsy. *)
Definition truthy_str (o : option string) : bool :=
  match o with
  | Some s => negb (bool_decide (s = ""))
  | None => false
  end.

(** [l.remove(x)] for an [x] that is in [l]: the first occurrence only. *)
Fixpoint list_remove (x : string) (l : list string) : list string :=
  match l with
  | [] => []
  | y :: l' => if decide (y = x) then l' else y :: list_remove x l'
  end.

(** A Python [set], seen through the only thing the source observes: the
    order in which a [for] loop visits it.  The state of a set is the list
    of its elements in that order.  Adding an element that is already
    there changes nothing; a new element lands wherever its hash sends it,
    which the language leaves open, so the position is a parameter. *)
Section PySet.
Context {A : Type} `{EqDecision A}.
Variable place : list A → A → list A.

Definition set_add (s : list A) (x : A) : list A :=
  if decide (x ∈ s) then s else place s x.

Definition set_discard (s : list A) (x : A) : list A :=
  filter (λ y, y ≠ x) s.
End PySet.

(** What every placement has to satisfy: the new element is added, nothing
    is lost, nothing is duplicated. *)
Definition place_ok {A : Type} (place : list A → A → list A) : Prop :=
  ∀ s x, x ∉ s → place s x ≡ₚ x :: s.

(** Two placements: new elements last, new elements first. *)
Definition place_back {A : Type} (s : list A) (x : A) : list A := s ++ [x].
Definition place_front {A : Type} (s : list A) (x : A) : list A := x :: s.

End Py.

(** ** JSON values, as [json.loads] builds them and the handlers read them *)

Module Json.

(** A dict is the list of its items in insertion order; numbers are the
    integers, which is all the modelled code tells apart. *)
#[local] Unset Elimination Schemes.
Inductive value : Type :=
| JNull
| JBool (b : bool)
| JInt (n : Z)
| JStr (s : string)
| JList (l : list value)
| JDict (d : list (string * value)).
#[local] Set Elimination Schemes.

(** Python truthiness: what [if v:] tests. *)
Definition truthy (v : value) : bool :=
  match v with
  | JNull => false
  | JBool b => b
  | JInt n => negb (bool_decide (n = 0%Z))
  | JStr s => negb (bool_decide (s = ""))
  | JList l => match l with [] => false | _ => true end
  | JDict d => match d with [] => false | _ => true end
  end.

(** [o] truthy, for an [Optional] result. *)
Definition truthy_opt (o : option value) : bool :=
  match o with Some v => truthy v | None => false end.

Fixpoint items_get (d : list (string * value)) (k : string) : option value :=
  match d with
  | [] => None
  | (k', v) :: rest => if decide (k' = k) then Some v else items_get rest k
  end.

(** [k in d] *)
Definition has_key (d : list (string * value)) (k : string) : bool :=
  match items_get d k with Some _ => true | None => false end.

(** [v == s] for a string literal [s] *)
Definition eq_str (v : value) (s : string) : bool :=
  match v with JStr s' => bool_decide (s' = s) | _ => false end.

(** [isinstance(v, dict)] *)
Definition is_dict (v : value) : bool :=
  match v with JDict _ => true | _ => false end.

(** A call either returns or raises; the text of the exception is kept. *)
Inductive outcome (A : Type) : Type :=
| Return (a : A)
| Raise (what : string).
Global Arguments Return {A} a.
Global Arguments Raise {A} what.

(** [v.get(k)] and [v.get(k, dflt)]: a value that is not a dict has no [get]. *)
Definition get (v : value) (k : string) : outcome (option value) :=
  match v with
  | JDict d => Return (items_get d k)
  | _ => Raise "AttributeError"
  end.

Definition get_default (v : value) (k : string) (dflt : value) : outcome value :=
  match v with
  | JDict d => Return (default dflt (items_get d k))
  | _ => Raise "AttributeError"
  end.

(** [None] as a JSON value, for results stored under a key. *)
Definition of_option (o : option value) : value := default JNull o.

(** The code of a JSON-RPC error response, if the value is one. *)
Definition error_code (v : value) : option Z :=
  match v with
  | JDict d =>
      match items_get d "error" with
      | Some (JDict e) =>
          match items_get e "code" with Some (JInt c) => Some c | _ => None end
      | _ => None
      end
  | _ => None
  end.

End Json.

(** ** Message router: [router/route.py], [router/router.py] *)

Module Router.

Inductive RouteType : Type :=
| SERVER | CLIENT | ALL_SERVERS | ALL_CLIENTS | CAPABILITY | HUB.

Global Instance RouteType_eq_dec : EqDecision RouteType.
Proof. solve_decision. Defined.

Record RouteTarget : Type := mkRouteTarget {
  route_type : RouteType;
  target_id : option string;
  capability : option string
}.

Global Instance RouteTarget_eq_dec : EqDecision RouteTarget.
Proof. solve_decision. Defined.

(** [RouteTarget._validate]: [false] stands for the [ValueError]. *)
Definition validate (t : RouteTarget) : bool :=
  if bool_decide (route_type t ∈ [SERVER; CLIENT]) && negb (Py.truthy_str (target_id t))
  then false
  else if bool_decide (route_type t = CAPABILITY) && negb (Py.truthy_str (capability t))
  then false
  else true.

Record Route : Type := mkRoute {
  source : RouteTarget;
  destination : RouteTarget;
  method_pattern : option string
}.

Global Instance Route_eq_dec : EqDecision Route.
Proof. solve_decision. Defined.

(** [Route.matches_method] *)
Definition matches_method (self : Route) (method : string) : bool :=
  match method_pattern self with
  | None => true
  | Some pat =>
      if bool_decide (pat = "") then true
      else if bool_decide (pat = method) then true
      else if Py.endswith pat "/*" then Py.startswith method (Py.drop_last 2 pat)
      else if Py.endswith pat "*" then Py.startswith method (Py.drop_last 1 pat)
      else if Py.contains "*"%char pat then
        match Py.split pat "*"%char with
        | [p0; p1] => Py.startswith method p0 && Py.endswith method p1
        | _ => false
        end
      else false
  end.

(** [MessageRouter]: [routes] is the Python set, in iteration order. *)
Record MessageRouter : Type := mkRouter { routes : list Route }.

Definition default_client_route : Route :=
  mkRoute (mkRouteTarget ALL_CLIENTS None None) (mkRouteTarget HUB None None) None.

Definition default_hub_route : Route :=
  mkRoute (mkRouteTarget HUB None None) (mkRouteTarget ALL_CLIENTS None None)
          (Some "notifications/*").

Section Mutators.
Variable place : list Route → Route → list Route.

Definition add_route (self : MessageRouter) (route : Route) : MessageRouter :=
  mkRouter (Py.set_add place (routes self) route).

Definition remove_route (self : MessageRouter) (route : Route) : MessageRouter :=
  mkRouter (Py.set_discard (routes self) route).

Definition _initialize_default_routes (self : MessageRouter) : MessageRouter :=
  add_route (add_route self default_client_route) default_hub_route.

(** [MessageRouter.__init__] *)
Definition init : MessageRouter := _initialize_default_routes (mkRouter []).

Definition clear_routes (self : MessageRouter) : MessageRouter :=
  _initialize_default_routes (mkRouter []).

(** The router after [__init__] and a run of [add_route] calls. *)
Definition after_adding (rs : list Route) : MessageRouter :=
  foldl add_route init rs.
End Mutators.

Definition is_empty {A : Type} (l : list A) : bool :=
  match l with [] => true | _ => false end.

(** [MessageRouter.get_matching_routes], with its two early returns. *)
Definition get_matching_routes (self : MessageRouter) (src : RouteTarget)
    (method : string) : list Route :=
  let source_type_matches :=
    filter (λ route, route_type (source route) = route_type src) (routes self) in
  if is_empty source_type_matches then []
  else
    let source_matches :=
      if bool_decide (route_type src ∈ [SERVER; CLIENT]) && bool_decide (is_Some (target_id src))
      then filter (λ route, target_id (source route) = target_id src) source_type_matches
      else if bool_decide (route_type src = CAPABILITY) && bool_decide (is_Some (capability src))
      then filter (λ route, capability (source route) = capability src) source_type_matches
      else source_type_matches in
    if is_empty source_matches then []
    else filter (λ route, matches_method route method = true) source_matches.

(** The three filters of the lookup, as properties of a single route. *)
Definition type_match (src : RouteTarget) (route : Route) : Prop :=
  route_type (source route) = route_type src.

Definition id_or_capability_match (src : RouteTarget) (route : Route) : Prop :=
  match route_type src, target_id src, capability src with
  | (SERVER | CLIENT), Some _, _ => target_id (source route) = target_id src
  | CAPABILITY, _, Some _ => capability (source route) = capability src
  | _, _, _ => True
  end.

Definition pattern_match (method : string) (route : Route) : Prop :=
  matches_method route method = true.

Definition passes_all (src : RouteTarget) (method : string) (route : Route) : Prop :=
  type_match src route ∧ id_or_capability_match src route ∧ pattern_match method route.

Global Instance id_or_capability_match_dec src route :
  Decision (id_or_capability_match src route).
Proof.
  unfold id_or_capability_match.
  destruct (route_type src), (target_id src), (capability src); apply _.
Defined.

Global Instance passes_all_dec src method route : Decision (passes_all src method route).
Proof. unfold passes_all, type_match, pattern_match. apply _. Defined.

End Router.

(** ** Access control: [security/acl.py] *)

Module Acl.

Inductive Permission : Type :=
| SERVER_VIEW | SERVER_CREATE | SERVER_MODIFY | SERVER_DELETE | SERVER_START | SERVER_STOP
| CLIENT_VIEW | CLIENT_CREATE | CLIENT_MODIFY | CLIENT_DELETE
| RESOURCE_VIEW | RESOURCE_CREATE | RESOURCE_MODIFY | RESOURCE_DELETE
| TOOL_VIEW | TOOL_CALL
| PROMPT_VIEW | PROMPT_USE
| SAMPLING_REQUEST
| ROUTER_VIEW | ROUTER_MODIFY
| ADMIN_VIEW | ADMIN_MODIFY.

Global Instance Permission_eq_dec : EqDecision Permission.
Proof. solve_decision. Defined.

Record Resource : Type := mkResource {
  resource_type : string;
  resource_id : option string
}.

Global Instance Resource_eq_dec : EqDecision Resource.
Proof. solve_decision. Defined.

(** [Resource.matches]: [self] is the role's resource, [other] the query. *)
Definition matches (self other : Resource) : bool :=
  if bool_decide (resource_type self ≠ resource_type other) then false
  else match resource_id self with
       | None => true
       | Some _ =>
           match resource_id other with
           | None => false
           | Some _ => bool_decide (resource_id self = resource_id other)
           end
       end.

(** A role.  [permissions] is the dict from resource to permission set, kept
    in insertion order, which is the order [items()] visits; a permission
    set is only ever asked for membership. *)
Record Role : Type := mkRole {
  name : string;
  description : option string;
  permissions : list (Resource * list Permission)
}.

(** [Role(name, description)] *)
Definition new_role (n : string) (d : option string) : Role := mkRole n d [].

Fixpoint dict_update (d : list (Resource * list Permission)) (k : Resource)
    (f : list Permission → list Permission) : list (Resource * list Permission) :=
  match d with
  | [] => []
  | (k', v) :: rest =>
      if decide (k' = k) then (k', f v) :: rest else (k', v) :: dict_update rest k f
  end.

Definition set_insert (x : Permission) (s : list Permission) : list Permission :=
  if decide (x ∈ s) then s else s ++ [x].

(** [Role.add_permission] *)
Definition add_permission (self : Role) (resource : Resource) (permission : Permission) : Role :=
  let d := if decide (resource ∈ (permissions self).*1) then permissions self
           else permissions self ++ [(resource, [])] in
  mkRole (name self) (description self) (dict_update d resource (set_insert permission)).

(** [Role.remove_permission] *)
Definition remove_permission (self : Role) (resource : Resource) (permission : Permission) : Role :=
  if decide (resource ∈ (permissions self).*1) then
    let d := dict_update (permissions self) resource (filter (λ p, p ≠ permission)) in
    mkRole (name self) (description self)
      (filter (λ kv, ¬ (kv.1 = resource ∧ kv.2 = [])) d)
  else self.

(** [Role.has_permission]: the loop returns at the first entry whose
    resource matches, with that entry's answer. *)
Fixpoint has_permission_items (items : list (Resource * list Permission))
    (resource : Resource) (permission : Permission) : bool :=
  match items with
  | [] => false
  | (role_resource, perms) :: rest =>
      if matches role_resource resource then bool_decide (permission ∈ perms)
      else has_permission_items rest resource permission
  end.

Definition role_has_permission (self : Role) (resource : Resource)
    (permission : Permission) : bool :=
  has_permission_items (permissions self) resource permission.

(** [AccessControlList] *)
Record AccessControlList : Type := mkAcl {
  roles : gmap string Role;
  user_roles : gmap string (list string)
}.

Definition grant_all (r : Role) (grants : list (string * Permission)) : Role :=
  foldl (λ acc g, add_permission acc (mkResource g.1 None) g.2) r grants.

Definition admin_role : Role :=
  grant_all (new_role "admin" (Some "Administrator with full access"))
    [("server", SERVER_VIEW); ("server", SERVER_CREATE); ("server", SERVER_MODIFY);
     ("server", SERVER_DELETE); ("server", SERVER_START); ("server", SERVER_STOP);
     ("client", CLIENT_VIEW); ("client", CLIENT_CREATE); ("client", CLIENT_MODIFY);
     ("client", CLIENT_DELETE);
     ("resource", RESOURCE_VIEW); ("resource", RESOURCE_CREATE);
     ("resource", RESOURCE_MODIFY); ("resource", RESOURCE_DELETE);
     ("tool", TOOL_VIEW); ("tool", TOOL_CALL);
     ("prompt", PROMPT_VIEW); ("prompt", PROMPT_USE);
     ("sampling", SAMPLING_REQUEST);
     ("router", ROUTER_VIEW); ("router", ROUTER_MODIFY);
     ("admin", ADMIN_VIEW); ("admin", ADMIN_MODIFY)].

Definition user_role : Role :=
  grant_all (new_role "user" (Some "Regular user with limited access"))
    [("server", SERVER_VIEW); ("client", CLIENT_VIEW); ("resource", RESOURCE_VIEW);
     ("tool", TOOL_VIEW); ("tool", TOOL_CALL);
     ("prompt", PROMPT_VIEW); ("prompt", PROMPT_USE);
     ("sampling", SAMPLING_REQUEST)].

Definition guest_role : Role :=
  grant_all (new_role "guest" (Some "Guest user with minimal access"))
    [("server", SERVER_VIEW); ("resource", RESOURCE_VIEW)].

(** [_initialize_default_roles] *)
Definition _initialize_default_roles (self : AccessControlList) : AccessControlList :=
  mkAcl (<["guest" := guest_role]> (<["user" := user_role]> (<["admin" := admin_role]> (roles self))))
        (user_roles self).

(** The roles file as [_load_roles] reads it, already decoded. *)
Record RolesFile : Type := mkRolesFile {
  file_roles : gmap string Role;
  file_user_roles : gmap string (list string)
}.

(** [_load_roles]: roles of the file override the defaults of the same
    name, the assignments of the file replace the empty ones. *)
Definition _load_roles (self : AccessControlList) (file : option RolesFile) : AccessControlList :=
  match file with
  | None => self
  | Some f => mkAcl (file_roles f ∪ roles self) (file_user_roles f)
  end.

(** [AccessControlList.__init__] *)
Definition init (file : option RolesFile) : AccessControlList :=
  _load_roles (_initialize_default_roles (mkAcl ∅ ∅)) file.

(** [_save_roles] writes the file and leaves the object as it is. *)
Definition _save_roles (self : AccessControlList) : RolesFile :=
  mkRolesFile (roles self) (user_roles self).

(** [add_role] *)
Definition add_role (self : AccessControlList) (role : Role) : AccessControlList :=
  mkAcl (<[name role := role]> (roles self)) (user_roles self).

(** [remove_role] *)
Definition remove_role (self : AccessControlList) (role_name : string)
    : bool * AccessControlList :=
  match roles self !! role_name with
  | None => (false, self)
  | Some _ =>
      (true,
       mkAcl (delete role_name (roles self))
             ((λ rs, if decide (role_name ∈ rs) then Py.list_remove role_name rs else rs)
                <$> user_roles self))
  end.

(** [assign_role] *)
Definition assign_role (self : AccessControlList) (username role_name : string)
    : bool * AccessControlList :=
  match roles self !! role_name with
  | None => (false, self)
  | Some _ =>
      let ur := match user_roles self !! username with
                | None => <[username := []]> (user_roles self)
                | Some _ => user_roles self
                end in
      let current := default [] (ur !! username) in
      if decide (role_name ∈ current) then (true, mkAcl (roles self) ur)
      else (true, mkAcl (roles self) (<[username := current ++ [role_name]]> ur))
  end.

(** [revoke_role] *)
Definition revoke_role (self : AccessControlList) (username role_name : string)
    : bool * AccessControlList :=
  match user_roles self !! username with
  | None => (false, self)
  | Some current =>
      if decide (role_name ∈ current) then
        let current' := Py.list_remove role_name current in
        let ur := if decide (current' = []) then delete username (user_roles self)
                  else <[username := current']> (user_roles self) in
        (true, mkAcl (roles self) ur)
      else (false, self)
  end.

(** [get_user_roles] *)
Definition get_user_roles (self : AccessControlList) (username : string) : list string :=
  default [] (user_roles self !! username).

(** [AccessControlList.has_permission] *)
Fixpoint has_permission_roles (self : AccessControlList) (role_names : list string)
    (resource : Resource) (permission : Permission) : bool :=
  match role_names with
  | [] => false
  | role_name :: rest =>
      match roles self !! role_name with
      | Some role =>
          if role_has_permission role resource permission then true
          else has_permission_roles self rest resource permission
      | None => has_permission_roles self rest resource permission
      end
  end.

Definition has_permission (self : AccessControlList) (username : string)
    (resource : Resource) (permission : Permission) : bool :=
  has_permission_roles self (get_user_roles self username) resource permission.

(** The documented rule, in the words of the specification: a role's
    resource matches the query when the types are identical and the role's
    resource has no id or has the queried id; a user has a permission when
    some role assigned to the user has an entry that matches and grants it. *)
Definition spec_resource_matches (role_resource query : Resource) : Prop :=
  resource_type role_resource = resource_type query
  ∧ (resource_id role_resource = None ∨ resource_id role_resource = resource_id query).

Definition spec_has_permission (self : AccessControlList) (username : string)
    (resource : Resource) (permission : Permission) : Prop :=
  ∃ role_name role role_resource perms,
    role_name ∈ get_user_roles self username
    ∧ roles self !! role_name = Some role
    ∧ (role_resource, perms) ∈ permissions role
    ∧ spec_resource_matches role_resource resource
    ∧ permission ∈ perms.

(** A roles file whose assignment lists name each role at most once. *)
Definition file_ok (f : RolesFile) : Prop :=
  ∀ u rs, file_user_roles f !! u = Some rs → NoDup rs.

(** The states an access control list can be in: built by [__init__] from
    no file or from a roles file, whose assignments [_load_roles] stores as
    it finds them, and changed by the four mutators. *)
Inductive reachable : AccessControlList → Prop :=
| reach_fresh : reachable (init None)
| reach_loaded f : reachable (init (Some f))
| reach_add_role s role : reachable s → reachable (add_role s role)
| reach_remove_role s n : reachable s → reachable (remove_role s n).2
| reach_assign_role s u n : reachable s → reachable (assign_role s u n).2
| reach_revoke_role s u n : reachable s → reachable (revoke_role s u n).2.

(** No assignment list names a role twice. *)
Definition lists_without_duplicates (s : AccessControlList) : Prop :=
  ∀ u rs, user_roles s !! u = Some rs → NoDup rs.

End Acl.

(** ** Server supervisor: [hub/server_manager.py] *)

Module Supervisor.

(** The entries of a server configuration dict that the supervisor reads. *)
Record ServerConfig : Type := mkConfig {
  command : option string;
  args : list string;
  cfg_auto_restart : option bool
}.

(** The per-server dict of [self.servers].  [process] is the handle of the
    child, named by its pid; an entry read back from the process registry
    file has none. *)
Record ServerInfo : Type := mkInfo {
  config : ServerConfig;
  process : option nat;
  running : bool;
  retries : Z;
  auto_restart : bool;
  exit_code : option Z
}.

Record ServerManager : Type := mkManager {
  servers : gmap string ServerInfo;
  max_retries : Z;
  mgr_auto_restart : bool;
  retry_delay : Z
}.

(** What happened, for counting; the log is written and never read. *)
Inductive Event : Type :=
| ExplicitStart (server_id : string)
| AutoRestart (server_id : string)
| Scheduled (server_id : string)
| Exhausted (server_id : string).

Global Instance Event_eq_dec : EqDecision Event.
Proof. solve_decision. Defined.

(** The supervisor together with what surrounds it: the table of child
    processes ([procs !! pid] is [Some None] while the child runs and
    [Some (Some code)] once it has exited, which is what [poll()] reports),
    and the [_delayed_restart] tasks created and not yet run. *)
Record World : Type := mkWorld {
  mgr : ServerManager;
  procs : list (option Z);
  pending : list string;
  log : list Event
}.

Definition poll (w : World) (pid : nat) : option Z := mjoin (procs w !! pid).

Definition set_servers (w : World) (m : gmap string ServerInfo) : World :=
  mkWorld (mkManager m (max_retries (mgr w)) (mgr_auto_restart (mgr w)) (retry_delay (mgr w)))
          (procs w) (pending w) (log w).

Definition add_log (w : World) (e : Event) : World :=
  mkWorld (mgr w) (procs w) (pending w) (log w ++ [e]).

(** [start_server].  [spawn_ok] says whether [subprocess.Popen] returns a
    child or raises; the raise is caught and gives [False]. *)
Definition start_server (w : World) (server_id : string) (server_config : ServerConfig)
    (spawn_ok : bool) : bool * World :=
  if default false (running <$> servers (mgr w) !! server_id) then (true, w) else
  if negb (Py.truthy_str (command server_config)) then (false, w) else
  if negb spawn_ok then (false, w) else
  let pid := length (procs w) in
  let info := mkInfo server_config (Some pid) true 0
                (default (mgr_auto_restart (mgr w)) (cfg_auto_restart server_config)) None in
  let w' := set_servers w (<[server_id := info]> (servers (mgr w))) in
  (true, mkWorld (mgr w') (procs w ++ [None]) (pending w') (log w')).

(** The body of the [for] loop of [_monitor_servers] for one server: the
    updated entry, and what it asks for. *)
Inductive Verdict : Type := Nothing | Schedule | GiveUp.

Global Instance Verdict_eq_dec : EqDecision Verdict.
Proof. solve_decision. Defined.

Definition monitor_one (w : World) (server_info : ServerInfo) : ServerInfo * Verdict :=
  if negb (running server_info) then (server_info, Nothing) else
  match process server_info with
  | None => (server_info, Nothing)
  | Some pid =>
      match poll w pid with
      | None => (server_info, Nothing)
      | Some code =>
          let stopped r := mkInfo (config server_info) (process server_info) false r
                             (auto_restart server_info) (Some code) in
          if mgr_auto_restart (mgr w) && auto_restart server_info then
            if bool_decide (retries server_info < max_retries (mgr w))%Z
            then (stopped (retries server_info + 1)%Z, Schedule)
            else (stopped (retries server_info), GiveUp)
          else (stopped (retries server_info), Nothing)
      end
  end.

(** One pass of the [while] loop of [_monitor_servers]. *)
Definition monitor_scan (w : World) : World :=
  let results := monitor_one w <$> servers (mgr w) in
  let asked v := (map_to_list (filter (λ kv, kv.2.2 = v) results)).*1 in
  let w' := set_servers w (fst <$> results) in
  mkWorld (mgr w') (procs w') (pending w' ++ asked Schedule)
          (log w' ++ (Scheduled <$> asked Schedule) ++ (Exhausted <$> asked GiveUp)).

(** [_delayed_restart], once its sleep is over. *)
Definition delayed_restart (w : World) (server_id : string) (spawn_ok : bool) : World :=
  let w0 := mkWorld (mgr w) (procs w) (Py.list_remove server_id (pending w)) (log w) in
  match servers (mgr w0) !! server_id with
  | None => w0
  | Some info =>
      let out := start_server w0 server_id (config info) spawn_ok in
      if bool_decide (length (procs w0) < length (procs out.2))
      then add_log out.2 (AutoRestart server_id)
      else out.2
  end.

(** [stop_server], for a child that obeys [terminate()] with exit code [code]. *)
Definition stop_server (w : World) (server_id : string) (code : Z) : bool * World :=
  match servers (mgr w) !! server_id with
  | None => (true, w)
  | Some info =>
      if negb (running info) then (true, w) else
      match process info with
      | None => (false, w)
      | Some pid =>
          let procs' := match poll w pid with
                        | Some _ => procs w
                        | None => <[pid := Some code]> (procs w)
                        end in
          let code' := default code (poll w pid) in
          let info' := mkInfo (config info) (process info) false (retries info)
                         (auto_restart info) (Some code') in
          let w' := set_servers w (<[server_id := info']> (servers (mgr w))) in
          (true, mkWorld (mgr w') procs' (pending w') (log w'))
      end
  end.

(** [restart_server]: the explicit restart. *)
Definition restart_server (w : World) (server_id : string) (code : Z) (spawn_ok : bool)
    : bool * World :=
  match servers (mgr w) !! server_id with
  | None => (false, w)
  | Some info =>
      let stopped := if running info then stop_server w server_id code else (true, w) in
      if negb stopped.1 then (false, stopped.2) else
      let out := start_server stopped.2 server_id (config info) spawn_ok in
      if bool_decide (length (procs stopped.2) < length (procs out.2))
      then (out.1, add_log out.2 (ExplicitStart server_id))
      else out
  end.

(** The explicit start issued through the hub. *)
Definition explicit_start (w : World) (server_id : string) (server_config : ServerConfig)
    (spawn_ok : bool) : bool * World :=
  let out := start_server w server_id server_config spawn_ok in
  if bool_decide (length (procs w) < length (procs out.2))
  then (out.1, add_log out.2 (ExplicitStart server_id))
  else out.

(** The child with pid [pid] exits with [code]. *)
Definition child_exit (w : World) (pid : nat) (code : Z) : World :=
  mkWorld (mgr w) (<[pid := Some code]> (procs w)) (pending w) (log w).

(** Automatic restarts of a server since its last explicit start. *)
Fixpoint auto_restarts_since_explicit (server_id : string) (l : list Event) (acc : nat) : nat :=
  match l with
  | [] => acc
  | ExplicitStart i :: l' =>
      auto_restarts_since_explicit server_id l' (if decide (i = server_id) then 0 else acc)
  | AutoRestart i :: l' =>
      auto_restarts_since_explicit server_id l' (if decide (i = server_id) then S acc else acc)
  | _ :: l' => auto_restarts_since_explicit server_id l' acc
  end.

Definition auto_restarts (w : World) (server_id : string) : nat :=
  auto_restarts_since_explicit server_id (log w) 0.

(** [ServerManager.__init__], with the settings it reads from the
    configuration and no process registry to load. *)
Definition init (max_retries : Z) (auto_restart : bool) (retry_delay : Z) : World :=
  mkWorld (mkManager ∅ max_retries auto_restart retry_delay) [] [] [].

(** One life of a crashing child: it exits with [code], the monitor sees
    it, and the restart task the monitor created, if any, runs. *)
Definition crash_cycle (server_id : string) (code : Z) (w : World) : World :=
  let pid := default 0 (servers (mgr w) !! server_id ≫= process) in
  let w1 := monitor_scan (child_exit w pid code) in
  if decide (server_id ∈ pending w1) then delayed_restart w1 server_id true else w1.

End Supervisor.

(** ** Hub facade: [hub/manager.py] *)

Module Hub.
Import Json.

(** The hub's collaborators, as the hub-directed handler sees them: what
    the registry, the managers and the authentication manager answer. *)
Record Environment : Type := mkEnv {
  running : bool;
  server_count : Z;
  client_count : Z;
  mcp_server_count : Z;
  mcp_client_count : Z;
  server_statuses : value;
  all_clients : value;
  authenticate : value → option value → option value;
  generate_token : value → string;
  revoke_token : value → bool;
  validate_token : value → option value
}.

Definition implemented_methods : list string :=
  ["hub/status"; "hub/servers"; "hub/clients"; "auth/login"; "auth/logout"; "auth/validate"].

Definition reply (message : list (string * value)) (key : string) (body : value) : value :=
  JDict [("id", of_option (items_get message "id")); (key, body)].

Definition missing_token : value :=
  JDict [("code", JInt (-32602)); ("message", JStr "Missing token parameter")].

(** [HubManager._handle_hub_directed_message] *)
Definition _handle_hub_directed_message (env : Environment)
    (message : list (string * value)) : outcome (option value) :=
  let method := of_option (items_get message "method") in
  if negb (truthy method) then Return None
  else if eq_str method "hub/status" then
    Return (Some (reply message "result" (JDict [
      ("status", JStr (if running env then "running" else "stopped"));
      ("server_count", JInt (server_count env));
      ("client_count", JInt (client_count env));
      ("mcp_server_count", JInt (mcp_server_count env));
      ("mcp_client_count", JInt (mcp_client_count env))])))
  else if eq_str method "hub/servers" then
    Return (Some (reply message "result" (JDict [("servers", server_statuses env)])))
  else if eq_str method "hub/clients" then
    Return (Some (reply message "result" (JDict [("clients", all_clients env)])))
  else if eq_str method "auth/login" then
    let params := default (JDict []) (items_get message "params") in
    match get params "provider" with
    | Raise e => Raise e
    | Return provider =>
        match get_default params "credentials" (JDict []) with
        | Raise e => Raise e
        | Return credentials =>
            match authenticate env credentials provider with
            | Some user_info =>
                if truthy user_info then
                  Return (Some (reply message "result" (JDict [
                    ("token", JStr (generate_token env user_info));
                    ("user", user_info)])))
                else
                  Return (Some (reply message "error" (JDict [
                    ("code", JInt (-32000)); ("message", JStr "Authentication failed")])))
            | None =>
                Return (Some (reply message "error" (JDict [
                  ("code", JInt (-32000)); ("message", JStr "Authentication failed")])))
            end
        end
    end
  else if eq_str method "auth/logout" then
    let params := default (JDict []) (items_get message "params") in
    match get params "token" with
    | Raise e => Raise e
    | Return token =>
        if truthy_opt token then
          Return (Some (reply message "result" (JDict [
            ("success", JBool (revoke_token env (of_option token)))])))
        else Return (Some (reply message "error" missing_token))
    end
  else if eq_str method "auth/validate" then
    let params := default (JDict []) (items_get message "params") in
    match get params "token" with
    | Raise e => Raise e
    | Return token =>
        if truthy_opt token then
          match validate_token env (of_option token) with
          | Some user_info =>
              if truthy user_info then
                Return (Some (reply message "result" (JDict [
                  ("valid", JBool true); ("user", user_info)])))
              else Return (Some (reply message "result" (JDict [("valid", JBool false)])))
          | None => Return (Some (reply message "result" (JDict [("valid", JBool false)])))
          end
        else Return (Some (reply message "error" missing_token))
    end
  else Return None.

(** A response that is a JSON-RPC error with the given code. *)
Definition is_error_response (code : Z) (out : outcome (option value)) : Prop :=
  ∃ response, out = Return (Some response) ∧ error_code response = Some code.

(** The [for] loop shared by the broadcast handlers.  A member is a server
    connection or a client connection; [forward] is its
    [interface.forward_message], which returns a response, returns [None],
    or raises.  The loop yields the response kept, and the ids of the
    members the message was forwarded to, in order. *)
Section Loop.
Context {Member : Type}.
Variable forward : Member → list (string * value) → outcome (option value).

Fixpoint broadcast_loop (members : list (string * Member))
    (message : list (string * value)) (first_response : option value)
    : option value * list string :=
  match members with
  | [] => (first_response, [])
  | (member_id, member) :: rest =>
      let first_response' :=
        match forward member message with
        | Return response =>
            if truthy_opt response && bool_decide (first_response = None)
            then response else first_response
        | Raise _ => first_response
        end in
      let out := broadcast_loop rest message first_response' in
      (out.1, member_id :: out.2)
  end.

(** The first member, in order, whose forward returns a truthy response. *)
Fixpoint first_truthy (members : list (string * Member))
    (message : list (string * value)) : option value :=
  match members with
  | [] => None
  | (_, member) :: rest =>
      match forward member message with
      | Return (Some response) =>
          if truthy response then Some response else first_truthy rest message
      | _ => first_truthy rest message
      end
  end.

(** Every member's forward fails: it raises or comes back with [None]. *)
Definition all_fail (members : list (string * Member))
    (message : list (string * value)) : Prop :=
  ∀ member_id member, (member_id, member) ∈ members →
    forward member message = Return None ∨ ∃ e, forward member message = Raise e.
End Loop.

(** The connections the hub holds: [server_manager.connections] and
    [client_manager.connections], dicts in insertion order. *)
Record Connections (Server Client : Type) : Type := mkConnections {
  server_connections : list (string * Server);
  client_connections : list (string * Client)
}.
Global Arguments mkConnections {Server Client} _ _.
Global Arguments server_connections {Server Client} _.
Global Arguments client_connections {Server Client} _.

Section Broadcast.
Context {Server Client : Type}.
Variable server_forward : Server → list (string * value) → outcome (option value).
Variable client_forward : Client → list (string * value) → outcome (option value).
Variable server_has_capability : Server → string → bool.

(** [_handle_all_servers_message] *)
Definition _handle_all_servers_message (self : Connections Server Client)
    (message : list (string * value)) : option value * list string :=
  let connections := server_connections self in
  match connections with
  | [] => (None, [])
  | _ => broadcast_loop server_forward connections message None
  end.

(** [_handle_all_clients_message] *)
Definition _handle_all_clients_message (self : Connections Server Client)
    (message : list (string * value)) : option value * list string :=
  let clients := client_connections self in
  match clients with
  | [] => (None, [])
  | _ => broadcast_loop client_forward clients message None
  end.

(** The servers that have the capability, in order. *)
Definition capable (self : Connections Server Client) (capability : string)
    : list (string * Server) :=
  filter (λ kv, server_has_capability kv.2 capability = true) (server_connections self).

(** [_handle_capability_message] *)
Definition _handle_capability_message (self : Connections Server Client)
    (capability : string) (message : list (string * value)) : option value * list string :=
  let connections := server_connections self in
  match connections with
  | [] => (None, [])
  | _ =>
      let capable_servers := capable self capability in
      match capable_servers with
      | [] => (None, [])
      | _ => broadcast_loop server_forward capable_servers message None
      end
  end.
End Broadcast.

End Hub.

(** ** JSON-RPC dispatcher and stdio framing: [protocol/base.py],
    [protocol/transport.py] *)

Module Protocol.
Import Json.

(** What a Python call comes to: a value, a protocol [Error] with its
    code, message and data, or any other exception. *)
Inductive result (A : Type) : Type :=
| Ok (a : A)
| Err (code : Z) (message : string) (data : option value)
| Exn (what : string).
Global Arguments Ok {A} a.
Global Arguments Err {A} code message data.
Global Arguments Exn {A} what.

Definition bind {A B : Type} (r : result A) (k : A → result B) : result B :=
  match r with
  | Ok a => k a
  | Err c m d => Err c m d
  | Exn e => Exn e
  end.

Global Instance result_bind : MBind result := λ A B k r, bind r k.

(** [ErrorCode] *)
Definition PARSE_ERROR : Z := -32700.
Definition INVALID_REQUEST : Z := -32600.
Definition METHOD_NOT_FOUND : Z := -32601.
Definition INVALID_PARAMS : Z := -32602.
Definition INTERNAL_ERROR : Z := -32603.

Fixpoint is_substring (k s : string) : bool :=
  Py.startswith s k ||
  match s with
  | EmptyString => false
  | String _ s' => is_substring k s'
  end.

(** [k in data] for a string literal [k]: key of a dict, element of a
    list, substring of a string; other values are not containers. *)
Definition py_in (k : string) (data : value) : result bool :=
  match data with
  | JDict d => Ok (has_key d k)
  | JList l => Ok (existsb (λ v, eq_str v k) l)
  | JStr s => Ok (is_substring k s)
  | _ => Exn "TypeError"
  end.

(** [data[k]] for a string literal [k] *)
Definition py_index (data : value) (k : string) : result value :=
  match data with
  | JDict d => match items_get d k with Some v => Ok v | None => Exn "KeyError" end
  | _ => Exn "TypeError"
  end.

(** [data.get(k)] and [data.get(k, dflt)] *)
Definition py_get (data : value) (k : string) (dflt : value) : result value :=
  match data with
  | JDict d => Ok (default dflt (items_get d k))
  | _ => Exn "AttributeError"
  end.

Definition is_str (v : value) : bool := match v with JStr _ => true | _ => false end.
Definition is_null (v : value) : bool := match v with JNull => true | _ => false end.

(** [str(e)] for a protocol [Error] *)
Definition error_str (code : Z) (message : string) : string :=
  message +:+ " (code: " +:+ NilZero.string_of_int (Z.to_int code) +:+ ")".

(** [Error.to_dict] *)
Definition error_to_dict (code : Z) (message : string) (data : option value) : value :=
  JDict ([("code", JInt code); ("message", JStr message)]
         ++ match data with
            | Some d => if is_null d then [] else [("data", d)]
            | None => []
            end).

(** The envelope [{"jsonrpc": "2.0", "error": ..., "id": id}] *)
Definition error_envelope (code : Z) (message : string) (data : option value) (id : value)
    : value :=
  JDict [("jsonrpc", JStr "2.0"); ("error", error_to_dict code message data); ("id", id)].

(** [k in data and test(data[k])] *)
Definition key_satisfies (data : value) (k : string) (test : value → bool) : result bool :=
  present ← py_in k data;
  if present : bool then v ← py_index data k; Ok (test v) else Ok false.

Record Request : Type := mkRequest {
  req_method : string;
  req_params : value;
  req_id : value
}.

(** [Request.from_dict]; [fresh] is the uuid drawn when the id is falsy. *)
Definition request_from_dict (fresh : string) (data : value) : result Request :=
  version_ok ← key_satisfies data "jsonrpc" (λ v, eq_str v "2.0");
  if negb version_ok then Err INVALID_REQUEST "Invalid JSON-RPC version" None else
  method_ok ← key_satisfies data "method" is_str;
  if negb method_ok then Err INVALID_REQUEST "Invalid or missing method" None else
  has_id ← py_in "id" data;
  if negb has_id then Err INVALID_REQUEST "Missing request ID" None else
  params ← py_get data "params" (JDict []);
  if negb (is_null params) && negb (is_dict params)
  then Err INVALID_REQUEST "Invalid params (must be an object or null)" None else
  method ← py_index data "method";
  id ← py_index data "id";
  Ok (mkRequest (match method with JStr m => m | _ => "" end)
                (if truthy params then params else JDict [])
                (if truthy id then id else JStr fresh)).

(** [Response(id, result, error).to_dict()] *)
Definition response_result (id : value) (res : value) : value :=
  JDict [("jsonrpc", JStr "2.0"); ("id", id);
         ("result", if truthy res then res else JDict [])].

Definition response_error (id : value) (code : Z) (message : string) (data : option value)
    : value :=
  JDict [("jsonrpc", JStr "2.0"); ("id", id); ("error", error_to_dict code message data)].

(** A registered handler, applied to the parameters. *)
Definition Handler : Type := value → result value.

(** What became of a pending request. *)
Inductive Completion : Type :=
| Resolved (res : value)
| Failed (code : value) (message : value) (data : value).

Record State : Type := mkState {
  request_handlers : list (string * Handler);
  notification_handlers : list (string * Handler);
  pending_requests : list string;
  completed : list (string * Completion)
}.

Fixpoint handler_get (hs : list (string * Handler)) (k : string) : option Handler :=
  match hs with
  | [] => None
  | (k', h) :: rest => if decide (k' = k) then Some h else handler_get rest k
  end.

(** [_handle_request]: the dict handed to [json.dumps]. *)
Definition _handle_request (self : State) (fresh : string) (data : value) : result value :=
  match request_from_dict fresh data with
  | Ok request =>
      match handler_get (request_handlers self) (req_method request) with
      | None =>
          Ok (response_error (req_id request) METHOD_NOT_FOUND
                ("Method not found: " +:+ req_method request) None)
      | Some handler =>
          match handler (req_params request) with
          | Ok res => Ok (response_result (req_id request) res)
          | Err c m d => Ok (response_error (req_id request) c m d)
          | Exn e =>
              Ok (response_error (req_id request) INTERNAL_ERROR ("Internal error: " +:+ e) None)
          end
      end
  | Err c m d =>
      id ← py_get data "id" JNull;
      Ok (error_envelope c m d id)
  | Exn e => Exn e
  end.

(** [Notification.from_dict], down to the method and the parameters. *)
Definition notification_from_dict (data : value) : result (string * value) :=
  version_ok ← key_satisfies data "jsonrpc" (λ v, eq_str v "2.0");
  if negb version_ok then Err INVALID_REQUEST "Invalid JSON-RPC version" None else
  method_ok ← key_satisfies data "method" is_str;
  if negb method_ok then Err INVALID_REQUEST "Invalid or missing method" None else
  has_id ← py_in "id" data;
  if (has_id : bool) then Err INVALID_REQUEST "Notification must not have an ID" None else
  params ← py_get data "params" (JDict []);
  if negb (is_null params) && negb (is_dict params)
  then Err INVALID_REQUEST "Invalid params (must be an object or null)" None else
  method ← py_index data "method";
  Ok (match method with JStr m => m | _ => "" end,
      if truthy params then params else JDict []).

(** [_handle_notification]: the handler runs for its effect, what it
    returns or raises is dropped; a protocol error is logged. *)
Definition _handle_notification (self : State) (data : value) : result unit :=
  match notification_from_dict data with
  | Ok _ => Ok ()
  | Err _ _ _ => Ok ()
  | Exn e => Exn e
  end.

(** An id can key the pending table only if it is hashable. *)
Definition hashable (v : value) : bool :=
  match v with JList _ | JDict _ => false | _ => true end.

(** [_handle_response].  [pending_requests.pop(id, None)] answers the
    default at once when the table is empty, before the id is hashed; with
    an entry in the table the id is hashed first, and a list or a dict
    raises [TypeError] there. *)
Definition _handle_response (self : State) (data : value) : result State :=
  let parsed : result (value * (value + value * value * value)) :=
    version_ok ← key_satisfies data "jsonrpc" (λ v, eq_str v "2.0");
    if negb version_ok then Err INVALID_REQUEST "Invalid JSON-RPC version" None else
    has_id ← py_in "id" data;
    if negb has_id then Err INVALID_REQUEST "Missing response ID" None else
    id ← py_index data "id";
    has_error ← py_in "error" data;
    if (has_error : bool) then
      error_data ← py_index data "error";
      code ← py_index error_data "code";
      message ← py_index error_data "message";
      extra ← py_get error_data "data" JNull;
      Ok (id, inr (code, message, extra))
    else
      has_result ← py_in "result" data;
      if (has_result : bool) then res ← py_index data "result"; Ok (id, inl res)
      else Err INVALID_REQUEST "Response must have either result or error" None in
  match parsed with
  | Ok (id, body) =>
      if bool_decide (pending_requests self = []) then Ok self else
      if negb (hashable id) then Exn "TypeError" else
      match id with
      | JStr i =>
          if bool_decide (i ∈ pending_requests self) then
            Ok (mkState (request_handlers self) (notification_handlers self)
                  (filter (λ j, j ≠ i) (pending_requests self))
                  (completed self ++
                     [(i, match body with
                          | inl res => Resolved res
                          | inr (c, m, d) => Failed c m d
                          end)]))
          else Ok self
      | _ => Ok self
      end
  | Err _ _ _ => Ok self
  | Exn e => Exn e
  end.

Section Dispatch.
(** [json.loads]: [None] is the [JSONDecodeError]. *)
Variable loads : string → option value.

(** [Protocol.handle_message]: the dict serialised as the response, or
      [None] when nothing is sent back, and the state afterwards. *)
Definition handle_message (self : State) (fresh : string) (message : string)
    : option value * State :=
  match loads message with
  | None => (Some (error_envelope PARSE_ERROR "Invalid JSON" None JNull), self)
  | Some data =>
      let classified : result (option value * State) :=
        has_method ← py_in "method" data;
        if (has_method : bool) then
          has_id ← py_in "id" data;
          if (has_id : bool) then
            response ← _handle_request self fresh data; Ok (Some response, self)
          else
            _handle_notification self data ;; Ok (None, self)
        else
          has_id ← py_in "id" data;
          is_reply ← (if (has_id : bool) then
                        has_result ← py_in "result" data;
                        if (has_result : bool) then Ok true else py_in "error" data
                      else Ok false);
          if has_id && is_reply then
            self' ← _handle_response self data; Ok (None, self')
          else
            Ok (Some (error_envelope INVALID_REQUEST "Invalid message format" None JNull),
                self) in
      match classified with
      | Ok out => out
      | Err c m _ =>
          (Some (error_envelope INTERNAL_ERROR
                   ("Internal error: " +:+ error_str c m) None JNull), self)
      | Exn e =>
          (Some (error_envelope INTERNAL_ERROR ("Internal error: " +:+ e) None JNull), self)
      end
  end.
End Dispatch.

(** The double quote. *)
Definition quote : ascii := "034"%char.

(** A decoder for the fragment of JSON made of objects, arrays, strings
    without escapes, integers, [true], [false] and [null], with white
    space between tokens.  It stands for [json.loads] where a concrete
    decoder is needed; both reject the empty document. *)

Definition is_ws (c : ascii) : bool :=
  bool_decide (c ∈ [" "%char; "009"%char; "010"%char; "013"%char]).

Fixpoint skip_ws (s : string) : string :=
  match s with
  | String c s' => if is_ws c then skip_ws s' else s
  | EmptyString => EmptyString
  end.

Definition digit_of (c : ascii) : option Z :=
  let n := Z.of_nat (nat_of_ascii c) in
  if bool_decide (48 ≤ n ≤ 57)%Z then Some (n - 48)%Z else None.

Fixpoint take_digits (s : string) (acc : Z) (count : nat) : Z * nat * string :=
  match s with
  | String c s' =>
      match digit_of c with
      | Some d => take_digits s' (10 * acc + d)%Z (S count)
      | None => (acc, count, s)
      end
  | EmptyString => (acc, count, s)
  end.

Fixpoint take_string (s : string) (acc : string) : option (string * string) :=
  match s with
  | EmptyString => None
  | String c s' =>
      if bool_decide (c = quote) then Some (String.rev acc, s')
      else if bool_decide (c = "\"%char) || bool_decide (nat_of_ascii c < 32) then None
      else take_string s' (String c acc)
  end.

Fixpoint items_set (d : list (string * value)) (k : string) (v : value)
    : list (string * value) :=
  match d with
  | [] => [(k, v)]
  | (k', v') :: rest =>
      if decide (k' = k) then (k', v) :: rest else (k', v') :: items_set rest k v
  end.

Definition take_integer (s : string) (sign : Z) : option (value * string) :=
  match take_digits s 0 0 with
  | (_, O, _) => None
  | (n, count, rest) =>
      if Py.startswith s "0" && bool_decide (1 < count) then None
      else match rest with
           | String c _ =>
               if bool_decide (c ∈ ["."%char; "e"%char; "E"%char]) then None
               else Some (JInt (sign * n), rest)
           | EmptyString => Some (JInt (sign * n), rest)
           end
  end.

Fixpoint parse_value (fuel : nat) (s : string) : option (value * string) :=
  match fuel with
  | O => None
  | S fuel' =>
      match skip_ws s with
      | EmptyString => None
      | String c rest =>
          if bool_decide (c = "{"%char) then
            match skip_ws rest with
            | String "}"%char rest' => Some (JDict [], rest')
            | _ => parse_members fuel' rest []
            end
          else if bool_decide (c = "["%char) then
            match skip_ws rest with
            | String "]"%char rest' => Some (JList [], rest')
            | _ => parse_elements fuel' rest []
            end
          else if bool_decide (c = quote) then
            match take_string rest EmptyString with
            | Some (str, rest') => Some (JStr str, rest')
            | None => None
            end
          else if Py.startswith (String c rest) "null" then
            Some (JNull, Py.str_drop 4 (String c rest))
          else if Py.startswith (String c rest) "true" then
            Some (JBool true, Py.str_drop 4 (String c rest))
          else if Py.startswith (String c rest) "false" then
            Some (JBool false, Py.str_drop 5 (String c rest))
          else if bool_decide (c = "-"%char) then take_integer rest (-1)
          else take_integer (String c rest) 1
      end
  end
with parse_members (fuel : nat) (s : string) (acc : list (string * value))
    : option (value * string) :=
  match fuel with
  | O => None
  | S fuel' =>
      match skip_ws s with
      | String c rest =>
          if negb (bool_decide (c = quote)) then None else
          match take_string rest EmptyString with
          | Some (key, rest1) =>
              match skip_ws rest1 with
              | String ":"%char rest2 =>
                  match parse_value fuel' rest2 with
                  | Some (v, rest3) =>
                      match skip_ws rest3 with
                      | String ","%char rest4 => parse_members fuel' rest4 (items_set acc key v)
                      | String "}"%char rest4 => Some (JDict (items_set acc key v), rest4)
                      | _ => None
                      end
                  | None => None
                  end
              | _ => None
              end
          | None => None
          end
      | EmptyString => None
      end
  end
with parse_elements (fuel : nat) (s : string) (acc : list value) : option (value * string) :=
  match fuel with
  | O => None
  | S fuel' =>
      match parse_value fuel' s with
      | Some (v, rest) =>
          match skip_ws rest with
          | String ","%char rest' => parse_elements fuel' rest' (acc ++ [v])
          | String "]"%char rest' => Some (JList (acc ++ [v]), rest')
          | _ => None
          end
      | None => None
      end
  end.

Definition json_loads (s : string) : option value :=
  match parse_value (S (String.length s)) s with
  | Some (v, rest) => if bool_decide (skip_ws rest = EmptyString) then Some v else None
  | None => None
  end.

(** *** Stdio framing

    The stream is a string of bytes; a text and its UTF-8 encoding are not
    told apart. *)

Definition CRLF : string := String "013"%char (String "010"%char EmptyString).

(** [reader.readuntil(sep)] on the bytes buffered so far: the bytes up to
    and including the separator and the bytes after it; [None] when the
    stream ends first. *)
Fixpoint readuntil_go (sep : string) (acc : string) (buf : string) : option (string * string) :=
  if Py.startswith buf sep
  then Some (String.rev acc +:+ sep, Py.str_drop (String.length sep) buf)
  else match buf with
       | EmptyString => None
       | String c buf' => readuntil_go sep (String c acc) buf'
       end.

Definition readuntil (sep buf : string) : option (string * string) :=
  readuntil_go sep EmptyString buf.

(** [s.split(sep)] for a separator of one character or more. *)
Fixpoint split_go (sep : string) (skip : nat) (cur : string) (s : string) : list string :=
  match s with
  | EmptyString => [String.rev cur]
  | String c s' =>
      match skip with
      | S n => split_go sep n cur s'
      | O =>
          if Py.startswith s sep
          then String.rev cur :: split_go sep (String.length sep - 1) EmptyString s'
          else split_go sep 0 (String c cur) s'
      end
  end.

Definition split (s sep : string) : list string := split_go sep 0 EmptyString s.

(** [int(s)]: white space around, an optional sign, decimal digits with
    single underscores between them; anything else is the [ValueError]. *)
Definition is_space (c : ascii) : bool :=
  let n := nat_of_ascii c in
  bool_decide (9 ≤ n ≤ 13) || bool_decide (28 ≤ n ≤ 32).

Fixpoint lstrip (s : string) : string :=
  match s with
  | String c s' => if is_space c then lstrip s' else s
  | EmptyString => EmptyString
  end.

Definition strip (s : string) : string :=
  String.rev (lstrip (String.rev (lstrip s))).

Fixpoint int_digits (s : string) (acc : Z) (after_digit : bool) : option Z :=
  match s with
  | EmptyString => if after_digit then Some acc else None
  | String c s' =>
      match digit_of c with
      | Some d => int_digits s' (10 * acc + d)%Z true
      | None =>
          if bool_decide (c = "_"%char) && after_digit then int_digits s' acc false
          else None
      end
  end.

Definition py_int (s : string) : option Z :=
  match strip s with
  | String "-"%char body => Z.opp <$> int_digits body 0 false
  | String "+"%char body => int_digits body 0 false
  | body => int_digits body 0 false
  end.

(** The [for] loop over the header lines: [None] when no line starts with
    the field name, otherwise what [int] made of the first that does. *)
Fixpoint content_length (lines : list string) : option (option Z) :=
  match lines with
  | [] => None
  | line :: rest =>
      if Py.startswith line "Content-Length: "
      then Some (py_int (Py.str_drop 16 line))
      else content_length rest
  end.

(** One turn of the [while] loop of [StdioTransport.receive_messages]. *)
Inductive Received : Type :=
| Yield (message rest : string)
| Continue (rest : string)
| Stop (what : string).

Definition receive_one (buf : string) : Received :=
  match readuntil (CRLF +:+ CRLF) buf with
  | None => Stop "IncompleteReadError"
  | Some (header, rest) =>
      match content_length (split header CRLF) with
      | None => Continue rest
      | Some None => Stop "ValueError"
      | Some (Some n) =>
          if bool_decide (n < 0)%Z then Stop "ValueError"
          else if bool_decide (String.length rest < Z.to_nat n) then Stop "IncompleteReadError"
          else Yield (Py.str_take (Z.to_nat n) rest) (Py.str_drop (Z.to_nat n) rest)
      end
  end.

(** One turn of [Transport.run] over the stdio transport: the frame is
    read, handed to the dispatcher, and the response, if any, is sent. *)
Definition run_one (loads : string → option value) (self : State) (fresh : string)
    (buf : string) : option (option value * State * string) :=
  match receive_one buf with
  | Yield message rest =>
      let out := handle_message loads self fresh message in
      Some (out.1, out.2, rest)
  | _ => None
  end.

(** A frame of the stdio transport: the header and the payload. *)
Definition frame (payload : string) : string :=
  "Content-Length: " +:+ NilZero.string_of_int (Z.to_int (Z.of_nat (String.length payload)))
    +:+ CRLF +:+ CRLF +:+ payload.

End Protocol.

(** ** Password provider, the token store: [security/auth.py] *)

Module Auth.
Import Json.

(** [BasicAuthProvider].  A clock reading is an integer number of ticks of
    the clock; [token_lifetime] is in the same unit. *)
Record BasicAuthProvider : Type := mkProvider {
  users : gmap string value;
  tokens : gmap string value;
  token_expiry : gmap string Z;
  token_lifetime : Z
}.

(** [revoke_token] *)
Definition revoke_token (self : BasicAuthProvider) (token : string)
    : bool * BasicAuthProvider :=
  match tokens self !! token with
  | None => (false, self)
  | Some _ =>
      (true, mkProvider (users self) (delete token (tokens self))
               (delete token (token_expiry self)) (token_lifetime self))
  end.

(** [validate_token]; [now] is what [time.time()] reads. *)
Definition validate_token (self : BasicAuthProvider) (token : string) (now : Z)
    : option value * BasicAuthProvider :=
  match tokens self !! token with
  | None => (None, self)
  | Some user_info =>
      match token_expiry self !! token with
      | Some expiry =>
          if bool_decide (expiry < now)%Z then (None, (revoke_token self token).2)
          else (Some user_info, self)
      | None => (Some user_info, self)
      end
  end.

(** [generate_token]; [token] is what [secrets.token_hex(32)] draws. *)
Definition generate_token (self : BasicAuthProvider) (user_info : value) (token : string)
    (now : Z) : string * BasicAuthProvider :=
  (token, mkProvider (users self) (<[token := user_info]> (tokens self))
            (<[token := (now + token_lifetime self)%Z]> (token_expiry self))
            (token_lifetime self)).

End Auth.

(** ** Client-role protocol: [protocol/client.py] *)

Module Client.
Import Json.

Record ClientProtocol : Type := mkClient {
  initialized : bool;
  server_capabilities : value;
  client_capabilities : value;
  server_info : value
}.

(** [ClientProtocol.__init__] *)
Definition init : ClientProtocol := mkClient false (JDict []) (JDict []) (JDict []).

(** The loop of [has_capability] over the parts of the path. *)
Fixpoint walk (parts : list string) (current : value) : bool :=
  match parts with
  | [] => true
  | part :: rest =>
      match current with
      | JDict d =>
          match items_get d part with
          | Some next => walk rest next
          | None => false
          end
      | _ => false
      end
  end.

(** [ClientProtocol.has_capability] *)
Definition has_capability (self : ClientProtocol) (capability_path : string) : bool :=
  if negb (initialized self) then false
  else walk (Py.split capability_path "."%char) (server_capabilities self).

(** [ClientProtocol.initialize].  [exchange] is what awaiting
    [send_request("initialize", ...)] comes to, [notified] what awaiting
    [send_notification("initialized", {})] comes to. *)
Definition initialize (self : ClientProtocol) (client_name client_version : string)
    (capabilities : value) (exchange : Protocol.result value)
    (notified : Protocol.result unit) : Protocol.result value * ClientProtocol :=
  if initialized self then (Protocol.Ok (server_info self), self) else
  let s1 := mkClient false (server_capabilities self) capabilities (server_info self) in
  match exchange with
  | Protocol.Ok result =>
      let s2 := mkClient false (server_capabilities s1) capabilities result in
      match Protocol.py_get result "capabilities" (JDict []) with
      | Protocol.Ok caps =>
          let s3 := mkClient false caps capabilities result in
          match notified with
          | Protocol.Ok _ => (Protocol.Ok result, mkClient true caps capabilities result)
          | Protocol.Err c m d => (Protocol.Err c m d, s3)
          | Protocol.Exn e => (Protocol.Exn e, s3)
          end
      | Protocol.Err c m d => (Protocol.Err c m d, s2)
      | Protocol.Exn e => (Protocol.Exn e, s2)
      end
  | Protocol.Err c m d => (Protocol.Err c m d, s1)
  | Protocol.Exn e => (Protocol.Exn e, s1)
  end.

(** [disconnect]; [closed] says whether closing the transport returns:
    when it raises, the reset below it is not reached. *)
Definition disconnect (self : ClientProtocol) (closed : bool) : ClientProtocol :=
  if closed then mkClient false (JDict []) (client_capabilities self) (JDict []) else self.

(** [shutdown]: whatever the two sends come to, the [finally] resets. *)
Definition shutdown (self : ClientProtocol) : ClientProtocol :=
  if negb (initialized self) then self
  else mkClient false (JDict []) (client_capabilities self) (JDict []).

(** The calls that change a client-role instance. *)
Inductive Call : Type :=
| CallInitialize (client_name client_version : string) (capabilities : value)
    (exchange : Protocol.result value) (notified : Protocol.result unit)
| CallDisconnect (closed : bool)
| CallShutdown.

Definition step (self : ClientProtocol) (c : Call) : ClientProtocol :=
  match c with
  | CallInitialize n v caps exchange notified => (initialize self n v caps exchange notified).2
  | CallDisconnect closed => disconnect self closed
  | CallShutdown => shutdown self
  end.

(** A run of calls on an instance. *)
Definition run (self : ClientProtocol) (calls : list Call) : ClientProtocol :=
  foldl step self calls.

(** The capability tree an answer carries: [result.get("capabilities", {})]. *)
Definition negotiated_tree (answer : value) : option value :=
  match Protocol.py_get answer "capabilities" (JDict []) with
  | Protocol.Ok caps => Some caps
  | _ => None
  end.

(** In the words of the specification: every component of the path is
    present as a dictionary key along the tree. *)
Inductive key_path : list string → value → Prop :=
| key_path_nil v : key_path [] v
| key_path_cons part rest d next :
    items_get d part = Some next → key_path rest next → key_path (part :: rest) (JDict d).

(** In the words of the specification, read off the calls and their
    outcomes alone, not off the instance: whether initialization has
    completed, and the answers of the initialize exchanges so far, oldest
    first. *)
Record Session : Type := mkSession {
  established : bool;
  exchanges : list value
}.

(** An initialize exchange completes the initialization when its answer
    carries a capability tree that can be read and the initialized
    notification is sent. *)
Definition completes (answer : value) (notified : Protocol.result unit) : bool :=
  match negotiated_tree answer, notified with
  | Some _, Protocol.Ok _ => true
  | _, _ => false
  end.

(** What a call makes of the session.  An initialize call on an
    established session performs no exchange; otherwise its request is
    sent, and an answer to it is one more exchange.  A shutdown, and a
    disconnect that closes the transport, end the session: initialization
    has to complete anew. *)
Definition observe (s : Session) (c : Call) : Session :=
  match c with
  | CallInitialize _ _ _ exchange notified =>
      if established s then s
      else match exchange with
           | Protocol.Ok answer => mkSession (completes answer notified) (exchanges s ++ [answer])
           | _ => s
           end
  | CallDisconnect closed => if closed then mkSession false (exchanges s) else s
  | CallShutdown => mkSession false (exchanges s)
  end.

Definition session (calls : list Call) : Session :=
  foldl observe (mkSession false []) calls.

(** The capability tree negotiated in the most recent initialize exchange. *)
Definition latest_tree (s : Session) : option value :=
  last (exchanges s) ≫= negotiated_tree.

(** An instance agrees with a session. *)
Definition agrees (self : ClientProtocol) (s : Session) : Prop :=
  initialized self = established s
  ∧ (established s = true → latest_tree s = Some (server_capabilities self)).

End Client.

(** ** Concrete states used below *)

Module RouterExamples.
Import Router.

Definition client1 : RouteTarget := mkRouteTarget CLIENT (Some "c1") None.
Definition to_server (sid : string) : RouteTarget := mkRouteTarget SERVER (Some sid) None.

(** Two routes of one client, both matching [tools/call]. *)
Definition route_a : Route := mkRoute client1 (to_server "s1") (Some "tools/*").
Definition route_b : Route := mkRoute client1 (to_server "s2") None.
End RouterExamples.

Module AclExamples.
Import Acl.

Definition all_servers : Resource := mkResource "server" None.
Definition server_s1 : Resource := mkResource "server" (Some "s1").

(** A role that may view every server and modify the server s1. *)
Definition ops_role : Role :=
  add_permission
    (add_permission (new_role "ops" None) all_servers SERVER_VIEW)
    server_s1 SERVER_MODIFY.

(** The list after [add_role(ops)] and [assign_role("u", "ops")]. *)
Definition acl_ops : AccessControlList :=
  (assign_role (add_role (init None) ops_role) "u" "ops").2.

(** A roles file that defines no role of its own and names the role guest
    twice for the user u, and the list [__init__] builds from it. *)
Definition repeated_file : RolesFile :=
  mkRolesFile ∅ {["u" := ["guest"; "guest"]]}.

Definition acl_repeated : AccessControlList := init (Some repeated_file).
End AclExamples.

Module SupervisorExamples.
Import Supervisor.

(** The server of the bounded-restart scenario: automatic restart on, a
    child that exits with code 1 after every start. *)
Definition flaky_config : ServerConfig := mkConfig (Some "flaky-cmd") [] (Some true).
(** After the explicit start, under a supervisor allowing [m] retries. *)
Definition started (m : Z) : World :=
  (explicit_start (init m true 1) "flaky" flaky_config true).2.
(** After [k] further lives of the child. *)
Definition crashes (m : Z) (k : nat) : World :=
  Nat.iter k (crash_cycle "flaky" 1) (started m).

(** The entry of the server while its child with pid [pid] runs, and after
    the monitor has seen that child exit. *)
Definition flaky_info (pid : nat) : ServerInfo :=
  mkInfo flaky_config (Some pid) true 0 true None.

Definition stopped_info (pid : nat) : ServerInfo :=
  mkInfo flaky_config (Some pid) false 1 true (Some 1%Z).

(** A supervisor holding that one server. *)
Definition flaky_world (m : Z) (info : ServerInfo) (pr : list (option Z))
    (pe : list string) (lg : list Event) : World :=
  mkWorld (mkManager {["flaky" := info]} m true 1) pr pe lg.

(** What the supervisor looks like after [k] lives of the child. *)
Definition shape (m : Z) (k : nat) (w : World) : Prop :=
  mgr w = mkManager {["flaky" := flaky_info k]} m true 1
  ∧ procs w = replicate k (Some 1%Z) ++ [None]
  ∧ pending w = []
  ∧ auto_restarts w "flaky" = k.

End SupervisorExamples.

Module HubExamples.
Import Json Hub.

(** A hub with nothing registered and an authentication manager that
    knows nobody. *)
Definition idle_env : Environment :=
  mkEnv true 0 0 0 0 (JDict []) (JDict [])
        (λ _ _, None) (λ _, "") (λ _, false) (λ _, None).

Definition unknown_request : list (string * value) :=
  [("jsonrpc", JStr "2.0"); ("id", JStr "1"); ("method", JStr "hub/unknown")].

Definition status_request : list (string * value) :=
  [("jsonrpc", JStr "2.0"); ("id", JStr "1"); ("method", JStr "hub/status")].

Definition tools_request : list (string * value) :=
  [("jsonrpc", JStr "2.0"); ("id", JStr "7"); ("method", JStr "tools/list")].

(** A member is what its forward comes to, whatever the message. *)
Definition scripted (m : outcome (option value)) (message : list (string * value))
    : outcome (option value) := m.

(** A hub whose two servers both fail when asked to forward. *)
Definition all_failing : Connections (outcome (option value)) (outcome (option value)) :=
  mkConnections [("s1", Raise "ConnectionError"); ("s2", Raise "ConnectionError")] [].

Definition answer_of (sid : string) : value :=
  JDict [("id", JStr "7"); ("result", JDict [("from", JStr sid)])].

(** The first server answers with an empty object, the second with a
    response proper. *)
Definition empty_then_full : Connections (outcome (option value)) (outcome (option value)) :=
  mkConnections [("s1", Return (Some (JDict []))); ("s2", Return (Some (answer_of "s2")))] [].

End HubExamples.

Module ProtocolExamples.
Import Json Protocol.

(** A protocol instance with nothing registered and nothing pending. *)
Definition idle : State := mkState [] [] [] [].

(** A string literal of JSON: the text between double quotes. *)
Definition quoted (s : string) : string :=
  String quote (s +:+ String quote EmptyString).

(** An object with a repeated key, and a request for a method nobody
    registered. *)
Definition object_text : string :=
  "{ " +:+ quoted "a" +:+ " : [1, -2], " +:+ quoted "b" +:+ ": {}, "
       +:+ quoted "a" +:+ ": " +:+ quoted "x" +:+ " }".

Definition unknown_method_text : string :=
  "{" +:+ quoted "jsonrpc" +:+ ":" +:+ quoted "2.0" +:+ ","
      +:+ quoted "id" +:+ ":" +:+ quoted "1" +:+ ","
      +:+ quoted "method" +:+ ":" +:+ quoted "nope" +:+ "}".
End ProtocolExamples.

Module AuthExamples.
Import Json Auth.

Definition alice : value := JDict [("username", JStr "alice"); ("name", JStr "Alice")].

(** A provider without users or tokens and a lifetime of 3600 ticks. *)
Definition empty_provider : BasicAuthProvider := mkProvider ∅ ∅ ∅ 3600.

Definition issued : BasicAuthProvider := (generate_token empty_provider alice "t0" 1000).2.
End AuthExamples.

Module ClientExamples.
Import Json Client.

(** A server declaring resources with the value false, and tools with
    nothing below. *)
Definition declared : value :=
  JDict [("resources", JBool false); ("tools", JDict [])].

Definition negotiated : ClientProtocol :=
  (initialize init "hub" "1.0" (JDict [])
     (Protocol.Ok (JDict [("serverInfo", JDict []); ("capabilities", declared)]))
     (Protocol.Ok ())).2.

(** A later server declaring prompts only. *)
Definition redeclared : value := JDict [("prompts", JDict [])].

(** An initialize call answered with the given capability tree, the
    initialized notification sent or failing. *)
Definition answered (tree : value) (notified : Protocol.result unit) : Call :=
  CallInitialize "hub" "1.0" (JDict [])
    (Protocol.Ok (JDict [("serverInfo", JDict []); ("capabilities", tree)])) notified.

(** An initialize call whose request fails. *)
Definition unanswered : Call :=
  CallInitialize "hub" "1.0" (JDict []) (Protocol.Exn "ConnectionError") (Protocol.Ok ()).
End ClientExamples.

(** ** Stdio transport, both directions: [protocol/transport.py] *)

Module Stdio.
Import Json Protocol.

(** [StdioTransport.send_message].  The writer is [None] while the
    transport is not connected, otherwise the bytes written so far. *)
Definition send_message (writer : option string) (message : string)
    : outcome (option string) :=
  match writer with
  | None => Raise "RuntimeError"
  | Some out => Return (Some (out +:+ frame message))
  end.

(** A run of [send_message] calls on the same writer. *)
Fixpoint send_messages (writer : option string) (messages : list string)
    : outcome (option string) :=
  match messages with
  | [] => Return writer
  | message :: rest =>
      match send_message writer message with
      | Return writer' => send_messages writer' rest
      | Raise e => Raise e
      end
  end.

(** The [while True] loop of [StdioTransport.receive_messages] on a stream
    that ends: the messages yielded, in order, and the exception that ends
    the generator.  [fuel] bounds the turns of the loop; [None] says the
    bound was reached. *)
Fixpoint receive_loop (fuel : nat) (buf : string) : list string * option string :=
  match fuel with
  | O => ([], None)
  | S fuel' =>
      match receive_one buf with
      | Yield message rest =>
          let out := receive_loop fuel' rest in (message :: out.1, out.2)
      | Continue rest => receive_loop fuel' rest
      | Stop what => ([], Some what)
      end
  end.

(** [StdioTransport.receive_messages].  The reader is [None] while the
    transport is not connected, otherwise the bytes that will arrive before
    the stream ends.  Every turn of the loop consumes the header separator
    at least, so one turn per byte and one more are enough. *)
Definition receive_messages (reader : option string) : list string * option string :=
  match reader with
  | None => ([], Some "RuntimeError")
  | Some buf => receive_loop (S (String.length buf)) buf
  end.

(** Strings made of decimal digits, and strings without a carriage return. *)
Fixpoint digits (s : string) : Prop :=
  match s with
  | EmptyString => True
  | String c s' => is_Some (digit_of c) ∧ digits s'
  end.

Fixpoint no_cr (s : string) : Prop :=
  match s with
  | EmptyString => True
  | String c s' => c ≠ "013"%char ∧ no_cr s'
  end.

End Stdio.

(** ** Requests sent and answered: [protocol/base.py] *)

Module Messaging.
Import Json Protocol.

(** [Request.__init__]; [None] is [JNull], [fresh] is the uuid drawn when
    the id is falsy. *)
Definition Request_init (fresh : string) (method : string) (params id : value) : Request :=
  mkRequest method (if truthy params then params else JDict [])
            (if truthy id then id else JStr fresh).

(** [Request.to_dict] *)
Definition request_to_dict (self : Request) : value :=
  JDict [("jsonrpc", JStr "2.0"); ("method", JStr (req_method self));
         ("params", req_params self); ("id", req_id self)].

(** [pending_requests[id] = future] *)
Definition pending_set (pending : list string) (id : string) : list string :=
  if decide (id ∈ pending) then pending else pending ++ [id].

(** [send_request], up to the await: the dict handed to [json.dumps] and
    the state with the future registered. *)
Definition send_request (self : State) (fresh : string) (method : string) (params : value)
    : value * State :=
  let request := Request_init fresh method params JNull in
  let id := match req_id request with JStr i => i | _ => fresh end in
  (request_to_dict request,
   mkState (request_handlers self) (notification_handlers self)
           (pending_set (pending_requests self) id) (completed self)).


End Messaging.

Module MessagingExamples.
Import Json Protocol.



End MessagingExamples.

(** ** Routing a message: [router/route.py], [router/router.py] *)

Module Routing.
Import Json Router.

(** [RouteTarget.__str__] *)
Definition target_str (t : RouteTarget) : string :=
  match route_type t with
  | SERVER => "SERVER:" +:+ default "None" (target_id t)
  | CLIENT => "CLIENT:" +:+ default "None" (target_id t)
  | ALL_SERVERS => "ALL_SERVERS"
  | ALL_CLIENTS => "ALL_CLIENTS"
  | CAPABILITY => "CAPABILITY:" +:+ default "None" (capability t)
  | HUB => "HUB"
  end.

(** [Route.matches_method] on a method that is not a string: the pattern
    never equals it, and the first [method.startswith] raises. *)
Definition matches_method_other (self : Route) : outcome bool :=
  match method_pattern self with
  | None => Return true
  | Some pat =>
      if bool_decide (pat = "") then Return true
      else if Py.endswith pat "/*" then Raise "AttributeError"
      else if Py.endswith pat "*" then Raise "AttributeError"
      else if Py.contains "*"%char pat then
        match Py.split pat "*"%char with
        | [_; _] => Raise "AttributeError"
        | _ => Return false
        end
      else Return false
  end.

(** [Route.matches_method] on whatever the message holds under ["method"]. *)
Definition matches_method_value (self : Route) (method : value) : outcome bool :=
  match method with
  | JStr m => Return (matches_method self m)
  | _ => matches_method_other self
  end.

(** The last list comprehension of [get_matching_routes]. *)
Fixpoint filter_matching (candidates : list Route) (method : value) : outcome (list Route) :=
  match candidates with
  | [] => Return []
  | route :: rest =>
      match matches_method_value route method with
      | Raise e => Raise e
      | Return keep =>
          match filter_matching rest method with
          | Raise e => Raise e
          | Return matching => Return (if keep : bool then route :: matching else matching)
          end
      end
  end.

(** [MessageRouter.get_matching_routes] as [route_message] calls it, on
    the value found under ["method"]. *)
Definition get_matching_routes_value (self : MessageRouter) (src : RouteTarget)
    (method : value) : outcome (list Route) :=
  let source_type_matches :=
    filter (λ route, route_type (source route) = route_type src) (routes self) in
  if is_empty source_type_matches then Return []
  else
    let source_matches :=
      if bool_decide (route_type src ∈ [SERVER; CLIENT]) && bool_decide (is_Some (target_id src))
      then filter (λ route, target_id (source route) = target_id src) source_type_matches
      else if bool_decide (route_type src = CAPABILITY) && bool_decide (is_Some (capability src))
      then filter (λ route, capability (source route) = capability src) source_type_matches
      else source_type_matches in
    if is_empty source_matches then Return []
    else filter_matching source_matches method.

(** [MessageRouter._create_error_response] *)
Definition _create_error_response (message : list (string * value)) (code : Z)
    (message_text : string) : option value :=
  match items_get message "id" with
  | Some id => Some (Protocol.response_error id code message_text None)
  | None => None
  end.

Section RouteMessage.
(** What a handler does besides returning: the effects, in order. *)
Context {Effect : Type}.

(** A registered [MessageHandler], awaited on the message, the source
    and the destination. *)
Definition MessageHandler : Type :=
  list (string * value) → RouteTarget → RouteTarget → outcome (option value) * list Effect.

(** [str(method)] for a method that is not a string. *)
Variable render : value → string.

Definition method_text (method : value) : string :=
  match method with JStr m => m | _ => render method end.

(** [MessageRouter.route_message]: the response, the effects of the
    handler that was awaited, and the destinations of the notification
    tasks that were created. *)
Definition route_message (self : MessageRouter)
    (message_handlers : RouteType → option MessageHandler)
    (message : list (string * value)) (src : RouteTarget)
    : option value * list Effect * list RouteTarget :=
  match items_get message "method" with
  | None =>
      (_create_error_response message Protocol.INVALID_REQUEST "Missing method", [], [])
  | Some method =>
      match get_matching_routes_value self src method with
      | Raise e =>
          (_create_error_response message Protocol.INTERNAL_ERROR ("Internal error: " +:+ e),
           [], [])
      | Return [] =>
          (_create_error_response message Protocol.METHOD_NOT_FOUND
             ("Method not found: " +:+ method_text method), [], [])
      | Return (route :: others) =>
          if has_key message "id" then
            let destination := destination route in
            match message_handlers (route_type destination) with
            | None =>
                (_create_error_response message Protocol.INTERNAL_ERROR
                   ("No handler for destination: " +:+ target_str destination), [], [])
            | Some handler =>
                match handler message src destination with
                | (Return response, effects) => (response, effects, [])
                | (Raise e, effects) =>
                    (_create_error_response message Protocol.INTERNAL_ERROR
                       ("Internal error: " +:+ e), effects, [])
                end
            end
          else
            (None, [],
             destination <$>
               filter (λ r, is_Some (message_handlers (route_type (destination r))))
                      (route :: others))
      end
  end.

(** [HubManager.route_message]: the source target is built first, and
    its constructor raises for a capability source without a capability. *)
Definition hub_route_message (router : MessageRouter)
    (message_handlers : RouteType → option MessageHandler)
    (message : list (string * value)) (source_type : RouteType) (source_id : option string)
    : outcome (option value * list Effect * list RouteTarget) :=
  if bool_decide (source_type ∈ [SERVER; CLIENT]) then
    if negb (Py.truthy_str source_id) then Return (None, [], [])
    else Return (route_message router message_handlers message
                   (mkRouteTarget source_type source_id None))
  else
    let src := mkRouteTarget source_type None None in
    if validate src then Return (route_message router message_handlers message src)
    else Raise "ValueError".
End RouteMessage.

End Routing.

(** ** The handlers the hub registers with its router: [hub/manager.py] *)

Module HubRouting.
Import Json Router Hub.

(** [connections.get(id)] on the dict of connections. *)
Fixpoint get_connection {Member : Type} (connections : list (string * Member))
    (id : option string) : option Member :=
  match connections with
  | [] => None
  | (k, member) :: rest =>
      if decide (Some k = id) then Some member else get_connection rest id
  end.

Section Handlers.
Context {Server Client : Type}.
Variable server_forward : Server → list (string * value) → outcome (option value).
Variable client_forward : Client → list (string * value) → outcome (option value).
Variable server_has_capability : Server → string → bool.
(** [connection.interface.initialized] *)
Variable server_initialized : Server → bool.
Variable env : Environment.
Variable self : Connections Server Client.

(** The effects of a hub handler are the ids of the members the message
    was forwarded to, in order. *)
Definition HubHandler : Type := @Routing.MessageHandler string.

Definition forward_to {Member : Type}
    (forward : Member → list (string * value) → outcome (option value))
    (member : Member) (id : option string) (message : list (string * value))
    : outcome (option value) * list string :=
  (forward member message, option_list id).

Definition broadcast (out : option value * list string)
    : outcome (option value) * list string :=
  (Return out.1, out.2).

(** [_handle_server_message] *)
Definition _handle_server_message : HubHandler := λ message src dst,
  let server_id := target_id src in
  match get_connection (server_connections self) server_id with
  | None => (Return None, [])
  | Some connection =>
      match route_type dst with
      | CLIENT =>
          let client_id := target_id dst in
          match get_connection (client_connections self) client_id with
          | None => (Return None, [])
          | Some client => forward_to client_forward client client_id message
          end
      | ALL_CLIENTS => broadcast (_handle_all_clients_message client_forward self message)
      | HUB => (_handle_hub_directed_message env message, [])
      | _ => (Return None, [])
      end
  end.

(** [_handle_client_message] *)
Definition _handle_client_message : HubHandler := λ message src dst,
  let client_id := target_id src in
  match get_connection (client_connections self) client_id with
  | None => (Return None, [])
  | Some client =>
      match route_type dst with
      | SERVER =>
          let server_id := target_id dst in
          match get_connection (server_connections self) server_id with
          | None => (Return None, [])
          | Some connection => forward_to server_forward connection server_id message
          end
      | ALL_SERVERS => broadcast (_handle_all_servers_message server_forward self message)
      | HUB => (_handle_hub_directed_message env message, [])
      | _ => (Return None, [])
      end
  end.

(** [_handle_hub_message] *)
Definition _handle_hub_message : HubHandler := λ message src dst,
  match route_type dst with
  | SERVER =>
      let server_id := target_id dst in
      match get_connection (server_connections self) server_id with
      | None => (Return None, [])
      | Some connection => forward_to server_forward connection server_id message
      end
  | CLIENT =>
      let client_id := target_id dst in
      match get_connection (client_connections self) client_id with
      | None => (Return None, [])
      | Some client => forward_to client_forward client client_id message
      end
  | ALL_SERVERS => broadcast (_handle_all_servers_message server_forward self message)
  | ALL_CLIENTS => broadcast (_handle_all_clients_message client_forward self message)
  | _ => (Return None, [])
  end.

(** [_handle_capability_message] on the destination: [has_capability]
    splits the path, which raises when the path is [None] and the server
    is initialized. *)
Definition _handle_capability_message : HubHandler := λ message src dst,
  match capability dst with
  | Some path =>
      broadcast (Hub._handle_capability_message server_forward server_has_capability
                   self path message)
  | None =>
      if existsb (λ kv, server_initialized kv.2) (server_connections self)
      then (Raise "AttributeError", [])
      else (Return None, [])
  end.

(** [_setup_message_handlers]: the table of the router, by the route type
    of the destination. *)
Definition _setup_message_handlers (destination_type : RouteType) : option HubHandler :=
  Some match destination_type with
       | SERVER => _handle_server_message
       | CLIENT => _handle_client_message
       | HUB => _handle_hub_message
       | ALL_SERVERS =>
           λ message _ _, broadcast (_handle_all_servers_message server_forward self message)
       | ALL_CLIENTS =>
           λ message _ _, broadcast (_handle_all_clients_message client_forward self message)
       | CAPABILITY => _handle_capability_message
       end.
End Handlers.

End HubRouting.

Module RoutingExamples.
Import Json Router Hub.

(** A hub with one server and one client connected; each answers any
    message with a result naming itself. *)
Definition one_each : Connections string string :=
  mkConnections [("s1", "s1")] [("c1", "c1")].

Definition named_answer (member : string) (message : list (string * value))
    : outcome (option value) :=
  Return (Some (JDict [("result", JStr member)])).

(** A router with a route from client [c1] to server [s1] added to the
    default ones, and the handlers of the hub. *)
Definition to_s1 : Route :=
  mkRoute RouterExamples.client1 (RouterExamples.to_server "s1") None.

Definition client_to_s1 : MessageRouter :=
  add_route Py.place_back (init Py.place_back) to_s1.

Definition hub_table : RouteType → option (@Routing.MessageHandler string) :=
  HubRouting._setup_message_handlers named_answer named_answer (λ _ _, true) (λ _, true)
    HubExamples.idle_env one_each.

Definition tools_call : list (string * value) :=
  [("jsonrpc", JStr "2.0"); ("id", JInt 1); ("method", JStr "tools/call")].

Definition progress_note : list (string * value) :=
  [("jsonrpc", JStr "2.0"); ("method", JStr "progress")].
End RoutingExamples.

(** ** Roles written to and read from the roles file: [security/acl.py] *)

Module AclFile.
Import Acl.

(** [Resource.__str__] *)
Definition resource_str (r : Resource) : string :=
  match resource_id r with
  | Some i => if bool_decide (i = "") then resource_type r
              else resource_type r +:+ ":" +:+ i
  | None => resource_type r
  end.

(** [perm.name] and [Permission[name]] *)
Definition permission_name (p : Permission) : string :=
  match p with
  | SERVER_VIEW => "SERVER_VIEW" | SERVER_CREATE => "SERVER_CREATE"
  | SERVER_MODIFY => "SERVER_MODIFY" | SERVER_DELETE => "SERVER_DELETE"
  | SERVER_START => "SERVER_START" | SERVER_STOP => "SERVER_STOP"
  | CLIENT_VIEW => "CLIENT_VIEW" | CLIENT_CREATE => "CLIENT_CREATE"
  | CLIENT_MODIFY => "CLIENT_MODIFY" | CLIENT_DELETE => "CLIENT_DELETE"
  | RESOURCE_VIEW => "RESOURCE_VIEW" | RESOURCE_CREATE => "RESOURCE_CREATE"
  | RESOURCE_MODIFY => "RESOURCE_MODIFY" | RESOURCE_DELETE => "RESOURCE_DELETE"
  | TOOL_VIEW => "TOOL_VIEW" | TOOL_CALL => "TOOL_CALL"
  | PROMPT_VIEW => "PROMPT_VIEW" | PROMPT_USE => "PROMPT_USE"
  | SAMPLING_REQUEST => "SAMPLING_REQUEST"
  | ROUTER_VIEW => "ROUTER_VIEW" | ROUTER_MODIFY => "ROUTER_MODIFY"
  | ADMIN_VIEW => "ADMIN_VIEW" | ADMIN_MODIFY => "ADMIN_MODIFY"
  end.

Definition all_permissions : list Permission :=
  [SERVER_VIEW; SERVER_CREATE; SERVER_MODIFY; SERVER_DELETE; SERVER_START; SERVER_STOP;
   CLIENT_VIEW; CLIENT_CREATE; CLIENT_MODIFY; CLIENT_DELETE;
   RESOURCE_VIEW; RESOURCE_CREATE; RESOURCE_MODIFY; RESOURCE_DELETE;
   TOOL_VIEW; TOOL_CALL; PROMPT_VIEW; PROMPT_USE; SAMPLING_REQUEST;
   ROUTER_VIEW; ROUTER_MODIFY; ADMIN_VIEW; ADMIN_MODIFY].

(** [None] is the [KeyError]. *)
Definition permission_of_name (s : string) : option Permission :=
  List.find (λ p, bool_decide (permission_name p = s)) all_permissions.

(** The dict that [to_dict] builds and [from_dict] reads: the name, the
    description, and under ["permissions"], when the key is there, the
    lists of permission names by resource string, in insertion order. *)
Record RoleData : Type := mkRoleData {
  data_name : string;
  data_description : option string;
  data_permissions : option (list (string * list string))
}.

(** [d[k] = v] *)
Fixpoint dict_set {V : Type} (d : list (string * V)) (k : string) (v : V)
    : list (string * V) :=
  match d with
  | [] => [(k, v)]
  | (k', v') :: rest =>
      if decide (k' = k) then (k', v) :: rest else (k', v') :: dict_set rest k v
  end.

(** The entry of the file for an entry of the role. *)
Definition encode (kv : Resource * list Permission) : string * list string :=
  (resource_str kv.1, permission_name <$> kv.2).

(** [Role.to_dict] *)
Definition to_dict (self : Role) : RoleData :=
  mkRoleData (name self) (description self)
    (Some (foldl (λ permissions_dict kv,
                    dict_set permissions_dict (encode kv).1 (encode kv).2)
                 [] (permissions self))).

(** [s.split(":", 1)]: the text before the first colon, and the text
    after it when there is a colon. *)
Fixpoint split_once (s : string) : string * option string :=
  match s with
  | EmptyString => (EmptyString, None)
  | String c s' =>
      if decide (c = ":"%char) then (EmptyString, Some s')
      else let parts := split_once s' in (String c parts.1, parts.2)
  end.

Definition parse_resource (resource_str : string) : Resource :=
  let resource_parts := split_once resource_str in
  mkResource resource_parts.1 resource_parts.2.

(** [Role.from_dict]: an unknown permission name is logged and skipped. *)
Definition from_dict (data : RoleData) : Role :=
  foldl (λ role kv,
           let resource := parse_resource kv.1 in
           foldl (λ role permission_name,
                    match permission_of_name permission_name with
                    | Some permission => add_permission role resource permission
                    | None => role
                    end)
                 role kv.2)
        (new_role (data_name data) (data_description data))
        (default [] (data_permissions data)).

(** What a role must satisfy to survive the file: it is a dict of sets, no
    set is empty, no resource type holds a colon, and no resource id is
    the empty string. *)
Definition storable (r : Resource) : Prop :=
  Py.contains ":"%char (resource_type r) = false ∧ resource_id r ≠ Some "".

Definition well_formed (role : Role) : Prop :=
  NoDup (permissions role).*1
  ∧ ∀ r ps, (r, ps) ∈ permissions role → ps ≠ [] ∧ NoDup ps ∧ storable r.

End AclFile.

(** ** Status queries of the supervisor: [hub/server_manager.py] *)

Module SupervisorStatus.
Import Supervisor.

(** [is_server_running]: the query updates the entry when it finds that
    the child has exited. *)
Definition is_server_running (w : World) (server_id : string) : bool * World :=
  match servers (mgr w) !! server_id with
  | None => (false, w)
  | Some info =>
      if negb (running info) then (false, w) else
      match process info with
      | None => (true, w)
      | Some pid =>
          match poll w pid with
          | None => (true, w)
          | Some code =>
              let info' := mkInfo (config info) (process info) false (retries info)
                             (auto_restart info) (Some code) in
              (false, set_servers w (<[server_id := info']> (servers (mgr w))))
          end
      end
  end.

(** The servers for which one pass of the monitor creates a restart task. *)
Definition scheduled_by_scan (w : World) : list string :=
  (map_to_list (filter (λ kv, kv.2.2 = Schedule) (monitor_one w <$> servers (mgr w)))).*1.

End SupervisorStatus.

Module SupervisorStatusExamples.
Import Supervisor.

(** The flaky server started under a supervisor that allows three
    retries, after its child has exited with code 1. *)
Definition crashed : World := child_exit (SupervisorExamples.started 3) 0 1.
End SupervisorStatusExamples.

(** ** The password check: [BasicAuthProvider] of [security/auth.py] *)

Module AuthProviders.
Import Json Auth.

(** [d[k] = v] on a dict of values *)
Fixpoint dict_set (d : list (string * value)) (k : string) (v : value)
    : list (string * value) :=
  match d with
  | [] => [(k, v)]
  | (k', v') :: rest =>
      if decide (k' = k) then (k', v) :: rest else (k', v') :: dict_set rest k v
  end.

Section Authenticate.
(** [_hash_password(password, salt)["hash"]] *)
Variable hash : string → string → string.

(** [user.get("password", {}).get(key)] *)
Definition stored (user : value) (key : string) : outcome (option value) :=
  match get_default user "password" (JDict []) with
  | Raise e => Raise e
  | Return entry => get entry key
  end.

(** [BasicAuthProvider.authenticate] *)
Definition authenticate (self : BasicAuthProvider) (credentials : value)
    : outcome (option value) :=
  match get credentials "username" with
  | Raise e => Raise e
  | Return username =>
  match get credentials "password" with
  | Raise e => Raise e
  | Return password =>
  if negb (truthy_opt username) || negb (truthy_opt password) then Return None else
  match username with
  | Some (JList _) | Some (JDict _) => Raise "TypeError"
  | Some (JStr u) =>
      match users self !! u with
      | None => Return None
      | Some user =>
          match stored user "hash" with
          | Raise e => Raise e
          | Return stored_hash =>
          match stored user "salt" with
          | Raise e => Raise e
          | Return stored_salt =>
          if negb (truthy_opt stored_hash) || negb (truthy_opt stored_salt) then Return None
          else
            match password, stored_salt with
            | Some (JStr pw), Some (JStr salt) =>
                if negb (eq_str (of_option stored_hash) (hash pw salt))
                then Return None
                else
                  match user with
                  | JDict items =>
                      let user_info :=
                        filter (λ kv, kv.1 ≠ "password") items in
                      Return (Some (JDict (dict_set user_info "username" (JStr u))))
                  | _ => Raise "AttributeError"
                  end
            | _, _ => Raise "AttributeError"
            end
          end
          end
      end
  | _ => Return None
  end
  end
  end.
End Authenticate.

End AuthProviders.

(** ** API keys: [TokenAuthProvider] of [security/auth.py] *)

Module TokenAuth.
Import Json.

(** [TokenAuthProvider]: the API keys with what is stored about each. *)
Record TokenAuthProvider : Type := mkTokenProvider {
  tokens : gmap string value
}.

(** [TokenAuthProvider.revoke_token] *)
Definition revoke_token (self : TokenAuthProvider) (token : string)
    : bool * TokenAuthProvider :=
  match tokens self !! token with
  | None => (false, self)
  | Some _ => (true, mkTokenProvider (delete token (tokens self)))
  end.

(** [expiry and expiry < time.time()] *)
Definition expired (expiry : option value) (now : Z) : outcome bool :=
  match expiry with
  | None => Return false
  | Some v =>
      if negb (truthy v) then Return false
      else match v with
           | JInt e => Return (bool_decide (e < now)%Z)
           | JBool _ => Return (bool_decide (1 < now)%Z)
           | _ => Raise "TypeError"
           end
  end.

(** [TokenAuthProvider.validate_token] *)
Definition validate_token (self : TokenAuthProvider) (token : string) (now : Z)
    : outcome (option value) * TokenAuthProvider :=
  match tokens self !! token with
  | None => (Return None, self)
  | Some token_info =>
      match get token_info "expiry" with
      | Raise e => (Raise e, self)
      | Return expiry =>
          match expired expiry now with
          | Raise e => (Raise e, self)
          | Return true => (Return None, (revoke_token self token).2)
          | Return false =>
              match get_default token_info "user_info" (JDict []) with
              | Raise e => (Raise e, self)
              | Return user_info => (Return (Some user_info), self)
              end
          end
      end
  end.

(** [TokenAuthProvider.generate_token]; [hex] is what
    [secrets.token_hex(16)] draws. *)
Definition generate_token (self : TokenAuthProvider) (user_info : value) (hex : string)
    (now : Z) : string * TokenAuthProvider :=
  let api_key := "nxs_" +:+ hex in
  (api_key,
   mkTokenProvider
     (<[api_key := JDict [("user_info", user_info); ("created", JInt now);
                          ("expiry", JNull)]]> (tokens self))).

(** [TokenAuthProvider.authenticate] *)
Definition authenticate (self : TokenAuthProvider) (credentials : value) (now : Z)
    : outcome (option value) * TokenAuthProvider :=
  match get credentials "api_key" with
  | Raise e => (Raise e, self)
  | Return api_key =>
      if negb (truthy_opt api_key) then (Return None, self)
      else match api_key with
           | Some (JStr k) => validate_token self k now
           | Some (JList _) | Some (JDict _) => (Raise "TypeError", self)
           | _ => (Return None, self)
           end
  end.

End TokenAuth.

Module AuthProvidersExamples.
Import Json Auth.

(** A toy hash, and a provider that knows one user stored under it. *)
Definition toy_hash (password salt : string) : string := salt +:+ "$" +:+ password.

Definition bob : value :=
  JDict [("name", JStr "Bob");
         ("password", JDict [("hash", JStr "pepper$secret"); ("salt", JStr "pepper")])].

Definition one_user : BasicAuthProvider := mkProvider {["bob" := bob]} ∅ ∅ 3600.

Definition bob_credentials : value :=
  JDict [("username", JStr "bob"); ("password", JStr "secret")].
End AuthProvidersExamples.

(** ** The operations of the client role: [protocol/client.py] *)

Module ClientOps.
Import Json Client.

Definition UNSUPPORTED_CAPABILITY : Z := -32001.

(** The requests an operation sent, in order: method and parameters. *)
Definition Sent : Type := list (string * value).

Section Operations.
(** What awaiting [send_request(method, params)] comes to. *)
Variable send_request : string → value → Protocol.result value.

Definition refused (message : string) : Protocol.result value * Sent :=
  (Protocol.Err UNSUPPORTED_CAPABILITY message None, []).

(** [list_resources] *)
Definition list_resources (self : ClientProtocol) : Protocol.result value * Sent :=
  if negb (has_capability self "resources")
  then refused "Server does not support resources"
  else (result ← send_request "resources/list" (JDict []);
        Protocol.py_get result "resources" (JList []),
        [("resources/list", JDict [])]).

(** [read_resource] *)
Definition read_resource (self : ClientProtocol) (uri : value)
    : Protocol.result value * Sent :=
  if negb (has_capability self "resources")
  then refused "Server does not support resources"
  else (result ← send_request "resources/read" (JDict [("uri", uri)]);
        Protocol.py_get result "contents" (JList []),
        [("resources/read", JDict [("uri", uri)])]).

(** [subscribe_resource] and [unsubscribe_resource] return nothing. *)
Definition subscribe_resource (self : ClientProtocol) (uri : value)
    : Protocol.result value * Sent :=
  if negb (has_capability self "resources.subscriptions")
  then refused "Server does not support resource subscriptions"
  else (send_request "resources/subscribe" (JDict [("uri", uri)]) ;; Protocol.Ok JNull,
        [("resources/subscribe", JDict [("uri", uri)])]).

Definition unsubscribe_resource (self : ClientProtocol) (uri : value)
    : Protocol.result value * Sent :=
  if negb (has_capability self "resources.subscriptions")
  then refused "Server does not support resource subscriptions"
  else (send_request "resources/unsubscribe" (JDict [("uri", uri)]) ;; Protocol.Ok JNull,
        [("resources/unsubscribe", JDict [("uri", uri)])]).

(** [list_tools] *)
Definition list_tools (self : ClientProtocol) : Protocol.result value * Sent :=
  if negb (has_capability self "tools")
  then refused "Server does not support tools"
  else (result ← send_request "tools/list" (JDict []);
        Protocol.py_get result "tools" (JList []),
        [("tools/list", JDict [])]).

(** [call_tool] *)
Definition call_tool (self : ClientProtocol) (name arguments : value)
    : Protocol.result value * Sent :=
  if negb (has_capability self "tools")
  then refused "Server does not support tools"
  else (send_request "tools/call" (JDict [("name", name); ("arguments", arguments)]),
        [("tools/call", JDict [("name", name); ("arguments", arguments)])]).

(** [list_prompts] *)
Definition list_prompts (self : ClientProtocol) : Protocol.result value * Sent :=
  if negb (has_capability self "prompts")
  then refused "Server does not support prompts"
  else (result ← send_request "prompts/list" (JDict []);
        Protocol.py_get result "prompts" (JList []),
        [("prompts/list", JDict [])]).

(** [get_prompt] *)
Definition get_prompt (self : ClientProtocol) (id : value) : Protocol.result value * Sent :=
  if negb (has_capability self "prompts")
  then refused "Server does not support prompts"
  else (send_request "prompts/get" (JDict [("id", id)]),
        [("prompts/get", JDict [("id", id)])]).

(** [sample] *)
Definition sample (self : ClientProtocol) (request : value) : Protocol.result value * Sent :=
  if negb (has_capability self "sampling")
  then refused "Client does not support sampling"
  else (send_request "sampling/sample" request, [("sampling/sample", request)]).

(** The nine operations, on given arguments. *)
Definition operations (uri name arguments id request : value)
    : list (ClientProtocol → Protocol.result value * Sent) :=
  [list_resources; (λ self, read_resource self uri);
   (λ self, subscribe_resource self uri); (λ self, unsubscribe_resource self uri);
   list_tools; (λ self, call_tool self name arguments);
   list_prompts; (λ self, get_prompt self id); (λ self, sample self request)].
End Operations.

End ClientOps.

Module ClientOpsExamples.
Import Json Client.

(** A client that negotiated resources with subscriptions. *)
Definition subscribing : ClientProtocol :=
  mkClient true (JDict [("resources", JDict [("subscriptions", JDict [])])])
           (JDict []) (JDict []).
End ClientOpsExamples.

(** ** The server role: handshake and subscriptions: [protocol/server.py] *)

Module Server.
Import Json Protocol.

Definition PROTOCOL_ERROR : Z := -32000.
Definition UNSUPPORTED_CAPABILITY : Z := -32001.

(** A value used as a dict key: lists and dicts are unhashable, and a
    boolean is the integer it equals. *)
Inductive Key : Type :=
| KNone
| KInt (n : Z)
| KStr (s : string).

Global Instance Key_eq_dec : EqDecision Key.
Proof. solve_decision. Defined.

Definition key_of (v : value) : option Key :=
  match v with
  | JNull => Some KNone
  | JBool b => Some (KInt (if b then 1 else 0))
  | JInt n => Some (KInt n)
  | JStr s => Some (KStr s)
  | JList _ | JDict _ => None
  end.

(** [ServerProtocol]: [subscriptions] maps a resource URI to the set of
    client ids subscribed to it. *)
Record ServerProtocol : Type := mkServer {
  initialized : bool;
  client_capabilities : value;
  server_capabilities : value;
  server_name : string;
  server_version : string;
  subscriptions : list (Key * list string)
}.

(** [ServerProtocol.__init__] *)
Definition init : ServerProtocol :=
  mkServer false (JDict []) (JDict []) "Nexus MCP Server" "1.0.0" [].

(** [set_capabilities] *)
Definition set_capabilities (self : ServerProtocol) (capabilities : value) : ServerProtocol :=
  mkServer (initialized self) (client_capabilities self) capabilities
           (server_name self) (server_version self) (subscriptions self).

(** [disconnect], for a transport that closes. *)
Definition disconnect (self : ServerProtocol) : ServerProtocol :=
  mkServer false (JDict []) (server_capabilities self)
           (server_name self) (server_version self) [].

(** [_handle_initialize]: the capabilities of the client are stored before
    the log line reads the name out of [clientInfo]. *)
Definition _handle_initialize (self : ServerProtocol) (params : value)
    : result value * ServerProtocol :=
  if initialized self then (Err PROTOCOL_ERROR "Protocol already initialized" None, self)
  else
    match py_get params "clientInfo" (JDict []) with
    | Ok client_info =>
        match py_get params "capabilities" (JDict []) with
        | Ok capabilities =>
            let self' := mkServer false capabilities (server_capabilities self)
                           (server_name self) (server_version self) (subscriptions self) in
            if is_dict client_info then
              (Ok (JDict [("serverInfo",
                           JDict [("name", JStr (server_name self));
                                  ("version", JStr (server_version self))]);
                          ("capabilities", server_capabilities self)]),
               self')
            else (Exn "AttributeError", self')
        | Err c m d => (Err c m d, self)
        | Exn e => (Exn e, self)
        end
    | Err c m d => (Err c m d, self)
    | Exn e => (Exn e, self)
    end.

(** [_handle_initialized] *)
Definition _handle_initialized (self : ServerProtocol) : ServerProtocol :=
  mkServer true (client_capabilities self) (server_capabilities self)
           (server_name self) (server_version self) (subscriptions self).

(** [_handle_shutdown] *)
Definition _handle_shutdown (self : ServerProtocol) : result value * ServerProtocol :=
  (Ok (JDict []),
   mkServer false (client_capabilities self) (server_capabilities self)
            (server_name self) (server_version self) (subscriptions self)).

(** The guard of the two subscription handlers: [true] when the server
    declared resources with subscriptions. *)
Definition supports_subscriptions (self : ServerProtocol) : result bool :=
  has_resources ← py_in "resources" (server_capabilities self);
  if negb has_resources then Ok false
  else resources ← py_get (server_capabilities self) "resources" (JDict []);
       py_in "subscriptions" resources.

Fixpoint subscribers (subs : list (Key * list string)) (uri : Key) : option (list string) :=
  match subs with
  | [] => None
  | (k, ids) :: rest => if decide (k = uri) then Some ids else subscribers rest uri
  end.

Fixpoint update_subscribers (subs : list (Key * list string)) (uri : Key)
    (f : list string → list string) : list (Key * list string) :=
  match subs with
  | [] => []
  | (k, ids) :: rest =>
      if decide (k = uri) then (k, f ids) :: rest
      else (k, ids) :: update_subscribers rest uri f
  end.

Definition with_subscriptions (self : ServerProtocol) (subs : list (Key * list string))
    : ServerProtocol :=
  mkServer (initialized self) (client_capabilities self) (server_capabilities self)
           (server_name self) (server_version self) subs.

(** The shared opening of the two handlers: the capability guard and the
    required parameter. *)
Definition subscription_uri (self : ServerProtocol) (params : value) : result value :=
  supported ← supports_subscriptions self;
  if negb supported
  then Err UNSUPPORTED_CAPABILITY "Server does not support resource subscriptions" None
  else
    has_uri ← py_in "uri" params;
    if negb has_uri then Err INVALID_PARAMS "Missing required parameter: uri" None
    else py_index params "uri".

(** [_handle_resources_subscribe]; the client id is the placeholder. *)
Definition _handle_resources_subscribe (self : ServerProtocol) (params : value)
    : result value * ServerProtocol :=
  match subscription_uri self params with
  | Ok uri =>
      match key_of uri with
      | None => (Exn "TypeError", self)
      | Some k =>
          let subs := match subscribers (subscriptions self) k with
                      | None => subscriptions self ++ [(k, [])]
                      | Some _ => subscriptions self
                      end in
          let add ids := if decide ("default" ∈ ids) then ids else ids ++ ["default"] in
          (Ok (JDict []), with_subscriptions self (update_subscribers subs k add))
      end
  | Err c m d => (Err c m d, self)
  | Exn e => (Exn e, self)
  end.

(** [_handle_resources_unsubscribe] *)
Definition _handle_resources_unsubscribe (self : ServerProtocol) (params : value)
    : result value * ServerProtocol :=
  match subscription_uri self params with
  | Ok uri =>
      match key_of uri with
      | None => (Exn "TypeError", self)
      | Some k =>
          (Ok (JDict []),
           with_subscriptions self
             (update_subscribers (subscriptions self) k (filter (λ id, id ≠ "default"))))
      end
  | Err c m d => (Err c m d, self)
  | Exn e => (Exn e, self)
  end.

(** [notify_resource_updated]: the notification sent, if one is. *)
Definition notify_resource_updated (self : ServerProtocol) (uri : string)
    : option (string * value) :=
  if negb (initialized self) then None
  else match subscribers (subscriptions self) (KStr uri) with
       | None | Some [] => None
       | Some _ => Some ("notifications/resources/updated", JDict [("uri", JStr uri)])
       end.

End Server.

Module ServerExamples.
Import Json Server.

(** A server that declared resources with subscriptions and completed
    the handshake. *)
Definition serving : ServerProtocol :=
  _handle_initialized
    (set_capabilities init (JDict [("resources", JDict [("subscriptions", JBool true)])])).

Definition readme : value := JDict [("uri", JStr "file:///readme")].
End ServerExamples.

(** ** Tokens and permissions together: [security/auth.py], [hub/manager.py] *)

Module Security.
Import Json Acl.

(** The providers an [AuthManager] holds. *)
Inductive Provider : Type :=
| Password (p : Auth.BasicAuthProvider)
| ApiKeys (p : TokenAuth.TokenAuthProvider).

(** [provider.validate_token(token)] *)
Definition provider_validate_token (p : Provider) (token : string) (now : Z)
    : outcome (option value) * Provider :=
  match p with
  | Password b => let out := Auth.validate_token b token now in (Return out.1, Password out.2)
  | ApiKeys t => let out := TokenAuth.validate_token t token now in (out.1, ApiKeys out.2)
  end.

(** [self.providers.get(name)] and the provider put back after a call. *)
Fixpoint provider_get (providers : list (string * Provider)) (name : string)
    : option Provider :=
  match providers with
  | [] => None
  | (k, p) :: rest => if decide (k = name) then Some p else provider_get rest name
  end.

Fixpoint provider_put (providers : list (string * Provider)) (name : string) (p : Provider)
    : list (string * Provider) :=
  match providers with
  | [] => []
  | (k, q) :: rest =>
      if decide (k = name) then (k, p) :: rest else (k, q) :: provider_put rest name p
  end.

(** The loop of [AuthManager.validate_token] over all the providers: the
    first truthy profile wins. *)
Fixpoint validate_all (providers : list (string * Provider)) (token : string) (now : Z)
    : outcome (option value) * list (string * Provider) :=
  match providers with
  | [] => (Return None, [])
  | (name, p) :: rest =>
      match provider_validate_token p token now with
      | (Raise e, p') => (Raise e, (name, p') :: rest)
      | (Return user_info, p') =>
          if truthy_opt user_info then (Return user_info, (name, p') :: rest)
          else let out := validate_all rest token now in (out.1, (name, p') :: out.2)
      end
  end.

(** [AuthManager.validate_token] *)
Definition validate_token (providers : list (string * Provider)) (token : string)
    (provider : option string) (now : Z)
    : outcome (option value) * list (string * Provider) :=
  if Py.truthy_str provider then
    let name := default "" provider in
    match provider_get providers name with
    | None => (Return None, providers)
    | Some p =>
        let out := provider_validate_token p token now in
        (out.1, provider_put providers name out.2)
    end
  else validate_all providers token now.

(** [HubManager.check_permission] *)
Definition check_permission (providers : list (string * Provider))
    (acl : AccessControlList) (token : string) (resource_type : string)
    (resource_id : option string) (permission : Permission) (now : Z)
    : outcome bool * list (string * Provider) :=
  match validate_token providers token None now with
  | (Raise e, providers') => (Raise e, providers')
  | (Return user_info, providers') =>
      if negb (truthy_opt user_info) then (Return false, providers')
      else
        match get (of_option user_info) "username" with
        | Raise e => (Raise e, providers')
        | Return username =>
            if negb (truthy_opt username) then (Return false, providers')
            else
              match username with
              | Some (JStr u) =>
                  (Return (has_permission acl u (mkResource resource_type resource_id)
                             permission),
                   providers')
              | Some (JList _) | Some (JDict _) => (Raise "TypeError", providers')
              | _ => (Return false, providers')
              end
        end
  end.

(** The provider stores the profile under the token. *)
Definition holds (p : Provider) (token : string) (user_info : value) : Prop :=
  match p with
  | Password b => Auth.tokens b !! token = Some user_info
  | ApiKeys t =>
      ∃ info, TokenAuth.tokens t !! token = Some (JDict info)
              ∧ default (JDict []) (items_get info "user_info") = user_info
  end.

End Security.

Module SecurityExamples.
Import Json Acl Security.

(** The two providers of the hub, the password provider holding the
    token of [alice]; and an access control list where she is a guest. *)
Definition two_providers : list (string * Provider) :=
  [("basic", Password AuthExamples.issued); ("token", ApiKeys (TokenAuth.mkTokenProvider ∅))].

Definition alice_is_guest : AccessControlList :=
  (assign_role (Acl.init None) "alice" "guest").2.
End SecurityExamples.

(** * Part II: the properties *)

(** ** The model on small inputs *)

Section Checks.
Import Router.

Let any_target : RouteTarget := mkRouteTarget HUB None None.
Let with_pattern (pat : option string) : Route := mkRoute any_target any_target pat.

Example split_dots : Py.split "a.b..c" "."%char = ["a"; "b"; ""; "c"].
Proof. reflexivity. Qed.

Example split_empty : Py.split "" "."%char = [""].
Proof. reflexivity. Qed.

Example pattern_none : matches_method (with_pattern None) "tools/call" = true.
Proof. reflexivity. Qed.

Example pattern_exact :
  matches_method (with_pattern (Some "tools/call")) "tools/call" = true
  ∧ matches_method (with_pattern (Some "tools/call")) "tools/list" = false.
Proof. by vm_compute. Qed.

Example pattern_slash_star :
  matches_method (with_pattern (Some "resources/*")) "resources/list" = true
  ∧ matches_method (with_pattern (Some "resources/*")) "resources" = true
  ∧ matches_method (with_pattern (Some "resources/*")) "tools/call" = false.
Proof. by vm_compute. Qed.

Example pattern_star :
  matches_method (with_pattern (Some "notifications*")) "notifications/x" = true
  ∧ matches_method (with_pattern (Some "*")) "anything" = true.
Proof. by vm_compute. Qed.

Example pattern_embedded :
  matches_method (with_pattern (Some "a/*/get")) "a/b/get" = true
  ∧ matches_method (with_pattern (Some "a/*/get")) "a/b/put" = false
  ∧ matches_method (with_pattern (Some "ab*bc")) "abc" = true
  ∧ matches_method (with_pattern (Some "a*b*c")) "abc" = false.
Proof. by vm_compute. Qed.

Example decode_array :
  Protocol.json_loads " [1, -2, true, null, {}, [ ] ] "
  = Some (Json.JList [Json.JInt 1; Json.JInt (-2); Json.JBool true; Json.JNull;
                      Json.JDict []; Json.JList []]).
Proof. by vm_compute. Qed.

Example decode_object :
  Protocol.json_loads ProtocolExamples.object_text
  = Some (Json.JDict [("a", Json.JStr "x"); ("b", Json.JDict [])]).
Proof. by vm_compute. Qed.

Example decode_rejects :
  Protocol.json_loads "" = None ∧ Protocol.json_loads "[1,]" = None
  ∧ Protocol.json_loads "{} x" = None ∧ Protocol.json_loads "01" = None.
Proof. by vm_compute. Qed.

Example two_frames :
  Protocol.receive_one (Protocol.frame "{}" +:+ Protocol.frame "[]")
  = Protocol.Yield "{}" (Protocol.frame "[]").
Proof. by vm_compute. Qed.

Example header_without_length :
  Protocol.receive_one ("X-Other: 1" +:+ Protocol.CRLF +:+ Protocol.CRLF +:+ "rest")
  = Protocol.Continue "rest".
Proof. by vm_compute. Qed.

Example unknown_method_at_dispatcher :
  Json.error_code <$>
    (Protocol.handle_message Protocol.json_loads ProtocolExamples.idle "fresh-id"
       ProtocolExamples.unknown_method_text).1
  = Some (Some Protocol.METHOD_NOT_FOUND).
Proof. by vm_compute. Qed.

Example admin_may_stop_servers :
  Acl.has_permission (Acl.assign_role (Acl.init None) "root" "admin").2 "root"
    (Acl.mkResource "server" (Some "s1")) Acl.SERVER_STOP = true
  ∧ Acl.has_permission (Acl.assign_role (Acl.init None) "visitor" "guest").2 "visitor"
      (Acl.mkResource "server" (Some "s1")) Acl.SERVER_STOP = false.
Proof. by vm_compute. Qed.

Example hub_status_answer :
  Hub._handle_hub_directed_message HubExamples.idle_env HubExamples.status_request
  = Json.Return (Some (Json.JDict [
      ("id", Json.JStr "1");
      ("result", Json.JDict [("status", Json.JStr "running");
                             ("server_count", Json.JInt 0); ("client_count", Json.JInt 0);
                             ("mcp_server_count", Json.JInt 0);
                             ("mcp_client_count", Json.JInt 0)])])).
Proof. by vm_compute. Qed.
End Checks.

(** ** Message router *)

Section RouterFacts.
Import Router.

Lemma guarded_by_is_empty {A B : Type} (l : list A) (body : list B) :
  (l = [] → body = []) → (if is_empty l then [] else body) = body.
Proof. intros Hf. destruct l; simpl; [symmetry; auto | done]. Qed.

(** The lookup is one pass of the conjunction of the three filters over
    the routes, in the order the set yields them. *)
Lemma get_matching_routes_filter self src method :
  get_matching_routes self src method = filter (passes_all src method) (routes self).
Proof.
  unfold get_matching_routes. cbv zeta.
  rewrite guarded_by_is_empty.
  2: { intros ->. by repeat case_match. }
  rewrite guarded_by_is_empty by (by intros ->).
  unfold passes_all, type_match, pattern_match, id_or_capability_match.
  destruct src as [ty tid cap]; simpl.
  destruct ty, tid, cap; simpl;
    rewrite ?list_filter_filter; apply list_filter_iff; intros route; tauto.
Qed.

Lemma place_front_ok {A : Type} : Py.place_ok (@Py.place_front A).
Proof. intros s x _. reflexivity. Qed.

Lemma place_back_ok {A : Type} : Py.place_ok (@Py.place_back A).
Proof. intros s x _. unfold Py.place_back. by rewrite Permutation_app_comm. Qed.

(** Whatever the placement, the set never holds a route twice. *)
Lemma set_add_NoDup place (s : list Route) r :
  Py.place_ok place → NoDup s → NoDup (Py.set_add place s r).
Proof.
  intros Hp Hs. unfold Py.set_add. case_decide; [done|].
  rewrite (Hp s r) by done. by constructor.
Qed.

Lemma set_add_elem place (s : list Route) r x :
  Py.place_ok place → x ∈ Py.set_add place s r ↔ x = r ∨ x ∈ s.
Proof.
  intros Hp. unfold Py.set_add. case_decide.
  - split; [by right | by intros [->|?]].
  - rewrite (Hp s r) by done. apply elem_of_cons.
Qed.

Lemma foldl_add_route_NoDup place rs self :
  Py.place_ok place → NoDup (routes self) →
  NoDup (routes (foldl (add_route place) self rs)).
Proof.
  intros Hp. revert self. induction rs as [|r rs IH]; intros self Hnd; simpl; [done|].
  apply IH. simpl. by apply set_add_NoDup.
Qed.

Lemma foldl_add_route_elem place rs self x :
  Py.place_ok place →
  x ∈ routes (foldl (add_route place) self rs) ↔ x ∈ routes self ∨ x ∈ rs.
Proof.
  intros Hp. revert self. induction rs as [|r rs IH]; intros self; simpl.
  - rewrite elem_of_nil. tauto.
  - rewrite IH. simpl. rewrite set_add_elem by done. rewrite elem_of_cons. tauto.
Qed.

(** Up to order, the lookup is the filter of the routes inserted: with any
    lawful set, a router built by [__init__] and [add_route] calls answers
    with a rearrangement of the matching routes taken in insertion order. *)
Lemma get_matching_routes_insertions place rs src method :
  Py.place_ok place →
  get_matching_routes (after_adding place rs) src method
  ≡ₚ filter (passes_all src method)
       (remove_dups (default_client_route :: default_hub_route :: rs)).
Proof.
  intros Hp. rewrite get_matching_routes_filter.
  apply NoDup_Permutation.
  - apply NoDup_filter. unfold after_adding. apply foldl_add_route_NoDup; [done|].
    unfold init, _initialize_default_routes. simpl.
    repeat apply set_add_NoDup; try done. constructor.
  - apply NoDup_filter, NoDup_remove_dups.
  - intros x. rewrite !list_elem_of_filter, elem_of_remove_dups.
    unfold after_adding. rewrite foldl_add_route_elem by done.
    unfold init, _initialize_default_routes. simpl.
    rewrite !set_add_elem by done. rewrite !elem_of_cons, elem_of_nil. tauto.
Qed.
End RouterFacts.

(** C1 (as the code has it): for every router state and every
    (source, method), [get_matching_routes] returns exactly the routes of the
    set that pass the three filters -- the type match, the id or capability
    match when the source carries one, the method-pattern match -- each of
    them once when the set holds it once, and in the order in which the
    underlying set is iterated. *)
Theorem C1_get_matching_routes_exact :
  ∀ (self : Router.MessageRouter) (src : Router.RouteTarget) (method : string),
    Router.get_matching_routes self src method
      = filter (Router.passes_all src method) (Router.routes self)
    ∧ (∀ route, route ∈ Router.get_matching_routes self src method ↔
         route ∈ Router.routes self ∧ Router.type_match src route
         ∧ Router.id_or_capability_match src route
         ∧ Router.pattern_match method route)
    ∧ Router.get_matching_routes self src method `sublist_of` Router.routes self.
Proof.
  intros self src method. rewrite get_matching_routes_filter.
  split; [done|]. split.
  - intros route. rewrite list_elem_of_filter. unfold Router.passes_all. tauto.
  - apply sublist_filter.
Qed.

(** C1, the order as the claim states it, fails: a set that files new
    elements first is a lawful Python set, and with it the two routes added
    in the order a, b come back in the order b, a. *)
Lemma C1_insertion_order_counterexample :
  Py.place_ok (@Py.place_front Router.Route)
  ∧ Router.get_matching_routes
      (Router.after_adding Py.place_front [RouterExamples.route_a; RouterExamples.route_b])
      RouterExamples.client1 "tools/call"
    = [RouterExamples.route_b; RouterExamples.route_a]
  ∧ filter (Router.passes_all RouterExamples.client1 "tools/call")
      [Router.default_client_route; Router.default_hub_route;
       RouterExamples.route_a; RouterExamples.route_b]
    = [RouterExamples.route_a; RouterExamples.route_b]
  ∧ ¬ (∀ place, Py.place_ok place → ∀ rs src method,
         NoDup (Router.default_client_route :: Router.default_hub_route :: rs) →
         Router.get_matching_routes (Router.after_adding place rs) src method
         = filter (Router.passes_all src method)
             (Router.default_client_route :: Router.default_hub_route :: rs)).
Proof.
  split; [apply place_front_ok|].
  split; [by vm_compute|]. split; [by vm_compute|].
  intros H.
  specialize (H Py.place_front place_front_ok
                [RouterExamples.route_a; RouterExamples.route_b]
                RouterExamples.client1 "tools/call").
  assert (Hnd : NoDup [Router.default_client_route; Router.default_hub_route;
                       RouterExamples.route_a; RouterExamples.route_b]).
  { apply (bool_decide_unpack _). by vm_compute. }
  specialize (H Hnd). vm_compute in H. discriminate H.
Qed.

(** ** Access control *)

Section AclFacts.
Import Acl.

Lemma matches_spec role_resource query :
  matches role_resource query = true ↔ spec_resource_matches role_resource query.
Proof.
  unfold matches, spec_resource_matches.
  destruct role_resource as [t1 [i1|]], query as [t2 [i2|]]; simpl;
    repeat case_bool_decide; split; intros; try done; simplify_eq; try tauto;
    destruct_and?; destruct_or?; simplify_eq; done.
Qed.

(** What the code grants, the documented rule grants too. *)
Lemma has_permission_items_sound items resource permission :
  has_permission_items items resource permission = true →
  ∃ role_resource perms, (role_resource, perms) ∈ items
    ∧ spec_resource_matches role_resource resource ∧ permission ∈ perms.
Proof.
  induction items as [|[rr ps] items IH]; simpl; [done|].
  destruct (matches rr resource) eqn:Hm.
  - intros Hp%bool_decide_eq_true. exists rr, ps.
    split; [left|]. by rewrite <- matches_spec.
  - intros (rr' & ps' & Hin & ?)%IH. exists rr', ps'. split; [by right | done].
Qed.

(** What the loop computes: the answer of the first matching entry. *)
Lemma has_permission_items_first_match items resource permission :
  has_permission_items items resource permission
  = match list_find (λ kv, matches kv.1 resource = true) items with
    | Some (_, (_, perms)) => bool_decide (permission ∈ perms)
    | None => false
    end.
Proof.
  induction items as [|[rr ps] items IH]; simpl; [done|].
  rewrite IH. destruct (matches rr resource) eqn:Hm; simpl; [done|].
  by destruct (list_find _ items) as [[i [rr' ps']]|].
Qed.

Lemma has_permission_roles_sound self names resource permission :
  has_permission_roles self names resource permission = true →
  ∃ role_name role role_resource perms,
    role_name ∈ names ∧ roles self !! role_name = Some role
    ∧ (role_resource, perms) ∈ permissions role
    ∧ spec_resource_matches role_resource resource ∧ permission ∈ perms.
Proof.
  induction names as [|n names IH]; simpl; [done|].
  destruct (roles self !! n) as [role|] eqn:Hrole.
  - destruct (role_has_permission role resource permission) eqn:Hr.
    + intros _. apply has_permission_items_sound in Hr as (rr & ps & ? & ? & ?).
      exists n, role, rr, ps. split; [left | done].
    + intros (n' & r' & rr & ps & ? & ?)%IH. exists n', r', rr, ps. split; [by right | done].
  - intros (n' & r' & rr & ps & ? & ?)%IH. exists n', r', rr, ps. split; [by right | done].
Qed.

Lemma has_permission_sound self username resource permission :
  has_permission self username resource permission = true →
  spec_has_permission self username resource permission.
Proof. apply has_permission_roles_sound. Qed.

Lemma list_remove_NoDup x l : NoDup l → NoDup (Py.list_remove x l).
Proof.
  induction 1 as [|y l Hy Hl IH]; simpl; [constructor|].
  case_decide; [done|]. constructor; [|done].
  intros Hin. apply Hy. clear -Hin. induction l as [|z l IH]; simpl in *; [done|].
  case_decide; [by right|]. apply elem_of_cons in Hin as [->|?]; [left | right; auto].
Qed.

Lemma list_remove_not_elem x l : NoDup l → x ∉ Py.list_remove x l.
Proof.
  induction 1 as [|y l Hy Hl IH]; simpl; [apply not_elem_of_nil|].
  case_decide; [by subst|]. intros [?|?]%elem_of_cons; [congruence | done].
Qed.

(** [__init__] builds duplicate-free lists from no file, and from a file
    exactly when the file's lists are duplicate-free. *)
Lemma init_without_duplicates :
  lists_without_duplicates (init None)
  ∧ ∀ f, lists_without_duplicates (init (Some f)) ↔ file_ok f.
Proof.
  split; [|done].
  intros u rs. simpl. by rewrite lookup_empty.
Qed.

(** The four mutators keep the assignment lists free of duplicates. *)
Lemma mutators_keep_lists_without_duplicates s :
  lists_without_duplicates s →
  (∀ role, lists_without_duplicates (add_role s role))
  ∧ (∀ n, lists_without_duplicates (remove_role s n).2)
  ∧ (∀ u n, lists_without_duplicates (assign_role s u n).2)
  ∧ (∀ u n, lists_without_duplicates (revoke_role s u n).2).
Proof.
  intros IH. split_and!.
  - intros role v rs. simpl. apply IH.
  - intros n v rs. unfold remove_role. destruct (roles s !! n); simpl; [|apply IH].
    rewrite lookup_fmap. destruct (user_roles s !! v) as [rs0|] eqn:Hv; simpl; [|done].
    intros [= <-]. case_decide; [apply list_remove_NoDup|]; by eapply IH.
  - intros u n v rs. unfold assign_role. destruct (roles s !! n); simpl; [|apply IH].
    destruct (user_roles s !! u) as [cur|] eqn:Hu; simpl.
    + rewrite Hu. simpl. case_decide; simpl; [apply IH|].
      destruct (decide (u = v)) as [->|Hne].
      * rewrite lookup_insert_eq. intros [= <-].
        apply NoDup_app. split_and!; [by eapply IH | | apply NoDup_singleton].
        intros x Hx ->%list_elem_of_singleton. done.
      * rewrite lookup_insert_ne by done. apply IH.
    + rewrite lookup_insert_eq. simpl. destruct (decide (u = v)) as [->|Hne].
      * rewrite lookup_insert_eq. intros [= <-]. apply NoDup_singleton.
      * rewrite !lookup_insert_ne by done. apply IH.
  - intros u n v rs. unfold revoke_role.
    destruct (user_roles s !! u) as [cur|] eqn:Hu; simpl; [|apply IH].
    case_decide; simpl; [|apply IH].
    case_decide; simpl.
    + destruct (decide (u = v)) as [->|Hne].
      * by rewrite lookup_delete_eq.
      * rewrite lookup_delete_ne by done. apply IH.
    + destruct (decide (u = v)) as [->|Hne].
      * rewrite lookup_insert_eq. intros [= <-].
        apply list_remove_NoDup. by eapply IH.
      * rewrite lookup_insert_ne by done. apply IH.
Qed.

(** Where no list names a role twice, [remove_role] strips the role from
    the role table and from every user's list. *)
Lemma remove_role_strips_without_duplicates s role_name s' :
  lists_without_duplicates s →
  remove_role s role_name = (true, s') →
  roles s' !! role_name = None
  ∧ ∀ username, role_name ∉ get_user_roles s' username.
Proof.
  intros Hnd Hrm.
  unfold remove_role in Hrm. destruct (roles s !! role_name); [|done].
  injection Hrm as <-. simpl. split; [apply lookup_delete_eq|].
  intros u. unfold get_user_roles. simpl. rewrite lookup_fmap.
  destruct (user_roles s !! u) as [rs|] eqn:Hu; simpl; [|apply not_elem_of_nil].
  case_decide; [|done]. apply list_remove_not_elem. by eapply Hnd.
Qed.

(** In any state, what [remove_role] leaves of a user's list is the list
    without the first occurrence of the role: the later ones stay. *)
Lemma remove_role_takes_first_occurrence s role_name s' username before after :
  remove_role s role_name = (true, s') →
  get_user_roles s username = before ++ role_name :: after →
  role_name ∉ before →
  get_user_roles s' username = before ++ after.
Proof.
  intros Hrm Hl Hb.
  unfold remove_role in Hrm. destruct (roles s !! role_name); [|done].
  injection Hrm as <-. unfold get_user_roles in *. simpl. rewrite lookup_fmap.
  destruct (user_roles s !! username) as [rs|] eqn:Hu; simpl in *.
  - subst rs. rewrite decide_True by (apply elem_of_app; right; left).
    clear Hu. induction before as [|b before IH]; simpl.
    + by rewrite decide_True.
    + apply not_elem_of_cons in Hb as [Hne Hb].
      rewrite decide_False by done. f_equal. by apply IH.
  - by destruct before.
Qed.
End AclFacts.

(** C2 (the code at the failing input): the role ops holds the entries
    server -> {SERVER_VIEW} and server:s1 -> {SERVER_MODIFY}; the user u has
    that role.  The entry server:s1 matches the query and grants
    SERVER_MODIFY, yet [has_permission] answers false, because the loop of
    [Role.has_permission] returns at the first matching entry. *)
Theorem C2_first_match_shadows_later_grant :
  Acl.has_permission AclExamples.acl_ops "u" AclExamples.server_s1 Acl.SERVER_MODIFY = false
  ∧ Acl.spec_has_permission AclExamples.acl_ops "u" AclExamples.server_s1 Acl.SERVER_MODIFY.
Proof.
  split; [by vm_compute|].
  exists "ops", AclExamples.ops_role, AclExamples.server_s1, [Acl.SERVER_MODIFY].
  split_and!.
  - apply (bool_decide_unpack _). by vm_compute.
  - by vm_compute.
  - apply (bool_decide_unpack _). by vm_compute.
  - by split; [|right].
  - apply list_elem_of_singleton. done.
Qed.

(** C9 (the code at the failing input): [__init__] on a roles file that
    names the role guest twice for the user u builds a list in which u holds
    guest twice.  [remove_role("guest")] returns true and takes the role off
    the role table, yet [get_user_roles("u")] still reports guest: the loop
    that removes the role from all users calls [list.remove] once per user,
    which takes out the first occurrence only. *)
Theorem C9_remove_role_leaves_repeated_assignment :
  Acl.reachable AclExamples.acl_repeated
  ∧ Acl.get_user_roles AclExamples.acl_repeated "u" = ["guest"; "guest"]
  ∧ (Acl.remove_role AclExamples.acl_repeated "guest").1 = true
  ∧ Acl.roles (Acl.remove_role AclExamples.acl_repeated "guest").2 !! "guest" = None
  ∧ Acl.get_user_roles (Acl.remove_role AclExamples.acl_repeated "guest").2 "u" = ["guest"]
  ∧ "guest" ∈ Acl.get_user_roles (Acl.remove_role AclExamples.acl_repeated "guest").2 "u".
Proof.
  split_and!; [apply Acl.reach_loaded|by vm_compute..|].
  replace (Acl.get_user_roles (Acl.remove_role AclExamples.acl_repeated "guest").2 "u")
    with ["guest"] by by vm_compute.
  by left.
Qed.

(** ** Server supervisor *)

Section SupervisorFacts.
Import Supervisor SupervisorExamples.

Lemma auto_restarts_app sid l1 l2 acc :
  auto_restarts_since_explicit sid (l1 ++ l2) acc
  = auto_restarts_since_explicit sid l2 (auto_restarts_since_explicit sid l1 acc).
Proof.
  revert acc. induction l1 as [|e l1 IH]; intros acc; simpl; [done|].
  destruct e; apply IH.
Qed.

Lemma started_shape m : shape m 0 (started m).
Proof. unfold shape. by vm_compute. Qed.

Lemma monitor_scan_flaky m k lg :
  (1 ≤ m)%Z →
  monitor_scan (flaky_world m (flaky_info k) (replicate (S k) (Some 1%Z)) [] lg)
  = flaky_world m (stopped_info k) (replicate (S k) (Some 1%Z)) ["flaky"]
      (lg ++ [Scheduled "flaky"]).
Proof.
  intros Hm. unfold monitor_scan, flaky_world, set_servers. cbn [mgr servers procs pending log
    max_retries mgr_auto_restart retry_delay].
  rewrite map_fmap_singleton.
  assert (Hone : monitor_one
     (mkWorld (mkManager {["flaky" := flaky_info k]} m true 1) (replicate (S k) (Some 1%Z)) [] lg)
     (flaky_info k) = (stopped_info k, Schedule)).
  { unfold monitor_one, poll. cbn [running flaky_info negb process procs mgr mgr_auto_restart
      auto_restart andb retries max_retries config].
    rewrite lookup_replicate_2 by lia. cbn [mjoin option_join option_bind].
    simpl. rewrite bool_decide_eq_true_2 by lia. done. }
  rewrite Hone. rewrite map_fmap_singleton.
  rewrite !map_filter_singleton. cbn [snd fst].
  rewrite decide_True by done. rewrite decide_False by done.
  rewrite map_to_list_singleton, map_to_list_empty. done.
Qed.

Lemma start_server_flaky m k pr pe lg :
  start_server (flaky_world m (stopped_info k) pr pe lg) "flaky" flaky_config true
  = (true, flaky_world m (flaky_info (length pr)) (pr ++ [None]) pe lg).
Proof.
  unfold start_server, flaky_world, set_servers.
  cbn [mgr servers procs pending log max_retries mgr_auto_restart retry_delay].
  rewrite lookup_singleton_eq, insert_singleton_eq. reflexivity.
Qed.

Lemma delayed_restart_flaky m k lg :
  delayed_restart (flaky_world m (stopped_info k) (replicate (S k) (Some 1%Z)) ["flaky"] lg)
    "flaky" true
  = flaky_world m (flaky_info (S k)) (replicate (S k) (Some 1%Z) ++ [None]) []
      (lg ++ [AutoRestart "flaky"]).
Proof.
  unfold delayed_restart.
  change (Py.list_remove "flaky" (pending (flaky_world m (stopped_info k)
            (replicate (S k) (Some 1%Z)) ["flaky"] lg))) with (@nil string).
  change (mkWorld _ _ [] _) with
    (flaky_world m (stopped_info k) (replicate (S k) (Some 1%Z)) [] lg).
  unfold flaky_world at 1. cbn [mgr servers]. rewrite lookup_singleton_eq.
  change (config (stopped_info k)) with flaky_config.
  rewrite start_server_flaky. cbn [snd]. unfold flaky_world at 1 2.
  cbn [procs].
  assert (Hlen : length (replicate (S k) (Some 1%Z)) = S k) by apply length_replicate.
  rewrite bool_decide_eq_true_2 by (rewrite length_app; cbn [length]; lia).
  rewrite Hlen. reflexivity.
Qed.

Lemma crash_cycle_shape m k w :
  (1 ≤ m)%Z → shape m k w → shape m (S k) (crash_cycle "flaky" 1 w).
Proof.
  intros Hm (Hmgr & Hprocs & Hpend & Hcount).
  destruct w as [mg pr pe lg]; cbn [mgr procs pending] in *; subst mg pr pe.
  unfold crash_cycle. cbn [mgr servers]. rewrite lookup_singleton_eq.
  cbn [mbind option_bind flaky_info process default].
  assert (Hlen : length (replicate k (Some 1%Z)) = k) by apply length_replicate.
  assert (Hex : <[k := Some 1%Z]> (replicate k (Some 1%Z) ++ [None]) = replicate (S k) (Some 1%Z)).
  { rewrite replicate_S_end, insert_app_r_alt by lia. by rewrite Hlen, Nat.sub_diag. }
  unfold child_exit. cbn [mgr procs pending log id]. rewrite Hex.
  fold (flaky_info k). fold (flaky_world m (flaky_info k) (replicate (S k) (Some 1%Z)) [] lg).
  rewrite monitor_scan_flaky by done.
  rewrite decide_True by (unfold flaky_world; cbn [pending]; apply list_elem_of_singleton; done).
  rewrite delayed_restart_flaky.
  unfold shape, flaky_world. cbn [mgr procs pending].
  split_and!; try done.
  unfold auto_restarts in *. cbn [log] in *.
  rewrite !auto_restarts_app. rewrite Hcount. by vm_compute.
Qed.

Lemma crashes_shape m k : (1 ≤ m)%Z → shape m k (crashes m k).
Proof.
  intros Hm. induction k as [|k IH]; [apply started_shape|].
  unfold crashes. rewrite Nat.iter_succ. by apply crash_cycle_shape.
Qed.
End SupervisorFacts.

(** C3 (the code at the failing input): with max_retries = 3, the server
    flaky is restarted automatically after each of its exits, without end:
    after k exits there have been k automatic restarts since the explicit
    start, four after the fourth, and the entry is running again with a
    retry counter of 0, because [start_server] writes a fresh entry with
    retries 0 on the automatic path as well; the monitor schedules a fifth.
    With max_retries = 1 the counter does reach max_retries at the first
    exit, and the server is restarted automatically a second time all the
    same, no explicit restart having been issued. *)
Theorem C3_automatic_restarts_exceed_max_retries :
  (∀ k : nat, Supervisor.auto_restarts (SupervisorExamples.crashes 3 k) "flaky" = k)
  ∧ Supervisor.max_retries (Supervisor.mgr (SupervisorExamples.crashes 3 4)) = 3%Z
  ∧ Supervisor.auto_restarts (SupervisorExamples.crashes 3 4) "flaky" = 4
  ∧ (Supervisor.retries <$>
       Supervisor.servers (Supervisor.mgr (SupervisorExamples.crashes 3 4)) !! "flaky") = Some 0%Z
  ∧ "flaky" ∈ Supervisor.pending
       (Supervisor.monitor_scan
          (Supervisor.child_exit (SupervisorExamples.crashes 3 4) 4 1))
  ∧ (Supervisor.retries <$>
       Supervisor.servers (Supervisor.mgr
         (Supervisor.monitor_scan
            (Supervisor.child_exit (SupervisorExamples.started 1) 0 1))) !! "flaky") = Some 1%Z
  ∧ Supervisor.auto_restarts (SupervisorExamples.crashes 1 2) "flaky" = 2.
Proof.
  split_and!.
  - intros k. by destruct (crashes_shape 3 k) as (_ & _ & _ & ?).
  - by vm_compute.
  - by vm_compute.
  - by vm_compute.
  - apply (bool_decide_unpack _). by vm_compute.
  - by vm_compute.
  - by vm_compute.
Qed.

(** ** Hub-directed messages and broadcasts *)

Lemma all_failing_fail :
  Hub.all_fail HubExamples.scripted (Hub.server_connections HubExamples.all_failing)
    HubExamples.tools_request.
Proof.
  intros i m Hin. right. simpl in Hin.
  apply elem_of_cons in Hin as [[= _ ->]|Hin]; [by eexists|].
  apply list_elem_of_singleton in Hin as [= _ ->]. by eexists.
Defined.

Section HubFacts.
Import Json Hub.

Context {Member : Type} (forward : Member → list (string * value) → outcome (option value)).

Lemma broadcast_loop_spec members message first_response :
  broadcast_loop forward members message first_response
  = (match first_response with
     | Some r => Some r
     | None => first_truthy forward members message
     end, members.*1).
Proof.
  revert first_response.
  induction members as [|[mid m] members IH]; intros fr; simpl.
  - by destruct fr.
  - rewrite IH. simpl. f_equal.
    destruct (forward m message) as [[response|]|e]; simpl.
    + destruct (truthy response), fr; simpl; done.
    + by destruct fr.
    + by destruct fr.
Qed.

Lemma broadcast_loop_from_none members message :
  (match members with
   | [] => (None, [])
   | _ => broadcast_loop forward members message None
   end) = (first_truthy forward members message, members.*1).
Proof.
  destruct members; [done|]. apply (broadcast_loop_spec _ message None).
Qed.

Lemma first_truthy_all_fail members message :
  all_fail forward members message → first_truthy forward members message = None.
Proof.
  induction members as [|[mid m] members IH]; intros Hall; simpl; [done|].
  assert (Hrest : all_fail forward members message).
  { intros i x Hin. apply (Hall i x). by right. }
  destruct (Hall mid m) as [->|[e ->]]; [left | |]; by apply IH.
Qed.
End HubFacts.

(** C4 (as the code has it): for every message directed to the hub whose
    method is not one of the six implemented ones, the hub-directed handler
    returns no response at all: it logs a warning (an error when the method
    is missing or empty) and returns null. *)
Theorem C4_unknown_hub_method_yields_no_response :
  ∀ (env : Hub.Environment) (message : list (string * Json.value)),
    (∀ method, Json.items_get message "method" = Some (Json.JStr method) →
               method ∉ Hub.implemented_methods) →
    Hub._handle_hub_directed_message env message = Json.Return None.
Proof.
  intros env message Hnot.
  unfold Hub._handle_hub_directed_message.
  destruct (Json.items_get message "method") as [v|]; simpl; [|done].
  destruct (Json.truthy v) eqn:Htruthy; simpl; [|done].
  destruct v as [| | |method| |]; try done.
  specialize (Hnot method eq_refl). unfold Hub.implemented_methods in Hnot.
  simpl.
  repeat (rewrite bool_decide_eq_false_2;
          [|intros ->; apply Hnot; repeat (first [by left | right])]).
  done.
Qed.

Lemma C4_unknown_hub_method_yields_no_response_witness :
  (∀ method, Json.items_get HubExamples.unknown_request "method" = Some (Json.JStr method) →
             method ∉ Hub.implemented_methods)
  ∧ Hub._handle_hub_directed_message HubExamples.idle_env HubExamples.unknown_request
    = Json.Return None.
Proof.
  assert (H : ∀ method,
            Json.items_get HubExamples.unknown_request "method" = Some (Json.JStr method) →
            method ∉ Hub.implemented_methods).
  { intros method [= <-] Hin. apply (bool_decide_pack _) in Hin. vm_compute in Hin. exact Hin. }
  split; [exact H|].
  exact (C4_unknown_hub_method_yields_no_response HubExamples.idle_env
           HubExamples.unknown_request H).
Defined.

(** C4, as the claim states it, fails: the request hub/unknown gets no
    response, so in particular no method-not-found error response. *)
Lemma C4_method_not_found_counterexample :
  ("hub/unknown" ∉ Hub.implemented_methods)
  ∧ Hub._handle_hub_directed_message HubExamples.idle_env HubExamples.unknown_request
    = Json.Return None
  ∧ ¬ Hub.is_error_response Protocol.METHOD_NOT_FOUND
        (Hub._handle_hub_directed_message HubExamples.idle_env HubExamples.unknown_request).
Proof.
  split_and!.
  - intros H. apply (bool_decide_pack _) in H. vm_compute in H. exact H.
  - by vm_compute.
  - intros (response & Heq & _). vm_compute in Heq. discriminate Heq.
Qed.

(** C5 (as the code has it): a broadcast handler forwards the request to
    every member, in order, whether or not earlier members failed (for a
    capability destination: to every connection that has the capability),
    and returns the first response that is truthy -- neither null nor
    empty -- or null when no member gives one; when every member's forward
    fails that is again null. *)
Theorem C5_broadcast_first_truthy_response_or_none :
  ∀ (Server Client : Type)
    (server_forward : Server → list (string * Json.value) → Json.outcome (option Json.value))
    (client_forward : Client → list (string * Json.value) → Json.outcome (option Json.value))
    (server_has_capability : Server → string → bool)
    (self : Hub.Connections Server Client) (capability : string)
    (message : list (string * Json.value)),
    Hub._handle_all_servers_message server_forward self message
      = (Hub.first_truthy server_forward (Hub.server_connections self) message,
         (Hub.server_connections self).*1)
    ∧ Hub._handle_all_clients_message client_forward self message
      = (Hub.first_truthy client_forward (Hub.client_connections self) message,
         (Hub.client_connections self).*1)
    ∧ Hub._handle_capability_message server_forward server_has_capability self capability message
      = (Hub.first_truthy server_forward (Hub.capable server_has_capability self capability) message,
         (Hub.capable server_has_capability self capability).*1)
    ∧ (Hub.all_fail server_forward (Hub.server_connections self) message →
         (Hub._handle_all_servers_message server_forward self message).1 = None
         ∧ (Hub._handle_capability_message server_forward server_has_capability self
              capability message).1 = None)
    ∧ (Hub.all_fail client_forward (Hub.client_connections self) message →
         (Hub._handle_all_clients_message client_forward self message).1 = None).
Proof.
  intros Server Client sf cf hc self capability message.
  assert (Hs : Hub._handle_all_servers_message sf self message
               = (Hub.first_truthy sf (Hub.server_connections self) message,
                  (Hub.server_connections self).*1)).
  { apply broadcast_loop_from_none. }
  assert (Hc : Hub._handle_all_clients_message cf self message
               = (Hub.first_truthy cf (Hub.client_connections self) message,
                  (Hub.client_connections self).*1)).
  { apply broadcast_loop_from_none. }
  assert (Hk : Hub._handle_capability_message sf hc self capability message
               = (Hub.first_truthy sf (Hub.capable hc self capability) message,
                  (Hub.capable hc self capability).*1)).
  { unfold Hub._handle_capability_message, Hub.capable.
    destruct (Hub.server_connections self); [done|]. apply broadcast_loop_from_none. }
  split_and!; [done..| |].
  - intros Hfail. rewrite Hs, Hk. simpl. split; apply first_truthy_all_fail; [done|].
    intros i m Hin. apply (Hfail i m).
    unfold Hub.capable in Hin. by apply list_elem_of_filter in Hin as [_ ?].
  - intros Hfail. rewrite Hc. simpl. by apply first_truthy_all_fail.
Qed.

Lemma C5_broadcast_first_truthy_response_or_none_witness :
  Hub.all_fail HubExamples.scripted (Hub.server_connections HubExamples.all_failing)
    HubExamples.tools_request
  ∧ (Hub._handle_all_servers_message HubExamples.scripted HubExamples.all_failing
       HubExamples.tools_request).1 = None.
Proof.
  split; [exact all_failing_fail|].
  exact (proj1 (proj1 (proj2 (proj2 (proj2
           (C5_broadcast_first_truthy_response_or_none _ _ HubExamples.scripted
              HubExamples.scripted (λ _ _, true) HubExamples.all_failing "tools"
              HubExamples.tools_request))))
           all_failing_fail)).
Defined.

(** C5, as the claim states it, fails twice over: when both servers raise,
    the handler returns null, not an internal-error response; and a server
    that answers with an empty object, which is not null, is passed over for
    the next one. *)
Lemma C5_internal_error_counterexample :
  Hub.all_fail HubExamples.scripted (Hub.server_connections HubExamples.all_failing)
    HubExamples.tools_request
  ∧ Hub._handle_all_servers_message HubExamples.scripted HubExamples.all_failing
      HubExamples.tools_request = (None, ["s1"; "s2"])
  ∧ ¬ Hub.is_error_response Protocol.INTERNAL_ERROR
        (Json.Return (Hub._handle_all_servers_message HubExamples.scripted
                        HubExamples.all_failing HubExamples.tools_request).1)
  ∧ Hub._handle_all_servers_message HubExamples.scripted HubExamples.empty_then_full
      HubExamples.tools_request = (Some (HubExamples.answer_of "s2"), ["s1"; "s2"]).
Proof.
  split_and!.
  - exact all_failing_fail.
  - by vm_compute.
  - intros (response & Heq & _). vm_compute in Heq. discriminate Heq.
  - by vm_compute.
Qed.

(** ** Dispatcher and stdio framing *)

Section ProtocolFacts.
Import Json Protocol.

(** A frame announcing zero bytes hands the empty string to the
    dispatcher and leaves the rest of the stream untouched. *)
Lemma receive_one_empty_frame (rest : string) :
  receive_one (frame "" +:+ rest) = Yield "" rest.
Proof. by vm_compute. Qed.

Lemma handle_message_undecodable loads self fresh message :
  loads message = None →
  handle_message loads self fresh message
  = (Some (error_envelope PARSE_ERROR "Invalid JSON" None JNull), self).
Proof. intros H. unfold handle_message. by rewrite H. Qed.

(** The empty object, by contrast, is decoded and refused as a request. *)
Lemma handle_message_empty_object loads self fresh message :
  loads message = Some (JDict []) →
  handle_message loads self fresh message
  = (Some (error_envelope INVALID_REQUEST "Invalid message format" None JNull), self).
Proof. intros H. unfold handle_message. by rewrite H. Qed.
End ProtocolFacts.

(** C6 (as the code has it): when a stdio frame carries Content-Length 0,
    the empty payload handed to the dispatcher is not a JSON document; the
    decoder rejects it and the dispatcher answers with a parse-error
    response (code -32700) with id null, leaving its state and the rest of
    the stream as they were. *)
Theorem C6_empty_frame_yields_parse_error :
  ∀ (loads : string → option Json.value) (self : Protocol.State) (fresh rest : string),
    loads "" = None →
    ∃ response,
      Protocol.run_one loads self fresh (Protocol.frame "" +:+ rest)
        = Some (Some response, self, rest)
      ∧ Json.error_code response = Some (-32700)%Z
      ∧ Json.get response "id" = Json.Return (Some Json.JNull).
Proof.
  intros loads self fresh rest Hloads.
  exists (Protocol.error_envelope Protocol.PARSE_ERROR "Invalid JSON" None Json.JNull).
  split_and!; [|done..].
  unfold Protocol.run_one. rewrite receive_one_empty_frame.
  by rewrite handle_message_undecodable.
Qed.

Lemma C6_empty_frame_yields_parse_error_witness :
  Protocol.json_loads "" = None
  ∧ ∃ response,
      Protocol.run_one Protocol.json_loads ProtocolExamples.idle "fresh-id"
        (Protocol.frame "" +:+ Protocol.frame "{}")
        = Some (Some response, ProtocolExamples.idle, Protocol.frame "{}")
      ∧ Json.error_code response = Some (-32700)%Z
      ∧ Json.get response "id" = Json.Return (Some Json.JNull).
Proof.
  split; [reflexivity|].
  apply (C6_empty_frame_yields_parse_error Protocol.json_loads ProtocolExamples.idle
           "fresh-id" (Protocol.frame "{}")).
  reflexivity.
Defined.

(** C6, as the claim states it, fails: the frame with Content-Length 0 is
    answered with code -32700, not with -32600, and not as the frame
    carrying the empty object is. *)
Lemma C6_invalid_request_counterexample :
  Protocol.receive_one (Protocol.frame "") = Protocol.Yield "" ""
  ∧ (Protocol.run_one Protocol.json_loads ProtocolExamples.idle "fresh-id" (Protocol.frame "")
     = Some (Some (Protocol.error_envelope Protocol.PARSE_ERROR "Invalid JSON" None Json.JNull),
             ProtocolExamples.idle, ""))
  ∧ ¬ (∃ response self' rest,
         Protocol.run_one Protocol.json_loads ProtocolExamples.idle "fresh-id"
           (Protocol.frame "") = Some (Some response, self', rest)
         ∧ Json.error_code response = Some Protocol.INVALID_REQUEST)
  ∧ Protocol.run_one Protocol.json_loads ProtocolExamples.idle "fresh-id" (Protocol.frame "")
    ≠ Protocol.run_one Protocol.json_loads ProtocolExamples.idle "fresh-id" (Protocol.frame "{}").
Proof.
  split_and!.
  - by vm_compute.
  - by vm_compute.
  - intros (response & self' & rest & Heq & Hcode). vm_compute in Heq.
    injection Heq as <- _ _. vm_compute in Hcode. discriminate Hcode.
  - intros Heq. vm_compute in Heq. discriminate Heq.
Qed.

(** ** Token store *)

(** C7: a token generated for a profile validates to that same profile, and
    leaves the store as it is, at every clock reading up to the issue time
    plus the lifetime; and once [revoke_token] has returned true for a
    token, [validate_token] returns none for it at every clock reading. *)
Theorem C7_token_lifecycle :
  ∀ (self : Auth.BasicAuthProvider) (user_info : Json.value) (token : string) (now now' : Z)
    (holder holder' : Auth.BasicAuthProvider) (revoked : string) (later : Z),
    (now' ≤ now + Auth.token_lifetime self)%Z →
    Auth.revoke_token holder revoked = (true, holder') →
    Auth.validate_token (Auth.generate_token self user_info token now).2
        (Auth.generate_token self user_info token now).1 now'
      = (Some user_info, (Auth.generate_token self user_info token now).2)
    ∧ Auth.validate_token holder' revoked later = (None, holder').
Proof.
  intros self user_info token now now' holder holder' revoked later Hfresh Hrevoke.
  split.
  - unfold Auth.validate_token, Auth.generate_token. simpl.
    rewrite !lookup_insert_eq. by rewrite bool_decide_eq_false_2 by lia.
  - unfold Auth.revoke_token in Hrevoke.
    destruct (Auth.tokens holder !! revoked); [|done].
    injection Hrevoke as <-. unfold Auth.validate_token. simpl.
    by rewrite lookup_delete_eq.
Qed.

Lemma C7_token_lifecycle_witness :
  (4600 ≤ 1000 + Auth.token_lifetime AuthExamples.empty_provider)%Z
  ∧ Auth.revoke_token AuthExamples.issued "t0"
    = (true, (Auth.revoke_token AuthExamples.issued "t0").2)
  ∧ (Auth.validate_token (Auth.generate_token AuthExamples.empty_provider AuthExamples.alice "t0" 1000).2
        (Auth.generate_token AuthExamples.empty_provider AuthExamples.alice "t0" 1000).1 4600
      = (Some AuthExamples.alice,
         (Auth.generate_token AuthExamples.empty_provider AuthExamples.alice "t0" 1000).2)
     ∧ Auth.validate_token (Auth.revoke_token AuthExamples.issued "t0").2 "t0" 1001
       = (None, (Auth.revoke_token AuthExamples.issued "t0").2)).
Proof.
  assert (H1 : (4600 ≤ 1000 + Auth.token_lifetime AuthExamples.empty_provider)%Z).
  { simpl. lia. }
  assert (H2 : Auth.revoke_token AuthExamples.issued "t0"
               = (true, (Auth.revoke_token AuthExamples.issued "t0").2)).
  { by vm_compute. }
  split; [exact H1|]. split; [exact H2|].
  exact (C7_token_lifecycle AuthExamples.empty_provider AuthExamples.alice "t0" 1000 4600
           AuthExamples.issued _ "t0" 1001 H1 H2).
Defined.

(** ** Client-role capability query *)

Section ClientFacts.
Import Json Client.

Lemma walk_key_path parts tree : walk parts tree = true ↔ key_path parts tree.
Proof.
  revert tree. induction parts as [|part rest IH]; intros tree; simpl.
  - split; [constructor | done].
  - destruct tree as [| | | | |d]; try (split; [done | by inversion 1]).
    destruct (items_get d part) as [next|] eqn:Hget.
    + rewrite IH. split; [by econstructor|].
      inversion 1; simplify_eq. done.
    + split; [done|]. inversion 1; simplify_eq.
Qed.

Lemma step_agrees self s c :
  agrees self s → agrees (step self c) (observe s c).
Proof.
  unfold agrees, latest_tree. intros [Hi Ht].
  destruct c as [n v caps exchange notified|closed|]; cbn [step observe].
  - unfold initialize. rewrite Hi. destruct (established s) eqn:He; [by rewrite He|].
    destruct exchange as [answer| |]; cbn [snd]; [|by rewrite He..].
    unfold completes, negotiated_tree.
    cbn [established exchanges]. rewrite last_snoc. cbn [mbind option_bind].
    destruct (Protocol.py_get answer "capabilities" (JDict [])) as [tree| |];
      [|by destruct notified..].
    by destruct notified.
  - unfold disconnect. by destruct closed.
  - unfold shutdown. rewrite Hi. by destruct (established s) eqn:He.
Qed.

Lemma run_agrees calls self s :
  agrees self s → agrees (run self calls) (foldl observe s calls).
Proof.
  revert self s.
  induction calls as [|c calls IH]; intros self s Ha; [done|].
  apply IH. by apply step_agrees.
Qed.

Lemma has_capability_session calls path :
  has_capability (run init calls) path
  = established (session calls)
    && match latest_tree (session calls) with
       | Some tree => walk (Py.split path "."%char) tree
       | None => false
       end.
Proof.
  destruct (run_agrees calls init (mkSession false []) ltac:(by split)) as [Hi Ht].
  unfold has_capability, session. rewrite Hi.
  destruct (established (foldl observe _ calls)); [|done].
  by rewrite Ht.
Qed.

End ClientFacts.

(** C8: after any run of initialize, disconnect and shutdown calls on a
    fresh client-role instance, whatever the exchanges came to, a capability
    query answers false while initialization has not completed, and once it
    has, the query is the walk of the path through the capability tree
    carried by the answer of the most recent initialize exchange; whether
    initialization has completed, and which exchanges took place, is read
    off the calls and their outcomes, not off the instance.  In particular:
    a fresh instance answers false; after any run followed by a shutdown
    and an initialize call that is answered and notified, the query answers
    from the tree of that answer; an instance whose initialize request
    fails, or that received the tree but could not send the initialized
    notification, answers false; an initialize call on an initialized
    instance leaves the tree as it is; and after a shutdown and a new
    initialize the query answers from the new tree, not from the old one. *)
Theorem C8_capability_query_consults_latest_negotiation :
  (∀ (calls : list Client.Call) (capability_path : string),
     Client.has_capability (Client.run Client.init calls) capability_path
     = Client.established (Client.session calls)
       && match last (Client.exchanges (Client.session calls)) ≫= Client.negotiated_tree with
          | Some tree => Client.walk (Py.split capability_path "."%char) tree
          | None => false
          end)
  ∧ (∀ capability_path : string, Client.has_capability Client.init capability_path = false)
  ∧ (∀ (calls : list Client.Call) (client_name client_version : string)
       (capabilities answer : Json.value) (capability_path : string),
       Client.has_capability
         (Client.run Client.init
            (calls ++ [Client.CallShutdown;
                       Client.CallInitialize client_name client_version capabilities
                         (Protocol.Ok answer) (Protocol.Ok ())]))
         capability_path
       = match Protocol.py_get answer "capabilities" (Json.JDict []) with
         | Protocol.Ok tree => Client.walk (Py.split capability_path "."%char) tree
         | _ => false
         end)
  ∧ Client.has_capability
      (Client.run Client.init [ClientExamples.unanswered]) "tools" = false
  ∧ Client.has_capability
      (Client.run Client.init
         [ClientExamples.answered ClientExamples.declared (Protocol.Exn "ConnectionError")])
      "tools" = false
  ∧ Client.has_capability
      (Client.run Client.init
         [ClientExamples.answered ClientExamples.declared (Protocol.Ok ())]) "tools" = true
  ∧ Client.has_capability
      (Client.run Client.init
         [ClientExamples.answered ClientExamples.declared (Protocol.Ok ())]) "prompts" = false
  ∧ Client.has_capability
      (Client.run Client.init
         [ClientExamples.answered ClientExamples.declared (Protocol.Ok ());
          ClientExamples.answered ClientExamples.redeclared (Protocol.Ok ())]) "tools" = true
  ∧ Client.has_capability
      (Client.run Client.init
         [ClientExamples.answered ClientExamples.declared (Protocol.Ok ());
          Client.CallShutdown]) "tools" = false
  ∧ Client.has_capability
      (Client.run Client.init
         [ClientExamples.answered ClientExamples.declared (Protocol.Ok ());
          Client.CallShutdown;
          ClientExamples.answered ClientExamples.redeclared (Protocol.Ok ())]) "tools" = false
  ∧ Client.has_capability
      (Client.run Client.init
         [ClientExamples.answered ClientExamples.declared (Protocol.Ok ());
          Client.CallShutdown;
          ClientExamples.answered ClientExamples.redeclared (Protocol.Ok ())]) "prompts" = true.
Proof.
  split_and!; [exact has_capability_session|done| |by vm_compute..].
  intros calls n v caps answer path.
  rewrite has_capability_session. unfold Client.session, Client.latest_tree.
  rewrite (foldl_app _ calls [Client.CallShutdown; _]).
  cbn [foldl Client.observe Client.established Client.exchanges].
  rewrite last_snoc. unfold Client.completes, Client.negotiated_tree.
  cbn [mbind option_bind].
  by destruct (Protocol.py_get answer "capabilities" (Json.JDict [])).
Qed.

(** C10: [has_capability] returns true exactly when the instance is
    initialized and every component of the dot-separated path is present as
    a dictionary key along the negotiated tree, whatever value the last key
    holds; a server that declared resources with the value false is
    reported as supporting resources. *)
Theorem C10_capability_is_key_presence :
  (∀ (self : Client.ClientProtocol) (capability_path : string),
     Client.has_capability self capability_path = true ↔
     Client.initialized self = true
     ∧ Client.key_path (Py.split capability_path "."%char) (Client.server_capabilities self))
  ∧ Client.server_capabilities ClientExamples.negotiated = ClientExamples.declared
  ∧ Client.has_capability ClientExamples.negotiated "resources" = true
  ∧ Client.has_capability ClientExamples.negotiated "resources.subscriptions" = false.
Proof.
  split_and!; [|by vm_compute..].
  intros self path. unfold Client.has_capability.
  destruct (Client.initialized self); simpl.
  - rewrite walk_key_path. tauto.
  - split; [done | by intros [? _]].
Qed.

(** ** Stdio transport *)

Section StdioFacts.
Import Json Protocol Stdio.

#[local] Arguments String.append : simpl nomatch.

Lemma app_assoc_s (a b c : string) : (a +:+ b) +:+ c = a +:+ (b +:+ c).
Proof. induction a; simpl; congruence. Qed.

Lemma app_empty_r (a : string) : a +:+ "" = a.
Proof. induction a; simpl; congruence. Qed.

Lemma rev_app_spec (s t : string) : String.rev_app s t = String.rev s +:+ t.
Proof.
  revert t. induction s as [|c s IH]; intros t; [done|].
  unfold String.rev. simpl. rewrite (IH (String c t)), (IH (String c "")).
  by rewrite app_assoc_s.
Qed.

Lemma rev_cons (c : ascii) (s : string) : String.rev (String c s) = String.rev s +:+ String c "".
Proof. unfold String.rev at 1. simpl. apply rev_app_spec. Qed.

Lemma rev_app_distr (s t : string) : String.rev (s +:+ t) = String.rev t +:+ String.rev s.
Proof.
  induction s as [|c s IH]; simpl.
  - by rewrite app_empty_r.
  - by rewrite !rev_cons, IH, app_assoc_s.
Qed.

Lemma rev_involutive (s : string) : String.rev (String.rev s) = s.
Proof.
  induction s as [|c s IH]; [done|].
  by rewrite rev_cons, rev_app_distr, IH.
Qed.

Lemma startswith_app (p t : string) : Py.startswith (p +:+ t) p = true.
Proof. induction p; simpl; [done|]. by rewrite decide_True. Qed.

Lemma str_drop_app (p t : string) : Py.str_drop (String.length p) (p +:+ t) = t.
Proof. induction p; simpl; [by destruct t|done]. Qed.

Lemma str_take_app (p t : string) : Py.str_take (String.length p) (p +:+ t) = p.
Proof. induction p; simpl; [by destruct t|congruence]. Qed.

Lemma length_app_s (p t : string) : String.length (p +:+ t) = String.length p + String.length t.
Proof. induction p; simpl; lia. Qed.


Lemma digits_uint (d : Decimal.uint) : digits (NilEmpty.string_of_uint d).
Proof. induction d; simpl; try done; split; try done; by eexists. Qed.

Lemma digits_app (s t : string) : digits s → digits t → digits (s +:+ t).
Proof. induction s; simpl; tauto. Qed.

Lemma digits_rev (s : string) : digits s → digits (String.rev s).
Proof.
  induction s as [|c s IH]; [done|]. intros [Hc Hs].
  rewrite rev_cons. apply digits_app; [auto|]. by split.
Qed.

Lemma digit_not_space c : is_Some (digit_of c) → is_space c = false.
Proof.
  intros [d Hd]. unfold digit_of in Hd. case_bool_decide; [|done].
  unfold is_space. rewrite !bool_decide_eq_false_2; [done|lia..].
Qed.

Lemma lstrip_digits (s : string) : digits s → lstrip s = s.
Proof. destruct s; [done|]. intros [Hc _]. simpl. by rewrite digit_not_space. Qed.

Lemma strip_digits (s : string) : digits s → strip s = s.
Proof.
  intros H. unfold strip. rewrite (lstrip_digits s H).
  rewrite lstrip_digits by by apply digits_rev. apply rev_involutive.
Qed.

Lemma int_digits_acc (d : Decimal.uint) (acc : positive) :
  int_digits (NilEmpty.string_of_uint d) (Z.pos acc) true = Some (Z.pos (Pos.of_uint_acc d acc)).
Proof.
  revert acc. induction d; intros acc; simpl; try done;
    rewrite <- IHd; f_equal;
    match goal with
    | |- context [Z.of_nat (nat_of_ascii ?c)] =>
        let v := eval vm_compute in (Z.of_nat (nat_of_ascii c)) in
        change (Z.of_nat (nat_of_ascii c)) with v
    end; lia.
Qed.

Lemma int_digits_uint (d : Decimal.uint) (b : bool) :
  d ≠ Decimal.Nil ∨ b = true →
  int_digits (NilEmpty.string_of_uint d) 0 b = Some (Z.of_N (Pos.of_uint d)).
Proof.
  revert b. induction d; intros b Hd; simpl;
    try (by rewrite <- int_digits_acc; f_equal).
  - by destruct Hd as [?| ->].
  - apply IHd. by right.
Qed.

Lemma py_int_of_nat (n : nat) :
  py_int (NilZero.string_of_int (Z.to_int (Z.of_nat n))) = Some (Z.of_nat n).
Proof.
  destruct (Z.of_nat n) as [|p|p] eqn:Hn; [done| |lia].
  unfold Z.to_int, NilZero.string_of_int, NilZero.string_of_uint.
  assert (Hnil : Pos.to_uint p ≠ Decimal.Nil).
  { intros H. pose proof (Unsigned.of_to p) as Hp. by rewrite H in Hp. }
  pose proof (int_digits_uint (Pos.to_uint p) false (or_introl Hnil)) as H.
  rewrite Unsigned.of_to in H.
  pose proof (digits_uint (Pos.to_uint p)) as Hd.
  destruct (Pos.to_uint p) as [|d|d|d|d|d|d|d|d|d|d] eqn:Hp; [done|..].
  all: unfold py_int; rewrite strip_digits by done.
  all: exact H.
Qed.


Lemma no_cr_digits (s : string) : digits s → no_cr s.
Proof.
  induction s as [|c s IH]; [done|]. intros [[d Hd] Hs]. split; [|auto].
  intros ->. by vm_compute in Hd.
Qed.

Lemma no_cr_app (s t : string) : no_cr s → no_cr t → no_cr (s +:+ t).
Proof. induction s; simpl; tauto. Qed.

Lemma readuntil_go_step (c : ascii) (acc s : string) :
  c ≠ "013"%char →
  readuntil_go (CRLF +:+ CRLF) acc (String c s) = readuntil_go (CRLF +:+ CRLF) (String c acc) s.
Proof. intros Hc. simpl. by rewrite decide_False. Qed.

Lemma readuntil_go_first (h acc tail : string) :
  no_cr h →
  readuntil_go (CRLF +:+ CRLF) acc (h +:+ (CRLF +:+ CRLF) +:+ tail)
  = Some (String.rev acc +:+ h +:+ CRLF +:+ CRLF, tail).
Proof.
  revert acc. induction h as [|c h IH]; intros acc Hh.
  - by destruct tail.
  - destruct Hh as [Hc Hh].
    change (String c h +:+ ?x) with (String c (h +:+ x)).
    rewrite readuntil_go_step, IH by done. by rewrite rev_cons, app_assoc_s.
Qed.

Lemma split_go_step (c : ascii) (cur s : string) :
  c ≠ "013"%char →
  split_go CRLF 0 cur (String c s) = split_go CRLF 0 (String c cur) s.
Proof. intros Hc. simpl. by rewrite decide_False. Qed.

Lemma split_go_first (h cur tail : string) :
  no_cr h →
  ∃ rest, split_go CRLF 0 cur (h +:+ CRLF +:+ tail) = (String.rev cur +:+ h) :: rest.
Proof.
  revert cur. induction h as [|c h IH]; intros cur Hh.
  - eexists. simpl. by rewrite app_empty_r.
  - destruct Hh as [Hc Hh].
    change (String c h +:+ ?x) with (String c (h +:+ x)).
    rewrite split_go_step by done.
    destruct (IH (String c cur) Hh) as [rest ->]. eexists.
    by rewrite rev_cons, app_assoc_s.
Qed.

Lemma digits_decimal (n : nat) : digits (NilZero.string_of_int (Z.to_int (Z.of_nat n))).
Proof.
  destruct (Z.of_nat n) as [|p|p] eqn:Hn; [by repeat split; eexists| |lia].
  unfold Z.to_int, NilZero.string_of_int, NilZero.string_of_uint.
  pose proof (digits_uint (Pos.to_uint p)) as Hd.
  by destruct (Pos.to_uint p); [repeat split; eexists|..].
Qed.

Lemma receive_one_frame (payload rest : string) :
  receive_one (frame payload +:+ rest) = Yield payload rest.
Proof.
  unfold receive_one, frame, readuntil.
  pose proof (digits_decimal (String.length payload)) as Hd.
  pose proof (py_int_of_nat (String.length payload)) as Hi.
  set (n := NilZero.string_of_int _) in *.
  replace (("Content-Length: " +:+ n +:+ CRLF +:+ CRLF +:+ payload) +:+ rest)
    with (("Content-Length: " +:+ n) +:+ (CRLF +:+ CRLF) +:+ (payload +:+ rest))
    by by rewrite !app_assoc_s.
  rewrite readuntil_go_first by by apply (no_cr_app "Content-Length: "), no_cr_digits.
  unfold split.
  replace (String.rev "" +:+ ("Content-Length: " +:+ n) +:+ CRLF +:+ CRLF)
    with (("Content-Length: " +:+ n) +:+ CRLF +:+ CRLF) by done.
  destruct (split_go_first ("Content-Length: " +:+ n) "" CRLF) as [more ->].
  { by apply (no_cr_app "Content-Length: "), no_cr_digits. }
  change (content_length _) with (Some (py_int n)). rewrite Hi.
  rewrite bool_decide_eq_false_2 by lia. rewrite Nat2Z.id.
  rewrite bool_decide_eq_false_2 by (rewrite length_app_s; lia).
  by rewrite str_take_app, str_drop_app.
Qed.

Lemma send_messages_stream (out : string) (messages : list string) :
  send_messages (Some out) messages
  = Return (Some (out +:+ foldr (λ m acc, frame m +:+ acc) "" messages)).
Proof.
  revert out. induction messages as [|m ms IH]; intros out; simpl.
  - by rewrite app_empty_r.
  - by rewrite IH, app_assoc_s.
Qed.

Lemma receive_loop_frames (fuel : nat) (messages : list string) :
  length messages < fuel →
  receive_loop fuel (foldr (λ m acc, frame m +:+ acc) "" messages)
  = (messages, Some "IncompleteReadError").
Proof.
  revert fuel. induction messages as [|m ms IH]; intros [|fuel] Hf;
    cbn [receive_loop foldr length] in *; try lia.
  - done.
  - rewrite receive_one_frame. by rewrite IH by lia.
Qed.

Lemma frame_length_pos (m : string) : 0 < String.length (frame m).
Proof.
  unfold frame.
  change ("Content-Length: " +:+ ?x) with (String "C" ("ontent-Length: " +:+ x)).
  cbn [String.length]. lia.
Qed.

Lemma frames_length (messages : list string) :
  length messages ≤ String.length (foldr (λ m acc, frame m +:+ acc) "" messages).
Proof.
  induction messages as [|m ms IH]; cbn [foldr length]; [lia|].
  rewrite length_app_s. pose proof (frame_length_pos m). lia.
Qed.

End StdioFacts.

(** X1: whatever the messages, the byte stream that a run of
    [send_message] calls writes is read back by [receive_messages] as
    exactly those messages, in order; the generator then ends with the
    incomplete read at the end of the stream. *)
Theorem X1_stdio_frames_round_trip :
  ∀ messages : list string,
    ∃ stream,
      Stdio.send_messages (Some "") messages = Json.Return (Some stream) ∧
      Stdio.receive_messages (Some stream) = (messages, Some "IncompleteReadError").
Proof.
  intros messages. eexists. split; [apply send_messages_stream|].
  unfold Stdio.receive_messages. apply receive_loop_frames.
  pose proof (frames_length messages) as H. change ("" +:+ ?x) with x. lia.
Qed.

(** ** Requests, notifications and responses at the dispatcher *)

Section MessagingFacts.
Import Json Protocol Messaging.


Lemma has_key_true d k : has_key d k = true → ∃ v, items_get d k = Some v.
Proof. unfold has_key. destruct (items_get d k); [by eexists|done]. Qed.

Lemma has_key_false d k : has_key d k = false → items_get d k = None.
Proof. unfold has_key. by destruct (items_get d k). Qed.


Lemma notification_from_dict_no_exn d e : notification_from_dict (JDict d) ≠ Exn e.
Proof.
  unfold notification_from_dict, key_satisfies.
  unfold mbind, result_bind, bind. cbn [py_in py_index py_get].
  destruct (has_key d "jsonrpc") eqn:Hv; [|done].
  destruct (has_key_true _ _ Hv) as [v ->].
  destruct (eq_str v "2.0"); cbn [negb]; [|done].
  destruct (has_key d "method") eqn:Hm; [|done].
  destruct (has_key_true _ _ Hm) as [m ->].
  destruct (is_str m); cbn [negb]; [|done].
  destruct (has_key d "id"); [done|].
  by destruct (negb (is_null _) && negb (is_dict _)).
Qed.







(** With no request pending, a response is dropped whatever its id is,
    a list or a dict too: the empty table is not searched. *)
Lemma _handle_response_empty_table self rid res :
  pending_requests self = [] →
  _handle_response self (response_result rid res) = Ok self.
Proof.
  intros Hempty. unfold _handle_response, response_result, key_satisfies.
  unfold mbind, result_bind, bind. cbn [py_in py_index py_get].
  change (has_key _ "jsonrpc") with true.
  change (has_key _ "id") with true.
  change (has_key _ "error") with false.
  change (has_key _ "result") with true.
  change (items_get _ "jsonrpc") with (Some (JStr "2.0")).
  change (items_get _ "id") with (Some rid).
  change (items_get _ "result") with (Some (if truthy res then res else JDict [])).
  cbn [negb]. change (eq_str (JStr "2.0") "2.0") with true.
  cbn [negb]. by rewrite bool_decide_eq_true_2.
Qed.

End MessagingFacts.



(** X3: a message that is an object with a method and without an id is a
    notification: the dispatcher never answers it, whatever its other
    members are and whatever is registered, and its state is unchanged. *)
Theorem X3_notification_is_never_answered :
  ∀ (loads : string → option Json.value) (self : Protocol.State) (fresh message : string)
    (d : list (string * Json.value)),
    loads message = Some (Json.JDict d) →
    Json.has_key d "method" = true →
    Json.has_key d "id" = false →
    Protocol.handle_message loads self fresh message = (None, self).
Proof.
  intros loads self fresh message d Hloads Hmethod Hid.
  unfold Protocol.handle_message. rewrite Hloads.
  unfold mbind, Protocol.result_bind, Protocol.bind. cbn [Protocol.py_in].
  rewrite Hmethod, Hid. unfold Protocol._handle_notification.
  pose proof (notification_from_dict_no_exn d) as Hn.
  destruct (Protocol.notification_from_dict (Json.JDict d)) as [?|?|e]; [done..|].
  by destruct (Hn e).
Qed.

Lemma X3_notification_is_never_answered_witness :
  let text := "{" +:+ ProtocolExamples.quoted "method" +:+ ":"
                  +:+ ProtocolExamples.quoted "initialized" +:+ "}" in
  let d := [("method", Json.JStr "initialized")] in
  Protocol.json_loads text = Some (Json.JDict d)
  ∧ Json.has_key d "method" = true
  ∧ Json.has_key d "id" = false
  ∧ Protocol.handle_message Protocol.json_loads ProtocolExamples.idle "u1" text
    = (None, ProtocolExamples.idle).
Proof.
  intros text d.
  assert (H1 : Protocol.json_loads text = Some (Json.JDict d)) by by vm_compute.
  assert (H2 : Json.has_key d "method" = true) by by vm_compute.
  assert (H3 : Json.has_key d "id" = false) by by vm_compute.
  split_and!; [done..|].
  exact (X3_notification_is_never_answered Protocol.json_loads ProtocolExamples.idle
           "u1" text d H1 H2 H3).
Defined.





(** ** Routing a message *)

Section RoutingFacts.
Import Json Router Routing.

Lemma filter_matching_string (candidates : list Route) (m : string) :
  filter_matching candidates (JStr m)
  = Return (filter (λ route, matches_method route m = true) candidates).
Proof.
  induction candidates as [|route rest IH]; [done|].
  cbn [filter_matching matches_method_value]. rewrite IH.
  destruct (matches_method route m) eqn:Hm.
  - by rewrite filter_cons_True.
  - by rewrite filter_cons_False by (by rewrite Hm).
Qed.

(** On a method that is a string the lookup of [route_message] is
    [get_matching_routes]. *)
Lemma get_matching_routes_value_string (self : MessageRouter) src (m : string) :
  get_matching_routes_value self src (JStr m) = Return (get_matching_routes self src m).
Proof.
  unfold get_matching_routes_value, get_matching_routes.
  destruct (is_empty _); [done|].
  destruct (is_empty _); [done|]. apply filter_matching_string.
Qed.

Lemma _create_error_response_notification message code text :
  has_key message "id" = false → _create_error_response message code text = None.
Proof. unfold has_key, _create_error_response. by destruct (items_get message "id"). Qed.

(** The routes of a fresh router, whatever the order of the set. *)
Lemma init_routes (place : list Route → Route → list Route) :
  Py.place_ok place →
  routes (init place) ≡ₚ [default_hub_route; default_client_route].
Proof.
  intros Hplace. unfold init, _initialize_default_routes, add_route. cbn [routes].
  unfold Py.set_add at 2. rewrite decide_False by by inversion 1.
  assert (H1 : place [] default_client_route ≡ₚ [default_client_route]).
  { apply Hplace. by inversion 1. }
  unfold Py.set_add. rewrite decide_False.
  - rewrite Hplace; [by rewrite H1|]. rewrite H1. by rewrite list_elem_of_singleton.
  - rewrite H1. by rewrite list_elem_of_singleton.
Qed.

Lemma filter_nil_perm {A} (P : A → Prop) `{∀ x, Decision (P x)} (l l' : list A) :
  l ≡ₚ l' → filter P l' = [] → filter P l = [].
Proof.
  intros Hl Hnil. apply Permutation_nil_r. rewrite <- Hnil. by apply filter_Permutation.
Qed.
End RoutingFacts.

(** X6: a message without an id is never answered by the router: not
    with the response of a handler, and not with an error either, be it
    for a missing method, for a method no route matches, or for a lookup
    that raises. *)
Theorem X6_router_never_answers_a_notification :
  ∀ (Effect : Type) (render : Json.value → string) (self : Router.MessageRouter)
    (message_handlers : Router.RouteType → option (@Routing.MessageHandler Effect))
    (message : list (string * Json.value)) (src : Router.RouteTarget),
    Json.has_key message "id" = false →
    (Routing.route_message render self message_handlers message src).1.1 = None.
Proof.
  intros Effect render self message_handlers message src Hid.
  unfold Routing.route_message. rewrite Hid.
  destruct (Json.items_get message "method") as [method|];
    [|by apply _create_error_response_notification].
  destruct (Routing.get_matching_routes_value self src method) as [[|route others]|e];
    try done; by apply _create_error_response_notification.
Qed.

Lemma X6_router_never_answers_a_notification_witness :
  Json.has_key RoutingExamples.progress_note "id" = false
  ∧ (Routing.route_message (λ _, "") RoutingExamples.client_to_s1 RoutingExamples.hub_table
       RoutingExamples.progress_note RouterExamples.client1).1.1 = None.
Proof.
  assert (H : Json.has_key RoutingExamples.progress_note "id" = false) by by vm_compute.
  split; [done|].
  exact (X6_router_never_answers_a_notification string (λ _, "") RoutingExamples.client_to_s1
           RoutingExamples.hub_table RoutingExamples.progress_note RouterExamples.client1 H).
Defined.

(** X7: with the two default routes only, which is all the hub sets up by
    itself, a request that the hub routes for a connected server or client
    is answered with method-not-found under its id, whatever its method,
    and no handler runs: the default route from the clients has the source
    type all-clients, and the lookup compares source types for equality. *)
Theorem X7_default_routes_serve_no_single_member :
  ∀ (Effect : Type) (render : Json.value → string)
    (place : list Router.Route → Router.Route → list Router.Route)
    (message_handlers : Router.RouteType → option (@Routing.MessageHandler Effect))
    (message : list (string * Json.value)) (source_type : Router.RouteType)
    (source_id : string) (method id : Json.value),
    Py.place_ok place →
    source_type ∈ [Router.SERVER; Router.CLIENT] →
    source_id ≠ "" →
    Json.items_get message "method" = Some method →
    Json.items_get message "id" = Some id →
    Routing.hub_route_message render (Router.init place) message_handlers message
        source_type (Some source_id)
    = Json.Return
        (Some (Protocol.response_error id Protocol.METHOD_NOT_FOUND
                 ("Method not found: " +:+ Routing.method_text render method) None),
         [], []).
Proof.
  intros Effect render place message_handlers message source_type source_id method id
    Hplace Htype Hsid Hmethod Hid.
  unfold Routing.hub_route_message.
  rewrite bool_decide_eq_true_2 by done.
  assert (Ht : source_type = Router.SERVER ∨ source_type = Router.CLIENT).
  { rewrite !elem_of_cons, elem_of_nil in Htype. tauto. }
  cbn [Py.truthy_str]. rewrite bool_decide_eq_false_2 by done. cbn [negb].
  unfold Routing.route_message. rewrite Hmethod.
  unfold Routing.get_matching_routes_value. cbn [Router.route_type].
  rewrite (filter_nil_perm _ _ _ (init_routes place Hplace)).
  - cbn [Router.is_empty]. unfold Routing._create_error_response. by rewrite Hid.
  - by destruct Ht as [-> | ->].
Qed.

Lemma X7_default_routes_serve_no_single_member_witness :
  Py.place_ok (@Py.place_back Router.Route)
  ∧ Router.CLIENT ∈ [Router.SERVER; Router.CLIENT]
  ∧ "c1" ≠ ""
  ∧ Json.items_get RoutingExamples.tools_call "method" = Some (Json.JStr "tools/call")
  ∧ Json.items_get RoutingExamples.tools_call "id" = Some (Json.JInt 1)
  ∧ Routing.hub_route_message (λ _, "") (Router.init Py.place_back)
        RoutingExamples.hub_table RoutingExamples.tools_call Router.CLIENT (Some "c1")
    = Json.Return
        (Some (Protocol.response_error (Json.JInt 1) Protocol.METHOD_NOT_FOUND
                 "Method not found: tools/call" None),
         [], []).
Proof.
  assert (H1 : Py.place_ok (@Py.place_back Router.Route)) by apply place_back_ok.
  assert (H2 : Router.CLIENT ∈ [Router.SERVER; Router.CLIENT]).
  { apply elem_of_cons. right. apply elem_of_cons. by left. }
  assert (H3 : "c1" ≠ "") by done.
  assert (H4 : Json.items_get RoutingExamples.tools_call "method"
               = Some (Json.JStr "tools/call")) by by vm_compute.
  assert (H5 : Json.items_get RoutingExamples.tools_call "id" = Some (Json.JInt 1))
    by by vm_compute.
  split_and!; [done..|].
  exact (X7_default_routes_serve_no_single_member string (λ _, "") Py.place_back
           RoutingExamples.hub_table RoutingExamples.tools_call Router.CLIENT "c1"
           (Json.JStr "tools/call") (Json.JInt 1) H1 H2 H3 H4 H5).
Defined.

(** X8: the router picks the handler by the route type of the
    destination, and the handler the hub registers for a single server, a
    single client or the hub itself serves none of these three: with the
    hub's handlers, a request whose first matching route leads to a server,
    to a client or to the hub is forwarded to nobody and gets no response
    at all, whoever is connected. *)
Theorem X8_single_destinations_get_no_response :
  ∀ (Server Client : Type)
    (server_forward : Server → list (string * Json.value) → Json.outcome (option Json.value))
    (client_forward : Client → list (string * Json.value) → Json.outcome (option Json.value))
    (server_has_capability : Server → string → bool) (server_initialized : Server → bool)
    (env : Hub.Environment) (self : Hub.Connections Server Client)
    (render : Json.value → string) (router : Router.MessageRouter)
    (message : list (string * Json.value)) (src : Router.RouteTarget) (method : string)
    (route : Router.Route) (others : list Router.Route),
    Json.items_get message "method" = Some (Json.JStr method) →
    Json.has_key message "id" = true →
    Router.get_matching_routes router src method = route :: others →
    Router.route_type (Router.destination route) ∈ [Router.SERVER; Router.CLIENT; Router.HUB] →
    Routing.route_message render router
        (HubRouting._setup_message_handlers server_forward client_forward
           server_has_capability server_initialized env self)
        message src
    = (None, [], []).
Proof.
  intros Server Client server_forward client_forward server_has_capability
    server_initialized env self render router message src method route others
    Hmethod Hid Hroutes Hdst.
  unfold Routing.route_message.
  rewrite Hmethod, get_matching_routes_value_string, Hroutes, Hid.
  assert (Hd : Router.route_type (Router.destination route) = Router.SERVER
               ∨ Router.route_type (Router.destination route) = Router.CLIENT
               ∨ Router.route_type (Router.destination route) = Router.HUB).
  { rewrite !elem_of_cons, elem_of_nil in Hdst. tauto. }
  unfold HubRouting._setup_message_handlers.
  destruct Hd as [Hd|[Hd|Hd]]; rewrite Hd.
  - unfold HubRouting._handle_server_message. rewrite Hd.
    by destruct (HubRouting.get_connection _ _).
  - unfold HubRouting._handle_client_message. rewrite Hd.
    by destruct (HubRouting.get_connection _ _).
  - unfold HubRouting._handle_hub_message. by rewrite Hd.
Qed.

Lemma X8_single_destinations_get_no_response_witness :
  Json.items_get RoutingExamples.tools_call "method" = Some (Json.JStr "tools/call")
  ∧ Json.has_key RoutingExamples.tools_call "id" = true
  ∧ Router.get_matching_routes RoutingExamples.client_to_s1 RouterExamples.client1 "tools/call"
    = [RoutingExamples.to_s1]
  ∧ Router.route_type (Router.destination RoutingExamples.to_s1)
    ∈ [Router.SERVER; Router.CLIENT; Router.HUB]
  ∧ Routing.route_message (λ _, "") RoutingExamples.client_to_s1 RoutingExamples.hub_table
        RoutingExamples.tools_call RouterExamples.client1
    = (None, [], []).
Proof.
  assert (H1 : Json.items_get RoutingExamples.tools_call "method"
               = Some (Json.JStr "tools/call")) by by vm_compute.
  assert (H2 : Json.has_key RoutingExamples.tools_call "id" = true) by by vm_compute.
  assert (H3 : Router.get_matching_routes RoutingExamples.client_to_s1 RouterExamples.client1
                 "tools/call" = [RoutingExamples.to_s1]) by by vm_compute.
  assert (H4 : Router.route_type (Router.destination RoutingExamples.to_s1)
               ∈ [Router.SERVER; Router.CLIENT; Router.HUB]) by (by apply elem_of_cons; left).
  split_and!; [done..|].
  exact (X8_single_destinations_get_no_response string string RoutingExamples.named_answer
           RoutingExamples.named_answer (λ _ _, true) (λ _, true) HubExamples.idle_env
           RoutingExamples.one_each (λ _, "") RoutingExamples.client_to_s1
           RoutingExamples.tools_call RouterExamples.client1 "tools/call"
           RoutingExamples.to_s1 [] H1 H2 H3 H4).
Defined.

(** X9: a pattern that ends in a slash and a star matches exactly the
    methods that start with the text before the slash; the slash itself is
    not required, so the pattern for [tools/] also matches a method named
    [toolsmith]. *)
Theorem X9_slash_star_pattern_is_a_prefix_test :
  ∀ (src dst : Router.RouteTarget) (prefix method : string),
    Router.matches_method (Router.mkRoute src dst (Some (prefix +:+ "/*"))) method
    = Py.startswith method prefix.
Proof.
  intros src dst prefix method. unfold Router.matches_method.
  cbn [Router.method_pattern].
  rewrite bool_decide_eq_false_2 by by destruct prefix.
  case_bool_decide as Heq.
  - subst method. by rewrite startswith_app.
  - assert (Hend : Py.endswith (prefix +:+ "/*") "/*" = true).
    { unfold Py.endswith. rewrite rev_app_distr.
      change (String.rev "/*") with "*/". apply startswith_app. }
    rewrite Hend. unfold Py.drop_last. rewrite length_app_s.
    replace (String.length prefix + String.length "/*" - 2) with (String.length prefix)
      by (cbn; lia).
    by rewrite str_take_app.
Qed.

(** ** Access control: assignments and permissions *)

Section AclAssignmentFacts.
Import Acl.

(** The loop over the roles of a user answers true exactly when one of the
    names leads to a role that answers true. *)
Lemma has_permission_roles_iff self names resource permission :
  has_permission_roles self names resource permission = true ↔
  ∃ role_name role, role_name ∈ names ∧ roles self !! role_name = Some role
    ∧ role_has_permission role resource permission = true.
Proof.
  induction names as [|n names IH]; cbn [has_permission_roles].
  - split; [done|]. by intros (? & ? & ?%elem_of_nil & _).
  - destruct (roles self !! n) as [role|] eqn:Hrole.
    + destruct (role_has_permission role resource permission) eqn:Hr.
      * split; [|done]. intros _. exists n, role. split; [left|done].
      * rewrite IH. split.
        -- intros (n' & r' & ? & ?). exists n', r'. split; [by right|done].
        -- intros (n' & r' & [->|?]%elem_of_cons & Hl & Hp).
           ++ congruence.
           ++ by exists n', r'.
    + rewrite IH. split.
      * intros (n' & r' & ? & ?). exists n', r'. split; [by right|done].
      * intros (n' & r' & [->|?]%elem_of_cons & Hl & Hp).
        -- congruence.
        -- by exists n', r'.
Qed.

Lemma list_remove_elem (x y : string) (l : list string) :
  y ∈ Py.list_remove x l → y ∈ l.
Proof.
  induction l as [|z l IH]; cbn [Py.list_remove]; [done|].
  case_decide; [by right|]. intros [->|?]%elem_of_cons; [left|right; auto].
Qed.

Lemma list_remove_snoc (x : string) (l : list string) :
  x ∉ l → Py.list_remove x (l ++ [x]) = l.
Proof.
  induction l as [|y l IH]; cbn [Py.list_remove app].
  - intros _. by rewrite decide_True.
  - rewrite not_elem_of_cons. intros [Hne Hl].
    rewrite decide_False by done. by rewrite IH.
Qed.

(** What [assign_role] leaves in the list of each user. *)
Lemma assign_role_user_roles self username role_name role u :
  roles self !! role_name = Some role →
  get_user_roles (assign_role self username role_name).2 u
  = if decide (u = username)
    then (if decide (role_name ∈ get_user_roles self username)
          then get_user_roles self username
          else get_user_roles self username ++ [role_name])
    else get_user_roles self u.
Proof.
  intros Hrole. unfold assign_role, get_user_roles. rewrite Hrole.
  destruct (user_roles self !! username) as [current|] eqn:Hcur.
  - cbn [default from_option id]. rewrite Hcur. cbn [default from_option id].
    destruct (decide (role_name ∈ current)); cbn [snd user_roles].
    + destruct (decide (u = username)) as [->|]; [by rewrite Hcur|done].
    + destruct (decide (u = username)) as [->|].
      * by rewrite lookup_insert_eq.
      * by rewrite lookup_insert_ne.
  - rewrite lookup_insert_eq. cbn [default from_option id].
    rewrite decide_False by apply not_elem_of_nil. cbn [snd user_roles].
    destruct (decide (u = username)) as [->|].
    + by rewrite lookup_insert_eq.
    + by rewrite !lookup_insert_ne.
Qed.

Lemma assign_role_roles self username role_name :
  roles (assign_role self username role_name).2 = roles self.
Proof.
  unfold assign_role. destruct (roles self !! role_name); [|done].
  by destruct (decide _).
Qed.
End AclAssignmentFacts.

(** X10: assigning a role only adds.  When the role exists, every
    permission any user had before is still there afterwards, and the user
    the role went to now has every permission the role answers for. *)
Theorem X10_assign_role_only_adds :
  ∀ (self : Acl.AccessControlList) (username role_name : string) (role : Acl.Role),
    Acl.roles self !! role_name = Some role →
    (∀ u resource permission,
       Acl.has_permission self u resource permission = true →
       Acl.has_permission (Acl.assign_role self username role_name).2 u resource permission
       = true)
    ∧ (∀ resource permission,
         Acl.role_has_permission role resource permission = true →
         Acl.has_permission (Acl.assign_role self username role_name).2 username
           resource permission = true).
Proof.
  intros self username role_name role Hrole. split.
  - intros u resource permission. unfold Acl.has_permission.
    rewrite !has_permission_roles_iff, assign_role_roles.
    rewrite (assign_role_user_roles _ _ _ role) by done.
    intros (n & r & Hin & Hl & Hp). exists n, r. split; [|done].
    destruct (decide (u = username)) as [->|]; [|done].
    destruct (decide _); [done|]. apply elem_of_app. by left.
  - intros resource permission Hp. unfold Acl.has_permission.
    rewrite has_permission_roles_iff, assign_role_roles.
    rewrite (assign_role_user_roles _ _ _ role) by done.
    exists role_name, role. split; [|done].
    rewrite decide_True by done.
    destruct (decide _); [done|]. apply elem_of_app. right. by apply list_elem_of_singleton.
Qed.

Lemma X10_assign_role_only_adds_witness :
  Acl.roles (Acl.init None) !! "guest" = Some Acl.guest_role
  ∧ (∀ u resource permission,
       Acl.has_permission (Acl.init None) u resource permission = true →
       Acl.has_permission (Acl.assign_role (Acl.init None) "ann" "guest").2 u resource permission
       = true)
  ∧ (∀ resource permission,
       Acl.role_has_permission Acl.guest_role resource permission = true →
       Acl.has_permission (Acl.assign_role (Acl.init None) "ann" "guest").2 "ann"
         resource permission = true).
Proof.
  assert (H : Acl.roles (Acl.init None) !! "guest" = Some Acl.guest_role) by by vm_compute.
  split; [done|].
  exact (X10_assign_role_only_adds (Acl.init None) "ann" "guest" Acl.guest_role H).
Defined.

(** X11: taking away never grants.  Whatever the state, a permission that
    a user has after an assignment was revoked, or after a role was
    removed, is one the user had before. *)
Theorem X11_revoking_and_removing_never_grant :
  ∀ (self : Acl.AccessControlList) (u : string) (resource : Acl.Resource)
    (permission : Acl.Permission),
    (∀ username role_name,
       Acl.has_permission (Acl.revoke_role self username role_name).2 u resource permission
       = true →
       Acl.has_permission self u resource permission = true)
    ∧ (∀ role_name,
         Acl.has_permission (Acl.remove_role self role_name).2 u resource permission = true →
         Acl.has_permission self u resource permission = true).
Proof.
  intros self u resource permission. split.
  - intros username role_name. unfold Acl.has_permission, Acl.revoke_role.
    destruct (Acl.user_roles self !! username) as [current|] eqn:Hcur; [|done].
    destruct (decide (role_name ∈ current)); [|done].
    rewrite !has_permission_roles_iff. cbn [snd Acl.roles].
    intros (n & r & Hin & Hl & Hp). exists n, r. split; [|done].
    revert Hin. unfold Acl.get_user_roles. cbn [Acl.user_roles].
    destruct (decide (u = username)) as [->|Hne].
    + rewrite Hcur. destruct (decide _).
      * rewrite lookup_delete_eq. cbn. by intros ?%elem_of_nil.
      * rewrite lookup_insert_eq. apply list_remove_elem.
    + destruct (decide _); [by rewrite lookup_delete_ne|by rewrite lookup_insert_ne].
  - intros role_name. unfold Acl.has_permission, Acl.remove_role.
    destruct (Acl.roles self !! role_name) as [role|] eqn:Hrole; [|done].
    rewrite !has_permission_roles_iff. cbn [snd Acl.roles].
    intros (n & r & Hin & Hl & Hp). exists n, r.
    apply lookup_delete_Some in Hl as [Hne Hl]. split; [|done].
    revert Hin. unfold Acl.get_user_roles. cbn [Acl.user_roles].
    rewrite lookup_fmap. destruct (Acl.user_roles self !! u) as [rs|]; [|done].
    cbn. destruct (decide _); [apply list_remove_elem|done].
Qed.

(** X12: revoking a role that was just assigned undoes the assignment.
    When the role exists and the user did not have it, both calls
    succeed, and afterwards every user has the roles they had before, in
    the same order. *)
Theorem X12_revoke_undoes_assign :
  ∀ (self : Acl.AccessControlList) (username role_name : string),
    is_Some (Acl.roles self !! role_name) →
    role_name ∉ Acl.get_user_roles self username →
    (Acl.assign_role self username role_name).1 = true
    ∧ (Acl.revoke_role (Acl.assign_role self username role_name).2 username role_name).1 = true
    ∧ ∀ u,
        Acl.get_user_roles
          (Acl.revoke_role (Acl.assign_role self username role_name).2 username role_name).2 u
        = Acl.get_user_roles self u.
Proof.
  intros self username role_name [role Hrole] Hnot.
  pose proof (assign_role_user_roles self username role_name role username Hrole) as Hassigned.
  rewrite decide_True, decide_False in Hassigned by done.
  assert (Hfst : (Acl.assign_role self username role_name).1 = true).
  { unfold Acl.assign_role. rewrite Hrole. by destruct (decide _). }
  set (assigned := (Acl.assign_role self username role_name).2) in *.
  assert (Hlookup : Acl.user_roles assigned !! username
                    = Some (Acl.get_user_roles self username ++ [role_name])).
  { unfold Acl.get_user_roles in Hassigned at 1.
    destruct (Acl.user_roles assigned !! username) as [l|] eqn:Hl.
    - by rewrite <- Hassigned.
    - cbn in Hassigned. by destruct (Acl.get_user_roles self username). }
  unfold Acl.revoke_role. rewrite Hlookup.
  rewrite decide_True by (apply elem_of_app; right; by apply list_elem_of_singleton).
  rewrite list_remove_snoc by done.
  split_and!; [done..|].
  intros u. unfold Acl.get_user_roles at 1. cbn [snd Acl.user_roles].
  destruct (decide (u = username)) as [->|Hne].
  - destruct (decide _) as [Hnil|Hnil].
    + by rewrite lookup_delete_eq, Hnil.
    + by rewrite lookup_insert_eq.
  - transitivity (Acl.get_user_roles assigned u).
    + unfold Acl.get_user_roles.
      destruct (decide _); [by rewrite lookup_delete_ne|by rewrite lookup_insert_ne].
    + unfold assigned. rewrite (assign_role_user_roles _ _ _ role) by done.
      by rewrite decide_False.
Qed.

Lemma X12_revoke_undoes_assign_witness :
  is_Some (Acl.roles (Acl.init None) !! "guest")
  ∧ ("guest" ∉ Acl.get_user_roles (Acl.init None) "ann")
  ∧ (Acl.assign_role (Acl.init None) "ann" "guest").1 = true
  ∧ (Acl.revoke_role (Acl.assign_role (Acl.init None) "ann" "guest").2 "ann" "guest").1 = true
  ∧ ∀ u,
      Acl.get_user_roles
        (Acl.revoke_role (Acl.assign_role (Acl.init None) "ann" "guest").2 "ann" "guest").2 u
      = Acl.get_user_roles (Acl.init None) u.
Proof.
  assert (H1 : is_Some (Acl.roles (Acl.init None) !! "guest")).
  { exists Acl.guest_role. by vm_compute. }
  assert (H2 : "guest" ∉ Acl.get_user_roles (Acl.init None) "ann").
  { vm_compute. by inversion 1. }
  split; [done|]. split; [done|].
  exact (X12_revoke_undoes_assign (Acl.init None) "ann" "guest" H1 H2).
Defined.

Section AclRoleFacts.
Import Acl.

Lemma filter_keeps_other_keys (d : list (Resource * list Permission)) (r : Resource) :
  r ∉ d.*1 → filter (λ kv, ¬ (kv.1 = r ∧ kv.2 = [])) d = d.
Proof.
  induction d as [|[k v] d IH]; [done|]. cbn [fmap list_fmap fst].
  rewrite not_elem_of_cons. intros [Hne Hd].
  rewrite filter_cons_True by (cbn; intros [? _]; congruence). by rewrite IH.
Qed.

Lemma filter_ne_snoc_perm (ps : list Permission) (p : Permission) :
  p ∉ ps → filter (λ q, q ≠ p) (ps ++ [p]) = ps.
Proof.
  intros Hp. rewrite filter_app.
  rewrite filter_cons_False by (by intros H; apply H). rewrite filter_nil, app_nil_r.
  induction ps as [|q ps IH]; [done|]. apply not_elem_of_cons in Hp as [Hq Hp].
  rewrite filter_cons_True by done. by rewrite IH.
Qed.

Lemma add_then_remove_entries (d : list (Resource * list Permission)) r p :
  NoDup d.*1 →
  (∀ ps, (r, ps) ∈ d → (p ∉ ps) ∧ ps ≠ []) →
  filter (λ kv, ¬ (kv.1 = r ∧ kv.2 = []))
    (dict_update
       (dict_update (if decide (r ∈ d.*1) then d else d ++ [(r, [])]) r (set_insert p))
       r (filter (λ q, q ≠ p)))
  = d
  ∧ (r ∈ (dict_update (if decide (r ∈ d.*1) then d else d ++ [(r, [])]) r (set_insert p)).*1).
Proof.
  induction d as [|[k v] d IH]; intros Hnd Hwf.
  - rewrite decide_False by apply not_elem_of_nil. cbn [app dict_update].
    rewrite decide_True by done. cbn [dict_update]. rewrite decide_True by done.
    unfold set_insert. rewrite decide_False by apply not_elem_of_nil. cbn [app].
    assert (Hf : filter (λ q, q ≠ p) [p] = []).
    { by rewrite filter_cons_False by (by intros H; apply H). }
    rewrite Hf. split.
    + by rewrite filter_cons_False by (cbn; tauto).
    + cbn. by left.
  - cbn [fmap list_fmap fst] in *. apply NoDup_cons in Hnd as [Hk Hnd].
    destruct (decide (k = r)) as [->|Hne].
    + rewrite decide_True by by left. cbn [dict_update].
      rewrite decide_True by done. cbn [dict_update]. rewrite decide_True by done.
      destruct (Hwf v) as [Hp Hv]; [by left|].
      unfold set_insert. rewrite decide_False by done. rewrite filter_ne_snoc_perm by done.
      split; [|cbn; by left].
      rewrite filter_cons_True by (cbn; tauto). by rewrite filter_keeps_other_keys.
    + destruct IH as [IH1 IH2]; [done|by intros ps Hin; apply Hwf; right|].
      assert (Hsame : (if decide (r ∈ k :: d.*1) then (k, v) :: d else ((k, v) :: d) ++ [(r, [])])
                      = (k, v) :: (if decide (r ∈ d.*1) then d else d ++ [(r, [])])).
      { destruct (decide (r ∈ d.*1)) as [Hin|Hnot].
        - rewrite decide_True by by right. done.
        - rewrite decide_False; [done|]. rewrite not_elem_of_cons. split; congruence. }
      rewrite Hsame. cbn [dict_update]. rewrite decide_False by done.
      cbn [dict_update]. rewrite decide_False by done.
      rewrite filter_cons_True by (cbn; intros [? _]; congruence).
      split; [by rewrite IH1|]. cbn [fmap list_fmap fst]. by right.
Qed.
End AclRoleFacts.

(** X13: a permission that was added can be taken back.  For a role seen
    as a dict of non-empty sets, removing from a resource the permission
    that was just added to it, and that it did not have, gives the role
    back as it was: the same entries in the same order, the entry created
    for the occasion deleted again. *)
Theorem X13_remove_permission_undoes_add_permission :
  ∀ (role : Acl.Role) (resource : Acl.Resource) (permission : Acl.Permission),
    NoDup (Acl.permissions role).*1 →
    (∀ ps, (resource, ps) ∈ Acl.permissions role → (permission ∉ ps) ∧ ps ≠ []) →
    Acl.remove_permission (Acl.add_permission role resource permission) resource permission
    = role.
Proof.
  intros [n d entries] resource permission Hnd Hwf. cbn [Acl.permissions] in *.
  destruct (add_then_remove_entries entries resource permission Hnd Hwf) as [Heq Hin].
  unfold Acl.remove_permission, Acl.add_permission.
  cbn [Acl.permissions Acl.name Acl.description].
  rewrite decide_True by done. by rewrite Heq.
Qed.

Lemma X13_remove_permission_undoes_add_permission_witness :
  NoDup (Acl.permissions AclExamples.ops_role).*1
  ∧ (∀ ps, (AclExamples.server_s1, ps) ∈ Acl.permissions AclExamples.ops_role →
           (Acl.SERVER_STOP ∉ ps) ∧ ps ≠ [])
  ∧ Acl.remove_permission
      (Acl.add_permission AclExamples.ops_role AclExamples.server_s1 Acl.SERVER_STOP)
      AclExamples.server_s1 Acl.SERVER_STOP
    = AclExamples.ops_role.
Proof.
  assert (Hp : Acl.permissions AclExamples.ops_role
               = [(AclExamples.all_servers, [Acl.SERVER_VIEW]);
                  (AclExamples.server_s1, [Acl.SERVER_MODIFY])]) by by vm_compute.
  assert (H1 : NoDup (Acl.permissions AclExamples.ops_role).*1).
  { rewrite Hp. apply (bool_decide_unpack _). by vm_compute. }
  assert (H2 : ∀ ps, (AclExamples.server_s1, ps) ∈ Acl.permissions AclExamples.ops_role →
                     (Acl.SERVER_STOP ∉ ps) ∧ ps ≠ []).
  { rewrite Hp. intros ps Hin.
    apply elem_of_cons in Hin as [[=]|Hin].
    apply elem_of_cons in Hin as [[= ->]|Hin%elem_of_nil]; [|done].
    split; [|done]. by intros [=]%list_elem_of_singleton. }
  split; [done|]. split; [done|].
  exact (X13_remove_permission_undoes_add_permission AclExamples.ops_role
           AclExamples.server_s1 Acl.SERVER_STOP H1 H2).
Defined.

(** ** Roles through the roles file *)

Section AclFileFacts.
Import Acl AclFile.

#[local] Arguments String.append : simpl nomatch.

Lemma permission_of_name_name p : permission_of_name (permission_name p) = Some p.
Proof. by destruct p. Qed.

Lemma split_once_plain (s : string) :
  Py.contains ":"%char s = false → split_once s = (s, None).
Proof.
  induction s as [|c s IH]; [done|]. cbn [Py.contains split_once].
  destruct (decide (c = ":"%char)); [done|]. intros Hs. by rewrite IH.
Qed.

Lemma split_once_colon (s t : string) :
  Py.contains ":"%char s = false → split_once (s +:+ ":" +:+ t) = (s, Some t).
Proof.
  induction s as [|c s IH]; [done|]. cbn [Py.contains].
  destruct (decide (c = ":"%char)) as [|Hc]; [done|]. intros Hs.
  change (String c s +:+ ?x) with (String c (s +:+ x)). cbn [split_once].
  rewrite decide_False by done. by rewrite IH.
Qed.

Lemma parse_resource_str (r : Resource) : storable r → parse_resource (resource_str r) = r.
Proof.
  intros [Htype Hid]. unfold parse_resource, resource_str.
  destruct r as [type [i|]]; cbn [resource_type resource_id] in *.
  - rewrite bool_decide_eq_false_2 by congruence. by rewrite split_once_colon.
  - by rewrite split_once_plain.
Qed.

Lemma dict_set_fresh {V} (d : list (string * V)) k v :
  k ∉ d.*1 → dict_set d k v = d ++ [(k, v)].
Proof.
  induction d as [|[k' v'] d IH]; [done|]. cbn [dict_set fmap list_fmap fst app].
  rewrite not_elem_of_cons. intros [Hne Hd].
  rewrite decide_False by done. by rewrite IH.
Qed.


Lemma to_dict_fold (acc : list (string * list string))
    (entries : list (Resource * list Permission)) :
  NoDup (acc.*1 ++ (encode <$> entries).*1) →
  foldl (λ permissions_dict kv, dict_set permissions_dict (encode kv).1 (encode kv).2)
        acc entries
  = acc ++ (encode <$> entries).
Proof.
  revert acc. induction entries as [|kv entries IH]; intros acc Hnd.
  - by rewrite app_nil_r.
  - cbn [foldl fmap list_fmap]. rewrite dict_set_fresh.
    + rewrite IH.
      * by rewrite <- app_assoc.
      * rewrite fmap_app, <- app_assoc. exact Hnd.
    + apply NoDup_app in Hnd as (_ & Hdisj & _). intros Hin.
      apply (Hdisj _ Hin). left.
Qed.

Lemma dict_update_last (acc : list (Resource * list Permission)) r l f :
  r ∉ acc.*1 → dict_update (acc ++ [(r, l)]) r f = acc ++ [(r, f l)].
Proof.
  induction acc as [|[k v] acc IH]; cbn [dict_update app fmap list_fmap fst].
  - intros _. by rewrite decide_True.
  - rewrite not_elem_of_cons. intros [Hne Hacc].
    rewrite decide_False by done. by rewrite IH.
Qed.

Lemma add_permission_new n d acc r p :
  r ∉ acc.*1 → add_permission (mkRole n d acc) r p = mkRole n d (acc ++ [(r, [p])]).
Proof.
  intros Hr. unfold add_permission. cbn [permissions name description].
  rewrite decide_False by done. rewrite dict_update_last by done.
  unfold set_insert. by rewrite decide_False by apply not_elem_of_nil.
Qed.

Lemma add_permission_more n d acc r l p :
  r ∉ acc.*1 → p ∉ l →
  add_permission (mkRole n d (acc ++ [(r, l)])) r p = mkRole n d (acc ++ [(r, l ++ [p])]).
Proof.
  intros Hr Hp. unfold add_permission. cbn [permissions name description].
  rewrite decide_True.
  - rewrite dict_update_last by done. unfold set_insert. by rewrite decide_False.
  - rewrite fmap_app. apply elem_of_app. right. by left.
Qed.

(** Adding the permissions of one entry, one by one. *)
Lemma add_permissions_entry n d acc r l ps :
  r ∉ acc.*1 → NoDup (l ++ ps) →
  foldl (λ role permission_name,
           match permission_of_name permission_name with
           | Some permission => add_permission role r permission
           | None => role
           end)
        (mkRole n d (acc ++ [(r, l)])) (permission_name <$> ps)
  = mkRole n d (acc ++ [(r, l ++ ps)]).
Proof.
  intros Hr. revert l. induction ps as [|p ps IH]; intros l Hnd.
  - by rewrite app_nil_r.
  - cbn [foldl fmap list_fmap]. rewrite permission_of_name_name.
    rewrite add_permission_more.
    + rewrite IH; [by rewrite <- app_assoc|]. by rewrite <- app_assoc.
    + done.
    + apply NoDup_app in Hnd as (_ & Hdisj & _). intros Hin.
      apply (Hdisj _ Hin). left.
Qed.

Lemma from_dict_fold n d (acc entries : list (Resource * list Permission)) :
  NoDup (acc.*1 ++ entries.*1) →
  (∀ r ps, (r, ps) ∈ entries → ps ≠ [] ∧ NoDup ps ∧ storable r) →
  foldl (λ role kv,
           let resource := parse_resource kv.1 in
           foldl (λ role permission_name,
                    match permission_of_name permission_name with
                    | Some permission => add_permission role resource permission
                    | None => role
                    end)
                 role kv.2)
        (mkRole n d acc) (encode <$> entries)
  = mkRole n d (acc ++ entries).
Proof.
  revert acc. induction entries as [|[r ps] entries IH]; intros acc Hnd Hwf.
  - by rewrite app_nil_r.
  - cbn [foldl fmap list_fmap encode fst snd].
    destruct (Hwf r ps) as (Hne & Hps & Hst); [by left|].
    rewrite parse_resource_str by done.
    assert (Hr : r ∉ acc.*1).
    { apply NoDup_app in Hnd as (_ & Hdisj & _). intros Hin. apply (Hdisj _ Hin). left. }
    destruct ps as [|p ps]; [done|].
    cbn [foldl fmap list_fmap]. rewrite permission_of_name_name.
    rewrite add_permission_new by done.
    rewrite (add_permissions_entry n d acc r [p] ps Hr Hps).
    rewrite IH.
    + by rewrite <- app_assoc.
    + rewrite fmap_app, <- app_assoc. exact Hnd.
    + intros r' ps' Hin. apply Hwf. by right.
Qed.

Lemma resource_str_inj (entries : list (Resource * list Permission)) :
  NoDup entries.*1 →
  (∀ r ps, (r, ps) ∈ entries → ps ≠ [] ∧ NoDup ps ∧ storable r) →
  NoDup (encode <$> entries).*1.
Proof.
  intros Hnd Hwf.
  assert (Heq : (encode <$> entries).*1 = resource_str <$> entries.*1).
  { rewrite <- !list_fmap_compose. by apply list_fmap_ext. }
  rewrite Heq. clear Heq.
  assert (Hst : ∀ r, r ∈ entries.*1 → storable r).
  { intros r [[r' ps] [-> Hin]]%list_elem_of_fmap. by apply (Hwf r' ps). }
  clear Hwf. induction Hnd as [|r rs Hr Hrs IH]; [constructor|].
  cbn [fmap list_fmap]. constructor.
  - intros [r' [Heq Hin]]%list_elem_of_fmap. apply Hr.
    assert (r = r') as ->; [|done].
    rewrite <- (parse_resource_str r), <- (parse_resource_str r'), Heq; [done|..].
    + apply Hst. by right.
    + apply Hst. by left.
  - apply IH. intros r' Hin. apply Hst. by right.
Qed.
End AclFileFacts.

(** X14: a role survives the roles file.  For a role whose permission
    sets are not empty, whose resource types hold no colon and whose
    resource ids are not the empty string, [from_dict] applied to what
    [to_dict] wrote gives the role back: the same resources in the same
    order with the same permissions. *)
Theorem X14_role_survives_the_file :
  ∀ role : Acl.Role, AclFile.well_formed role → AclFile.from_dict (AclFile.to_dict role) = role.
Proof.
  intros [n d entries] [Hnd Hwf]. cbn [Acl.permissions] in *.
  unfold AclFile.from_dict, AclFile.to_dict.
  cbn [AclFile.data_name AclFile.data_description AclFile.data_permissions
       Acl.name Acl.description Acl.permissions default from_option id].
  rewrite to_dict_fold by by apply resource_str_inj.
  unfold Acl.new_role. rewrite app_nil_l.
  exact (from_dict_fold n d [] entries Hnd Hwf).
Qed.

Lemma X14_role_survives_the_file_witness :
  AclFile.well_formed AclExamples.ops_role
  ∧ AclFile.from_dict (AclFile.to_dict AclExamples.ops_role) = AclExamples.ops_role.
Proof.
  assert (H : AclFile.well_formed AclExamples.ops_role).
  { assert (Hp : Acl.permissions AclExamples.ops_role
                 = [(AclExamples.all_servers, [Acl.SERVER_VIEW]);
                    (AclExamples.server_s1, [Acl.SERVER_MODIFY])]) by by vm_compute.
    unfold AclFile.well_formed. rewrite Hp. split.
    - apply (bool_decide_unpack _). by vm_compute.
    - intros r ps Hin.
      apply elem_of_cons in Hin as [[= -> ->]|Hin];
        [|apply elem_of_cons in Hin as [[= -> ->]|Hin%elem_of_nil]; [|done]].
      + split_and!; [done|apply NoDup_singleton|split; [by vm_compute|done]].
      + split_and!; [done|apply NoDup_singleton|split; [by vm_compute|done]]. }
  split; [done|]. exact (X14_role_survives_the_file AclExamples.ops_role H).
Defined.

(** ** Supervisor: the monitor, status queries and explicit stops *)

Section SupervisorStatusFacts.
Import Supervisor SupervisorStatus.

(** The monitor has nothing to say about an entry it has already seen. *)
Lemma monitor_one_again (w w' : World) (info : ServerInfo) :
  procs w' = procs w →
  mgr_auto_restart (mgr w') = mgr_auto_restart (mgr w) →
  max_retries (mgr w') = max_retries (mgr w) →
  monitor_one w' (monitor_one w info).1 = ((monitor_one w info).1, Nothing).
Proof.
  intros Hp Ha Hm. unfold monitor_one at 2 3.
  destruct (running info) eqn:Hr; cbn [negb].
  - destruct (process info) as [pid|] eqn:Hpid.
    + destruct (poll w pid) as [code|] eqn:Hpoll.
      * by destruct (_ && _); [destruct (bool_decide _)|].
      * cbn [fst]. unfold monitor_one. rewrite Hr, Hpid. cbn [negb].
        unfold poll in *. by rewrite Hp, Hpoll.
    + cbn [fst]. unfold monitor_one. by rewrite Hr, Hpid.
  - cbn [fst]. unfold monitor_one. by rewrite Hr.
Qed.
Lemma filter_verdict_none (m : gmap string ServerInfo) (v : Verdict) :
  v ≠ Nothing →
  filter (λ kv : string * (ServerInfo * Verdict), kv.2.2 = v) ((λ i, (i, Nothing)) <$> m) = ∅.
Proof.
  intros Hv. apply map_eq. intros k. rewrite lookup_empty.
  apply map_lookup_filter_None. right. intros x. rewrite lookup_fmap.
  destruct (m !! k); [|done]. intros [= <-]. cbn. congruence.
Qed.

Lemma monitor_scan_again (w : World) :
  monitor_one (monitor_scan w) <$> servers (mgr (monitor_scan w))
  = (λ i, (i, Nothing)) <$> servers (mgr (monitor_scan w)).
Proof.
  unfold monitor_scan at 2 3. cbn [mgr set_servers servers].
  rewrite <- !map_fmap_compose. apply map_fmap_ext. intros k info _. cbn.
  by apply monitor_one_again.
Qed.

(** A server is among those the pass schedules exactly when the monitor
    asks for a restart on its entry. *)
Lemma scheduled_by_scan_elem (w : World) (server_id : string) :
  server_id ∈ scheduled_by_scan w ↔
  ∃ info, servers (mgr w) !! server_id = Some info ∧ (monitor_one w info).2 = Schedule.
Proof.
  unfold scheduled_by_scan. rewrite list_elem_of_fmap. split.
  - intros [[k v] [-> Hin]]. apply elem_of_map_to_list in Hin.
    apply map_lookup_filter_Some in Hin as [Hl Hv]. rewrite lookup_fmap in Hl.
    cbn [fst]. destruct (servers (mgr w) !! k) as [info|]; [|done].
    injection Hl as <-. by exists info.
  - intros (info & Hl & Hv). exists (server_id, monitor_one w info). split; [done|].
    apply elem_of_map_to_list, map_lookup_filter_Some. split; [|done].
    by rewrite lookup_fmap, Hl.
Qed.
End SupervisorStatusFacts.

(** X15: the monitor reacts to an exit once.  A pass of the monitor that
    follows another with no exit in between changes nothing: no entry is
    touched, no restart task is created, nothing is logged. *)
Theorem X15_monitor_scan_is_idempotent :
  ∀ w : Supervisor.World,
    Supervisor.monitor_scan (Supervisor.monitor_scan w) = Supervisor.monitor_scan w.
Proof.
  intros w. unfold Supervisor.monitor_scan at 1.
  rewrite monitor_scan_again, !filter_verdict_none by done.
  rewrite map_to_list_empty. cbn [fmap list_fmap]. rewrite !app_nil_r.
  rewrite <- map_fmap_compose.
  replace ((fst ∘ λ i : Supervisor.ServerInfo, (i, Supervisor.Nothing))
             <$> Supervisor.servers (Supervisor.mgr (Supervisor.monitor_scan w)))
    with (Supervisor.servers (Supervisor.mgr (Supervisor.monitor_scan w)))
    by (symmetry; apply map_fmap_id).
  by destruct (Supervisor.monitor_scan w) as [[] ? ? ?].
Qed.

(** X16: a status query that sees the exit first costs the restart.  For
    a running server whose child has exited, with automatic restarts on
    and retries left, a pass of the monitor would create the restart task;
    but once [is_server_running] has answered false for it, the pass that
    follows creates no task for it: the query marks the entry as stopped,
    and the monitor skips stopped entries. *)
Theorem X16_status_query_hides_the_exit_from_the_monitor :
  ∀ (w : Supervisor.World) (server_id : string) (info : Supervisor.ServerInfo)
    (pid : nat) (code : Z),
    Supervisor.servers (Supervisor.mgr w) !! server_id = Some info →
    Supervisor.running info = true →
    Supervisor.process info = Some pid →
    Supervisor.poll w pid = Some code →
    Supervisor.mgr_auto_restart (Supervisor.mgr w) = true →
    Supervisor.auto_restart info = true →
    (Supervisor.retries info < Supervisor.max_retries (Supervisor.mgr w))%Z →
    server_id ∈ SupervisorStatus.scheduled_by_scan w
    ∧ Supervisor.pending (Supervisor.monitor_scan w)
      = Supervisor.pending w ++ SupervisorStatus.scheduled_by_scan w
    ∧ (SupervisorStatus.is_server_running w server_id).1 = false
    ∧ (server_id ∉ SupervisorStatus.scheduled_by_scan
                     (SupervisorStatus.is_server_running w server_id).2)
    ∧ Supervisor.pending
        (Supervisor.monitor_scan (SupervisorStatus.is_server_running w server_id).2)
      = Supervisor.pending w
        ++ SupervisorStatus.scheduled_by_scan
             (SupervisorStatus.is_server_running w server_id).2.
Proof.
  intros w server_id info pid code Hinfo Hrun Hpid Hpoll Hauto Hinfo_auto Hretries.
  split_and!.
  - apply scheduled_by_scan_elem. exists info. split; [done|].
    unfold Supervisor.monitor_one. rewrite Hrun, Hpid, Hpoll, Hauto, Hinfo_auto.
    cbn [negb andb]. by rewrite bool_decide_eq_true_2.
  - reflexivity.
  - unfold SupervisorStatus.is_server_running. by rewrite Hinfo, Hrun, Hpid, Hpoll.
  - rewrite scheduled_by_scan_elem. intros (info' & Hl & Hv). revert Hl Hv.
    unfold SupervisorStatus.is_server_running. rewrite Hinfo, Hrun, Hpid, Hpoll.
    cbn [negb snd Supervisor.set_servers Supervisor.mgr Supervisor.servers].
    rewrite lookup_insert_eq. by intros [= <-].
  - unfold SupervisorStatus.is_server_running. rewrite Hinfo, Hrun, Hpid, Hpoll.
    reflexivity.
Qed.

Lemma X16_status_query_hides_the_exit_from_the_monitor_witness :
  let w := SupervisorStatusExamples.crashed in
  let info := SupervisorExamples.flaky_info 0 in
  Supervisor.servers (Supervisor.mgr w) !! "flaky" = Some info
  ∧ Supervisor.running info = true
  ∧ Supervisor.process info = Some 0
  ∧ Supervisor.poll w 0 = Some 1%Z
  ∧ Supervisor.mgr_auto_restart (Supervisor.mgr w) = true
  ∧ Supervisor.auto_restart info = true
  ∧ (Supervisor.retries info < Supervisor.max_retries (Supervisor.mgr w))%Z
  ∧ "flaky" ∈ SupervisorStatus.scheduled_by_scan w
  ∧ Supervisor.pending (Supervisor.monitor_scan w)
    = Supervisor.pending w ++ SupervisorStatus.scheduled_by_scan w
  ∧ (SupervisorStatus.is_server_running w "flaky").1 = false
  ∧ ("flaky" ∉ SupervisorStatus.scheduled_by_scan
                 (SupervisorStatus.is_server_running w "flaky").2)
  ∧ Supervisor.pending
      (Supervisor.monitor_scan (SupervisorStatus.is_server_running w "flaky").2)
    = Supervisor.pending w
      ++ SupervisorStatus.scheduled_by_scan (SupervisorStatus.is_server_running w "flaky").2.
Proof.
  intros w info.
  assert (H1 : Supervisor.servers (Supervisor.mgr w) !! "flaky" = Some info) by by vm_compute.
  assert (H2 : Supervisor.running info = true) by reflexivity.
  assert (H3 : Supervisor.process info = Some 0) by reflexivity.
  assert (H4 : Supervisor.poll w 0 = Some 1%Z) by reflexivity.
  assert (H5 : Supervisor.mgr_auto_restart (Supervisor.mgr w) = true) by reflexivity.
  assert (H6 : Supervisor.auto_restart info = true) by reflexivity.
  assert (H7 : (Supervisor.retries info < Supervisor.max_retries (Supervisor.mgr w))%Z)
    by (vm_compute; reflexivity).
  do 7 (split; [done|]).
  exact (X16_status_query_hides_the_exit_from_the_monitor w "flaky" info 0 1%Z
           H1 H2 H3 H4 H5 H6 H7).
Defined.

(** X17: an explicit stop does not cancel a restart that is already
    scheduled.  When a running server is stopped, which succeeds, and a
    [_delayed_restart] task for it runs afterwards, the server is started
    again: it is running with a new child and a retry counter of zero,
    and the start is logged as an automatic restart. *)
Theorem X17_scheduled_restart_survives_an_explicit_stop :
  ∀ (w : Supervisor.World) (server_id : string) (info : Supervisor.ServerInfo)
    (pid : nat) (code : Z),
    Supervisor.servers (Supervisor.mgr w) !! server_id = Some info →
    Supervisor.running info = true →
    Supervisor.process info = Some pid →
    Py.truthy_str (Supervisor.command (Supervisor.config info)) = true →
    (Supervisor.stop_server w server_id code).1 = true
    ∧ (Supervisor.running
         <$> Supervisor.servers (Supervisor.mgr (Supervisor.stop_server w server_id code).2)
             !! server_id) = Some false
    ∧ ∃ info',
        Supervisor.servers
          (Supervisor.mgr
             (Supervisor.delayed_restart (Supervisor.stop_server w server_id code).2
                server_id true)) !! server_id = Some info'
        ∧ Supervisor.running info' = true
        ∧ Supervisor.process info' = Some (length (Supervisor.procs w))
        ∧ Supervisor.retries info' = 0%Z
        ∧ last (Supervisor.log
                  (Supervisor.delayed_restart (Supervisor.stop_server w server_id code).2
                     server_id true))
          = Some (Supervisor.AutoRestart server_id).
Proof.
  intros w server_id info pid code Hinfo Hrun Hpid Hcmd.
  unfold Supervisor.stop_server. rewrite Hinfo, Hrun, Hpid. cbn [negb fst snd].
  split; [done|]. split.
  { cbn [Supervisor.set_servers Supervisor.mgr Supervisor.servers].
    by rewrite lookup_insert_eq. }
  set (procs' := match Supervisor.poll w pid with Some _ => _ | None => _ end).
  assert (Hlen : length procs' = length (Supervisor.procs w)).
  { unfold procs'. destruct (Supervisor.poll w pid); [done|]. apply length_insert. }
  unfold Supervisor.delayed_restart.
  cbn [Supervisor.set_servers Supervisor.mgr Supervisor.servers Supervisor.procs
       Supervisor.pending Supervisor.log].
  rewrite lookup_insert_eq. cbn [Supervisor.config].
  unfold Supervisor.start_server.
  cbn [Supervisor.set_servers Supervisor.mgr Supervisor.servers Supervisor.procs
       Supervisor.pending Supervisor.log].
  rewrite lookup_insert_eq. cbn [fmap option_fmap option_map default from_option id
                                 Supervisor.running].
  rewrite Hcmd. cbn [negb snd Supervisor.procs].
  rewrite bool_decide_eq_true_2 by (rewrite length_app; cbn [length]; lia).
  eexists. split_and!.
  - cbn [Supervisor.add_log Supervisor.mgr Supervisor.servers]. by rewrite lookup_insert_eq.
  - done.
  - cbn [Supervisor.process]. by rewrite Hlen.
  - done.
  - cbn [Supervisor.add_log Supervisor.log]. by rewrite last_snoc.
Qed.

Lemma X17_scheduled_restart_survives_an_explicit_stop_witness :
  let w := SupervisorExamples.started 3 in
  let info := SupervisorExamples.flaky_info 0 in
  Supervisor.servers (Supervisor.mgr w) !! "flaky" = Some info
  ∧ Supervisor.running info = true
  ∧ Supervisor.process info = Some 0
  ∧ Py.truthy_str (Supervisor.command (Supervisor.config info)) = true
  ∧ (Supervisor.stop_server w "flaky" 0).1 = true
  ∧ (Supervisor.running
       <$> Supervisor.servers (Supervisor.mgr (Supervisor.stop_server w "flaky" 0).2)
           !! "flaky") = Some false
  ∧ ∃ info',
      Supervisor.servers
        (Supervisor.mgr
           (Supervisor.delayed_restart (Supervisor.stop_server w "flaky" 0).2 "flaky" true))
        !! "flaky" = Some info'
      ∧ Supervisor.running info' = true
      ∧ Supervisor.process info' = Some (length (Supervisor.procs w))
      ∧ Supervisor.retries info' = 0%Z
      ∧ last (Supervisor.log
                (Supervisor.delayed_restart (Supervisor.stop_server w "flaky" 0).2
                   "flaky" true))
        = Some (Supervisor.AutoRestart "flaky").
Proof.
  intros w info.
  assert (H1 : Supervisor.servers (Supervisor.mgr w) !! "flaky" = Some info) by by vm_compute.
  assert (H2 : Supervisor.running info = true) by reflexivity.
  assert (H3 : Supervisor.process info = Some 0) by reflexivity.
  assert (H4 : Py.truthy_str (Supervisor.command (Supervisor.config info)) = true)
    by by vm_compute.
  do 4 (split; [done|]).
  exact (X17_scheduled_restart_survives_an_explicit_stop w "flaky" info 0 0%Z H1 H2 H3 H4).
Defined.

(** ** Tokens, API keys and the password check *)

(** X18: an expired token is gone for good.  Validating a token of the
    password provider after its expiry time returns none and evicts it, so
    every later validation returns none as well, also at a clock reading
    before the expiry time. *)
Theorem X18_expired_token_is_evicted :
  ∀ (self : Auth.BasicAuthProvider) (token : string) (user_info : Json.value)
    (expiry now : Z),
    Auth.tokens self !! token = Some user_info →
    Auth.token_expiry self !! token = Some expiry →
    (expiry < now)%Z →
    (Auth.validate_token self token now).1 = None
    ∧ ∀ later,
        Auth.validate_token (Auth.validate_token self token now).2 token later
        = (None, (Auth.validate_token self token now).2).
Proof.
  intros self token user_info expiry now Htoken Hexpiry Hlt.
  assert (Hv : Auth.validate_token self token now
               = (None, Auth.mkProvider (Auth.users self) (delete token (Auth.tokens self))
                          (delete token (Auth.token_expiry self)) (Auth.token_lifetime self))).
  { unfold Auth.validate_token. rewrite Htoken, Hexpiry.
    rewrite bool_decide_eq_true_2 by done. unfold Auth.revoke_token. by rewrite Htoken. }
  rewrite Hv. split; [done|]. intros later.
  unfold Auth.validate_token. cbn [snd Auth.tokens]. by rewrite lookup_delete_eq.
Qed.

Lemma X18_expired_token_is_evicted_witness :
  Auth.tokens AuthExamples.issued !! "t0" = Some AuthExamples.alice
  ∧ Auth.token_expiry AuthExamples.issued !! "t0" = Some 4600%Z
  ∧ (4600 < 4601)%Z
  ∧ (Auth.validate_token AuthExamples.issued "t0" 4601).1 = None
  ∧ ∀ later,
      Auth.validate_token (Auth.validate_token AuthExamples.issued "t0" 4601).2 "t0" later
      = (None, (Auth.validate_token AuthExamples.issued "t0" 4601).2).
Proof.
  assert (H1 : Auth.tokens AuthExamples.issued !! "t0" = Some AuthExamples.alice)
    by by vm_compute.
  assert (H2 : Auth.token_expiry AuthExamples.issued !! "t0" = Some 4600%Z) by by vm_compute.
  assert (H3 : (4600 < 4601)%Z) by lia.
  do 3 (split; [done|]).
  exact (X18_expired_token_is_evicted AuthExamples.issued "t0" AuthExamples.alice
           4600 4601 H1 H2 H3).
Defined.

(** X19: tokens do not interfere.  Generating a token, revoking a token
    or validating a token, at whatever time, leaves the answer of
    [validate_token] for every other token as it was. *)
Theorem X19_tokens_are_independent :
  ∀ (self : Auth.BasicAuthProvider) (token other : string) (now : Z),
    token ≠ other →
    (∀ user_info issued_at,
       (Auth.validate_token (Auth.generate_token self user_info token issued_at).2 other now).1
       = (Auth.validate_token self other now).1)
    ∧ (Auth.validate_token (Auth.revoke_token self token).2 other now).1
      = (Auth.validate_token self other now).1
    ∧ (∀ earlier,
         (Auth.validate_token (Auth.validate_token self token earlier).2 other now).1
         = (Auth.validate_token self other now).1).
Proof.
  intros self token other now Hne.
  assert (Hrevoke : (Auth.validate_token (Auth.revoke_token self token).2 other now).1
                    = (Auth.validate_token self other now).1).
  { unfold Auth.revoke_token. destruct (Auth.tokens self !! token); [|done].
    unfold Auth.validate_token. cbn [snd Auth.tokens Auth.token_expiry].
    rewrite !lookup_delete_ne by done.
    destruct (Auth.tokens self !! other); [|done].
    destruct (Auth.token_expiry self !! other); [|done].
    by destruct (bool_decide _). }
  split_and!; [|done|].
  - intros user_info issued_at.
    unfold Auth.validate_token, Auth.generate_token. cbn [snd Auth.tokens Auth.token_expiry].
    rewrite !lookup_insert_ne by done.
    destruct (Auth.tokens self !! other); [|done].
    destruct (Auth.token_expiry self !! other); [|done].
    by destruct (bool_decide _).
  - intros earlier. unfold Auth.validate_token at 2.
    destruct (Auth.tokens self !! token); [|done].
    destruct (Auth.token_expiry self !! token); [|done].
    by destruct (bool_decide _).
Qed.

Lemma X19_tokens_are_independent_witness :
  "t0" ≠ "t1"
  ∧ (∀ user_info issued_at,
       (Auth.validate_token
          (Auth.generate_token AuthExamples.issued user_info "t0" issued_at).2 "t1" 2000).1
       = (Auth.validate_token AuthExamples.issued "t1" 2000).1)
  ∧ (Auth.validate_token (Auth.revoke_token AuthExamples.issued "t0").2 "t1" 2000).1
    = (Auth.validate_token AuthExamples.issued "t1" 2000).1
  ∧ (∀ earlier,
       (Auth.validate_token (Auth.validate_token AuthExamples.issued "t0" earlier).2
          "t1" 2000).1
       = (Auth.validate_token AuthExamples.issued "t1" 2000).1).
Proof.
  assert (H : "t0" ≠ "t1") by done.
  split; [done|]. exact (X19_tokens_are_independent AuthExamples.issued "t0" "t1" 2000 H).
Defined.

Section AuthProvidersFacts.
Import Json Auth AuthProviders.

Lemma dict_set_get d k v : items_get (dict_set d k v) k = Some v.
Proof.
  induction d as [|[k' v'] d IH]; cbn [dict_set items_get].
  - by rewrite decide_True.
  - destruct (decide (k' = k)) as [->|Hne]; cbn [items_get].
    + by rewrite decide_True.
    + by rewrite decide_False.
Qed.

Lemma dict_set_get_ne d k k' v : k ≠ k' → items_get (dict_set d k v) k' = items_get d k'.
Proof.
  intros Hne. induction d as [|[k0 v0] d IH]; cbn [dict_set items_get].
  - by rewrite decide_False.
  - destruct (decide (k0 = k)) as [->|Hne0]; cbn [items_get].
    + by rewrite !decide_False.
    + by rewrite IH.
Qed.

Lemma filter_key_get (d : list (string * value)) k :
  items_get (filter (λ kv, kv.1 ≠ k) d) k = None.
Proof.
  induction d as [|[k' v'] d IH]; [done|].
  destruct (decide (k' = k)) as [->|Hne].
  - by rewrite filter_cons_False by (by intros H; apply H).
  - rewrite filter_cons_True by done. cbn [items_get]. by rewrite decide_False.
Qed.
End AuthProvidersFacts.

(** X20: an API key does not expire.  The key that the token provider
    generates starts with [nxs_]; validating it returns the profile it was
    generated for at every clock reading and leaves the store as it is,
    and credentials that carry the key authenticate to the same profile. *)
Theorem X20_api_key_never_expires :
  ∀ (self : TokenAuth.TokenAuthProvider) (user_info : Json.value) (hex : string)
    (issued_at later : Z),
    Py.startswith (TokenAuth.generate_token self user_info hex issued_at).1 "nxs_" = true
    ∧ TokenAuth.validate_token
        (TokenAuth.generate_token self user_info hex issued_at).2
        (TokenAuth.generate_token self user_info hex issued_at).1 later
      = (Json.Return (Some user_info),
         (TokenAuth.generate_token self user_info hex issued_at).2)
    ∧ TokenAuth.authenticate
        (TokenAuth.generate_token self user_info hex issued_at).2
        (Json.JDict
           [("api_key",
             Json.JStr (TokenAuth.generate_token self user_info hex issued_at).1)])
        later
      = (Json.Return (Some user_info),
         (TokenAuth.generate_token self user_info hex issued_at).2).
Proof.
  intros self user_info hex issued_at later.
  assert (Hv : TokenAuth.validate_token
                 (TokenAuth.generate_token self user_info hex issued_at).2
                 (TokenAuth.generate_token self user_info hex issued_at).1 later
               = (Json.Return (Some user_info),
                  (TokenAuth.generate_token self user_info hex issued_at).2)).
  { unfold TokenAuth.validate_token, TokenAuth.generate_token.
    cbn [fst snd TokenAuth.tokens]. by rewrite lookup_insert_eq. }
  split_and!; [done|done|].
  unfold TokenAuth.authenticate.
  cbn [Json.get Json.items_get]. rewrite decide_True by done.
  by cbn [Json.truthy_opt Json.truthy negb TokenAuth.generate_token fst].
Qed.

(** X21: the password check is sound and discreet.  When [authenticate]
    returns a profile, the credentials name a user of the users file with
    a password whose hash under the stored salt is the stored hash; and the
    profile returned does not hold the password entry, and holds the user
    name under the key username. *)
Theorem X21_authenticate_is_sound_and_discreet :
  ∀ (hash : string → string → string) (self : Auth.BasicAuthProvider)
    (credentials user_info : Json.value),
    AuthProviders.authenticate hash self credentials = Json.Return (Some user_info) →
    ∃ (u pw salt : string) (user entry profile : list (string * Json.value)),
      Json.get credentials "username" = Json.Return (Some (Json.JStr u))
      ∧ Json.get credentials "password" = Json.Return (Some (Json.JStr pw))
      ∧ Auth.users self !! u = Some (Json.JDict user)
      ∧ Json.items_get user "password" = Some (Json.JDict entry)
      ∧ Json.items_get entry "salt" = Some (Json.JStr salt)
      ∧ Json.items_get entry "hash" = Some (Json.JStr (hash pw salt))
      ∧ user_info = Json.JDict profile
      ∧ Json.has_key profile "password" = false
      ∧ Json.items_get profile "username" = Some (Json.JStr u).
Proof.
  intros hash self credentials user_info. unfold AuthProviders.authenticate.
  destruct (Json.get credentials "username") as [username|] eqn:Hu; [|done].
  destruct (Json.get credentials "password") as [password|] eqn:Hp; [|done].
  destruct (negb (Json.truthy_opt username) || negb (Json.truthy_opt password)); [done|].
  destruct username as [[| | |u| |]|]; try done.
  destruct (Auth.users self !! u) as [user|] eqn:Huser; [|done].
  unfold AuthProviders.stored.
  destruct user as [| | | | |items]; try done. cbn [Json.get_default].
  destruct (Json.items_get items "password") as [entry|] eqn:Hentry;
    cbn [default from_option id]; [|done].
  destruct entry as [| | | | |entry]; try done. cbn [Json.get].
  destruct (Json.items_get entry "hash") as [stored_hash|] eqn:Hhash; [|done].
  destruct (Json.items_get entry "salt") as [stored_salt|] eqn:Hsalt;
    [|by rewrite orb_true_r].
  destruct (negb (Json.truthy_opt _) || negb (Json.truthy_opt _)); [done|].
  destruct password as [[| | |pw| |]|]; try done.
  destruct stored_salt as [| | |salt| |]; try done.
  cbn [Json.of_option default from_option id].
  destruct stored_hash as [| | |h| |]; try done. cbn [Json.eq_str].
  case_bool_decide as Hh; [|done]. cbn [negb]. intros [= <-]. subst h.
  exists u, pw, salt, items, entry. eexists. split_and!; try done.
  - unfold Json.has_key. rewrite dict_set_get_ne by done. by rewrite filter_key_get.
  - apply dict_set_get.
Qed.

Lemma X21_authenticate_is_sound_and_discreet_witness :
  let profile := [("name", Json.JStr "Bob"); ("username", Json.JStr "bob")] in
  AuthProviders.authenticate AuthProvidersExamples.toy_hash AuthProvidersExamples.one_user
      AuthProvidersExamples.bob_credentials
    = Json.Return (Some (Json.JDict profile))
  ∧ ∃ (u pw salt : string) (user entry profile' : list (string * Json.value)),
      Json.get AuthProvidersExamples.bob_credentials "username"
        = Json.Return (Some (Json.JStr u))
      ∧ Json.get AuthProvidersExamples.bob_credentials "password"
        = Json.Return (Some (Json.JStr pw))
      ∧ Auth.users AuthProvidersExamples.one_user !! u = Some (Json.JDict user)
      ∧ Json.items_get user "password" = Some (Json.JDict entry)
      ∧ Json.items_get entry "salt" = Some (Json.JStr salt)
      ∧ Json.items_get entry "hash"
        = Some (Json.JStr (AuthProvidersExamples.toy_hash pw salt))
      ∧ Json.JDict profile = Json.JDict profile'
      ∧ Json.has_key profile' "password" = false
      ∧ Json.items_get profile' "username" = Some (Json.JStr u).
Proof.
  intros profile.
  assert (H : AuthProviders.authenticate AuthProvidersExamples.toy_hash
                AuthProvidersExamples.one_user AuthProvidersExamples.bob_credentials
              = Json.Return (Some (Json.JDict profile))) by by vm_compute.
  split; [done|].
  exact (X21_authenticate_is_sound_and_discreet AuthProvidersExamples.toy_hash
           AuthProvidersExamples.one_user AuthProvidersExamples.bob_credentials
           (Json.JDict profile) H).
Defined.

(** ** The operations of the client role *)

Section ClientOpsFacts.
Import Json Client ClientOps.

#[local] Arguments String.append : simpl nomatch.

(** Splitting at a separator that is there: the parts before it, then the
    parts after it. *)
Lemma split_go_app (c : ascii) (cur a b : string) :
  Py.split_go c cur (a +:+ String c b) = Py.split_go c cur a ++ Py.split_go c EmptyString b.
Proof.
  revert cur. induction a as [|x a IH]; intros cur; cbn [String.append Py.split_go].
  - by rewrite decide_True.
  - destruct (decide (x = c)); cbn [app]; by rewrite IH.
Qed.

Lemma walk_app (l1 l2 : list string) (tree : value) :
  walk (l1 ++ l2) tree = true → walk l1 tree = true.
Proof.
  revert tree. induction l1 as [|part l1 IH]; intros tree; [done|].
  cbn [app walk]. destruct tree as [| | | | |d]; try done.
  destruct (items_get d part); [apply IH|done].
Qed.

Lemma uninitialized_has_no_capability self path :
  initialized self = false → has_capability self path = false.
Proof. unfold has_capability. by intros ->. Qed.
End ClientOpsFacts.

(** X22: capabilities are closed under prefixes of the path.  When the
    query for a dotted path answers true, so does the query for the path
    before any of its dots: a client that may subscribe to resources
    ([resources.subscriptions]) may list them ([resources]). *)
Theorem X22_capability_paths_are_prefix_closed :
  ∀ (self : Client.ClientProtocol) (outer inner : string),
    Client.has_capability self (outer +:+ "." +:+ inner) = true →
    Client.has_capability self outer = true.
Proof.
  intros self outer inner. unfold Client.has_capability.
  destruct (Client.initialized self); [|done]. cbn [negb].
  unfold Py.split. change ("." +:+ inner) with (String "."%char inner).
  rewrite split_go_app. apply walk_app.
Qed.

Lemma X22_capability_paths_are_prefix_closed_witness :
  Client.has_capability ClientOpsExamples.subscribing ("resources" +:+ "." +:+ "subscriptions")
    = true
  ∧ Client.has_capability ClientOpsExamples.subscribing "resources" = true.
Proof.
  assert (H : Client.has_capability ClientOpsExamples.subscribing
                ("resources" +:+ "." +:+ "subscriptions") = true) by by vm_compute.
  split; [done|].
  exact (X22_capability_paths_are_prefix_closed ClientOpsExamples.subscribing
           "resources" "subscriptions" H).
Defined.

(** X23: a client that is not initialized asks the server for nothing.
    On a fresh instance, after a shutdown and after a disconnect that
    closed the transport, each of the nine operations fails with the
    unsupported-capability error and sends no request, whatever the
    server had declared before. *)
Theorem X23_uninitialized_client_sends_nothing :
  ∀ (send_request : string → Json.value → Protocol.result Json.value)
    (uri name arguments id request : Json.value) (self : Client.ClientProtocol),
    Forall (λ operation,
              Forall (λ state : Client.ClientProtocol,
                        ∃ message,
                          operation state
                          = (Protocol.Err ClientOps.UNSUPPORTED_CAPABILITY message None, []))
                     [Client.init; Client.shutdown self; Client.disconnect self true])
           (ClientOps.operations send_request uri name arguments id request).
Proof.
  intros send_request uri name arguments id request self.
  assert (Hstates : Forall (λ state, Client.initialized state = false)
                      [Client.init; Client.shutdown self; Client.disconnect self true]).
  { repeat constructor. unfold Client.shutdown. by destruct (Client.initialized self) eqn:E. }
  assert (Hop : ∀ operation : Client.ClientProtocol → Protocol.result Json.value * ClientOps.Sent,
             (∀ state, Client.initialized state = false →
                ∃ message,
                  operation state
                  = (Protocol.Err ClientOps.UNSUPPORTED_CAPABILITY message None, [])) →
             Forall (λ state,
                       ∃ message,
                         operation state
                         = (Protocol.Err ClientOps.UNSUPPORTED_CAPABILITY message None, []))
                    [Client.init; Client.shutdown self; Client.disconnect self true]).
  { intros operation H. eapply Forall_impl; [exact Hstates|]. intros state. apply H. }
  unfold ClientOps.operations.
  repeat (apply Forall_cons_2;
          [apply Hop; intros state Hstate;
           unfold ClientOps.list_resources, ClientOps.read_resource,
             ClientOps.subscribe_resource, ClientOps.unsubscribe_resource,
             ClientOps.list_tools, ClientOps.call_tool, ClientOps.list_prompts,
             ClientOps.get_prompt, ClientOps.sample;
           rewrite uninitialized_has_no_capability by done; by eexists|]).
  apply Forall_nil_2.
Qed.

(** ** The server role: subscriptions *)

Section ServerFacts.
Import Json Protocol Server.

Lemma subscribers_update subs k f :
  subscribers (update_subscribers subs k f) k = f <$> subscribers subs k.
Proof.
  induction subs as [|[k' ids] subs IH]; [done|]. cbn [update_subscribers subscribers].
  destruct (decide (k' = k)) as [->|Hne]; cbn [subscribers].
  - by rewrite decide_True.
  - by rewrite decide_False.
Qed.

Lemma subscribers_snoc subs k ids :
  subscribers subs k = None → subscribers (subs ++ [(k, ids)]) k = Some ids.
Proof.
  induction subs as [|[k' ids'] subs IH]; cbn [app subscribers].
  - intros _. by rewrite decide_True.
  - destruct (decide (k' = k)); [done|]. apply IH.
Qed.

Lemma subscription_uri_ok self d uri :
  supports_subscriptions self = Ok true →
  items_get d "uri" = Some uri →
  subscription_uri self (JDict d) = Ok uri.
Proof.
  intros Hs Hu. unfold subscription_uri. rewrite Hs.
  unfold mbind, result_bind, bind. cbn [negb py_in py_index].
  unfold has_key. by rewrite Hu.
Qed.
End ServerFacts.

(** X24: resource updates are announced exactly while somebody is
    subscribed.  On a server that completed the handshake and declared
    resources with subscriptions, a subscribe request for a URI succeeds
    and from then on an update of that URI is announced; an unsubscribe
    request for the URI succeeds and from then on it is not; and after a
    disconnect and a new handshake no subscription is left.  The only
    client id among the subscribers is the placeholder, which is all the
    handlers ever add. *)
Theorem X24_updates_are_announced_while_subscribed :
  ∀ (self : Server.ServerProtocol) (d : list (string * Json.value)) (uri : string),
    Server.initialized self = true →
    Server.supports_subscriptions self = Protocol.Ok true →
    Json.items_get d "uri" = Some (Json.JStr uri) →
    (∀ ids, Server.subscribers (Server.subscriptions self) (Server.KStr uri) = Some ids →
            Forall (λ id, id = "default") ids) →
    let subscribed := Server._handle_resources_subscribe self (Json.JDict d) in
    let unsubscribed := Server._handle_resources_unsubscribe subscribed.2 (Json.JDict d) in
    subscribed.1 = Protocol.Ok (Json.JDict [])
    ∧ Server.notify_resource_updated subscribed.2 uri
      = Some ("notifications/resources/updated", Json.JDict [("uri", Json.JStr uri)])
    ∧ unsubscribed.1 = Protocol.Ok (Json.JDict [])
    ∧ Server.notify_resource_updated unsubscribed.2 uri = None
    ∧ Server.notify_resource_updated
        (Server._handle_initialized (Server.disconnect subscribed.2)) uri = None.
Proof.
  intros self d uri Hinit Hsupp Huri Hids subscribed unsubscribed.
  assert (Hsub : ∃ ids,
            subscribed
            = (Protocol.Ok (Json.JDict []),
               Server.with_subscriptions self ids)
            ∧ ∃ l, Server.subscribers ids (Server.KStr uri) = Some l
                   ∧ l ≠ [] ∧ Forall (λ id, id = "default") l).
  { unfold subscribed, Server._handle_resources_subscribe.
    rewrite (subscription_uri_ok self d (Json.JStr uri)) by done. cbn [Server.key_of].
    eexists. split; [done|]. rewrite subscribers_update.
    destruct (Server.subscribers (Server.subscriptions self) (Server.KStr uri))
      as [ids|] eqn:Hl.
    - rewrite Hl. cbn [fmap option_fmap option_map]. eexists. split; [done|].
      destruct (decide _) as [Hin|Hnot].
      + split; [by intros ->; apply elem_of_nil in Hin|by apply Hids].
      + split; [by destruct ids|]. apply Forall_app. split; [by apply Hids|].
        by repeat constructor.
    - rewrite subscribers_snoc by done. cbn [fmap option_fmap option_map].
      eexists. split; [done|]. rewrite decide_False by apply not_elem_of_nil.
      split; [done|]. by repeat constructor. }
  destruct Hsub as (subs & Hsubscribed & l & Hl & Hne & Hall).
  assert (Hsupp' : Server.supports_subscriptions subscribed.2 = Protocol.Ok true).
  { by rewrite Hsubscribed. }
  unfold unsubscribed, Server._handle_resources_unsubscribe.
  rewrite (subscription_uri_ok _ d (Json.JStr uri)) by done. cbn [Server.key_of].
  rewrite Hsubscribed. cbn [fst snd]. split_and!; try done.
  - unfold Server.notify_resource_updated.
    cbn [Server.with_subscriptions Server.initialized Server.subscriptions].
    rewrite Hinit, Hl. cbn [negb]. by destruct l.
  - unfold Server.notify_resource_updated.
    cbn [Server.with_subscriptions Server.initialized Server.subscriptions].
    rewrite Hinit, subscribers_update, Hl. cbn [negb fmap option_fmap option_map].
    replace (filter (λ id : string, id ≠ "default") l) with (@nil string); [done|].
    clear -Hall. induction Hall as [|id l Hid Hall IH]; [done|].
    by rewrite filter_cons_False by (by intros H; apply H).
Qed.

Lemma X24_updates_are_announced_while_subscribed_witness :
  let self := ServerExamples.serving in
  let d := [("uri", Json.JStr "file:///readme")] in
  let uri := "file:///readme" in
  Server.initialized self = true
  ∧ Server.supports_subscriptions self = Protocol.Ok true
  ∧ Json.items_get d "uri" = Some (Json.JStr uri)
  ∧ (∀ ids, Server.subscribers (Server.subscriptions self) (Server.KStr uri) = Some ids →
            Forall (λ id, id = "default") ids)
  ∧ (let subscribed := Server._handle_resources_subscribe self (Json.JDict d) in
     let unsubscribed := Server._handle_resources_unsubscribe subscribed.2 (Json.JDict d) in
     subscribed.1 = Protocol.Ok (Json.JDict [])
     ∧ Server.notify_resource_updated subscribed.2 uri
       = Some ("notifications/resources/updated", Json.JDict [("uri", Json.JStr uri)])
     ∧ unsubscribed.1 = Protocol.Ok (Json.JDict [])
     ∧ Server.notify_resource_updated unsubscribed.2 uri = None
     ∧ Server.notify_resource_updated
         (Server._handle_initialized (Server.disconnect subscribed.2)) uri = None).
Proof.
  intros self d uri.
  assert (H1 : Server.initialized self = true) by reflexivity.
  assert (H2 : Server.supports_subscriptions self = Protocol.Ok true) by by vm_compute.
  assert (H3 : Json.items_get d "uri" = Some (Json.JStr uri)) by by vm_compute.
  assert (H4 : ∀ ids, Server.subscribers (Server.subscriptions self) (Server.KStr uri)
                      = Some ids → Forall (λ id, id = "default") ids) by done.
  do 4 (split; [done|]).
  exact (X24_updates_are_announced_while_subscribed self d uri H1 H2 H3 H4).
Defined.

(** ** Tokens and permissions together *)

Section SecurityFacts.
Import Json Acl Security.

Lemma provider_validate_token_sound p token now user_info p' :
  provider_validate_token p token now = (Return (Some user_info), p') →
  holds p token user_info.
Proof.
  destruct p as [b|t]; cbn [provider_validate_token holds].
  - unfold Auth.validate_token.
    destruct (Auth.tokens b !! token) as [v|]; [|done].
    destruct (Auth.token_expiry b !! token); [destruct (bool_decide _)|]; cbn; congruence.
  - unfold TokenAuth.validate_token.
    destruct (TokenAuth.tokens t !! token) as [info|]; [|done].
    destruct info as [| | | | |info]; try done. cbn [get get_default].
    destruct (TokenAuth.expired _ _) as [[]|]; try done.
    intros [= <- _]. by exists info.
Qed.

Lemma validate_all_sound providers token now user_info providers' :
  validate_all providers token now = (Return (Some user_info), providers') →
  ∃ name p, (name, p) ∈ providers ∧ holds p token user_info.
Proof.
  revert providers'. induction providers as [|[name p] rest IH]; intros providers'; [done|].
  cbn [validate_all].
  destruct (provider_validate_token p token now) as [[found|e] p'] eqn:Hp; [|done].
  destruct (truthy_opt found) eqn:Ht.
  - intros [= -> _]. exists name, p. split; [left|].
    by apply (provider_validate_token_sound _ _ now _ p').
  - destruct (validate_all rest token now) as [out rest'] eqn:Hrest. cbn [fst snd].
    intros [= -> _]. destruct (IH rest' eq_refl) as (n & q & Hin & Hq).
    exists n, q. split; [by right|done].
Qed.
End SecurityFacts.

(** X25: no permission without a stored token.  When
    [check_permission] answers true, one of the providers stores a
    profile under the token, the profile names a user under the key
    username, and the access control list grants that user the permission
    on the resource; so an unknown token is never let through. *)
Theorem X25_check_permission_is_sound :
  ∀ (providers providers' : list (string * Security.Provider))
    (acl : Acl.AccessControlList) (token resource_type : string)
    (resource_id : option string) (permission : Acl.Permission) (now : Z),
    Security.check_permission providers acl token resource_type resource_id permission now
      = (Json.Return true, providers') →
    ∃ (name : string) (provider : Security.Provider) (profile : list (string * Json.value))
      (username : string),
      (name, provider) ∈ providers
      ∧ Security.holds provider token (Json.JDict profile)
      ∧ Json.items_get profile "username" = Some (Json.JStr username)
      ∧ Acl.has_permission acl username (Acl.mkResource resource_type resource_id) permission
        = true.
Proof.
  intros providers providers' acl token resource_type resource_id permission now.
  unfold Security.check_permission, Security.validate_token.
  cbn [Py.truthy_str].
  destruct (Security.validate_all providers token now) as [[user_info|e] ps] eqn:Hv; [|done].
  destruct user_info as [user_info|]; [|done].
  cbn [Json.truthy_opt Json.of_option default from_option id].
  destruct (Json.truthy user_info); [|done]. cbn [negb].
  destruct user_info as [| | | | |profile]; try done. cbn [Json.get].
  destruct (Json.items_get profile "username") as [username|] eqn:Hu; [|done].
  cbn [Json.truthy_opt]. destruct (Json.truthy username); [|done]. cbn [negb].
  destruct username as [| | |u| |]; try done.
  intros [= Hp _].
  destruct (validate_all_sound _ _ _ _ _ Hv) as (name & p & Hin & Hholds).
  by exists name, p, profile, u.
Qed.

Lemma X25_check_permission_is_sound_witness :
  Security.check_permission SecurityExamples.two_providers SecurityExamples.alice_is_guest
      "t0" "server" (Some "s1") Acl.SERVER_VIEW 2000
    = (Json.Return true, SecurityExamples.two_providers)
  ∧ ∃ (name : string) (provider : Security.Provider) (profile : list (string * Json.value))
      (username : string),
      (name, provider) ∈ SecurityExamples.two_providers
      ∧ Security.holds provider "t0" (Json.JDict profile)
      ∧ Json.items_get profile "username" = Some (Json.JStr username)
      ∧ Acl.has_permission SecurityExamples.alice_is_guest username
          (Acl.mkResource "server" (Some "s1")) Acl.SERVER_VIEW = true.
Proof.
  assert (H : Security.check_permission SecurityExamples.two_providers
                SecurityExamples.alice_is_guest "t0" "server" (Some "s1") Acl.SERVER_VIEW 2000
              = (Json.Return true, SecurityExamples.two_providers)) by by vm_compute.
  split; [done|].
  exact (X25_check_permission_is_sound SecurityExamples.two_providers
           SecurityExamples.two_providers SecurityExamples.alice_is_guest "t0" "server"
           (Some "s1") Acl.SERVER_VIEW 2000 H).
Defined.

(** ** Responses of the hub-directed handler *)

Section HubReplyFacts.
Import Json Hub.

Lemma reply_shape message key body :
  key = "result" ∨ key = "error" →
  ∃ d, reply message key body = JDict d
       ∧ items_get d "id" = Some (of_option (items_get message "id"))
       ∧ has_key d "jsonrpc" = false.
Proof. intros [-> | ->]; by eexists. Qed.

Lemma reply_not_a_response message key body requester :
  key = "result" ∨ key = "error" →
  Protocol._handle_response requester (reply message key body) = Protocol.Ok requester.
Proof. by intros [-> | ->]. Qed.

(** Every response of the handler is a [reply] under one of the two keys. *)
Lemma _handle_hub_directed_message_reply env message response :
  _handle_hub_directed_message env message = Return (Some response) →
  ∃ key body, (key = "result" ∨ key = "error") ∧ response = reply message key body.
Proof.
  unfold _handle_hub_directed_message.
  repeat match goal with
         | |- context [if ?b then _ else _] => destruct b
         | |- context [match ?x with _ => _ end] => destruct x
         end;
    try done; intros [= <-]; eexists _, _; (split; [|reflexivity]); auto.
Qed.
End HubReplyFacts.

(** X26: what the hub-directed handler answers is not a JSON-RPC
    response.  Every response it builds carries the id of the message
    under the key id and has no jsonrpc member; the response handler of the
    protocol therefore drops it, and a requester waiting on that id is
    left waiting. *)
Theorem X26_hub_replies_are_not_protocol_responses :
  ∀ (env : Hub.Environment) (message : list (string * Json.value)) (response : Json.value),
    Hub._handle_hub_directed_message env message = Json.Return (Some response) →
    (∃ d, response = Json.JDict d
          ∧ Json.items_get d "id" = Some (Json.of_option (Json.items_get message "id"))
          ∧ Json.has_key d "jsonrpc" = false)
    ∧ ∀ requester : Protocol.State,
        Protocol._handle_response requester response = Protocol.Ok requester.
Proof.
  intros env message response Hr.
  destruct (_handle_hub_directed_message_reply env message response Hr)
    as (key & body & Hkey & ->).
  split; [by apply reply_shape|]. intros requester. by apply reply_not_a_response.
Qed.

Lemma X26_hub_replies_are_not_protocol_responses_witness :
  let response :=
    Hub.reply HubExamples.status_request "result"
      (Json.JDict [("status", Json.JStr "running"); ("server_count", Json.JInt 0);
                   ("client_count", Json.JInt 0); ("mcp_server_count", Json.JInt 0);
                   ("mcp_client_count", Json.JInt 0)]) in
  Hub._handle_hub_directed_message HubExamples.idle_env HubExamples.status_request
    = Json.Return (Some response)
  ∧ (∃ d, response = Json.JDict d
          ∧ Json.items_get d "id"
            = Some (Json.of_option (Json.items_get HubExamples.status_request "id"))
          ∧ Json.has_key d "jsonrpc" = false)
  ∧ ∀ requester : Protocol.State,
      Protocol._handle_response requester response = Protocol.Ok requester.
Proof.
  intros response.
  assert (H : Hub._handle_hub_directed_message HubExamples.idle_env HubExamples.status_request
              = Json.Return (Some response)) by by vm_compute.
  split; [done|].
  exact (X26_hub_replies_are_not_protocol_responses HubExamples.idle_env
           HubExamples.status_request response H).
Defined.
